(** * GuestFlow: guest tickets, classification fallback and the staff board

    A shallow embedding of the ticket controller
    ([classifyWithExternalAPI], [createGuestTicket], [getTickets]) and of
    the dashboard page ([groupRelatedTickets], the related-ticket filter,
    [fetchData], [getFilteredTickets]).

    Conventions of the model.
    - A JavaScript string is a [string]; case mapping and white space are
      the ASCII ones, any other character is carried unchanged and is
      neither a letter nor white space (the white space of Unicode beyond
      ASCII is outside the model).
    - A date is the number of milliseconds [new Date(s).getTime()] yields,
      an integer of [Z]; a string that is no date is outside the model.
      [Math.floor(t / 300000)] is the quotient of [Z]: below 2^53 the
      rounding of the division cannot reach the next integer.
    - A JavaScript number that holds a confidence is a rational of [Q].
    - Server code runs in a monad over the server state that also carries
      the thrown value of an exception; a [try]/[catch] keeps the state
      changes made before the throw, as JavaScript does.
    - The Mongoose models [Ticket] and [Room] are not part of the
      controller: the store is a list of documents, and a schedule of
      faults in the server state says which of the next round trips
      ([findOne], [create], [populate], [find]) throws, for whatever
      reason (validation, connection).
    - The external classifier is a function from the request body to its
      answer or to the error [axios] throws. An answer is a classification
      object: a record with the fields of [Classification], whose
      [categories], when there, is an array of objects with a [category]
      text. [axios] does not check the body it resolves with, and the
      handlers do not either: an answer of another shape (JSON [null], a
      text, an array with a [null] entry) is outside the model, and the
      statements below speak of answers that are classification objects
      only. *)

From Stdlib Require Import List String Ascii ZArith QArith Bool Arith Lia.
From Stdlib Require Import Permutation Sorted.
From Stdlib Require Import DecimalString DecimalPos DecimalZ.
Import ListNotations.

Local Open Scope string_scope.
Local Open Scope Z_scope.

(** ** Strings *)

Module Js.

Definition is_upper (c : ascii) : bool :=
  let n := nat_of_ascii c in (Nat.leb 65 n && Nat.leb n 90)%bool.

Definition is_lower (c : ascii) : bool :=
  let n := nat_of_ascii c in (Nat.leb 97 n && Nat.leb n 122)%bool.

Definition lower_char (c : ascii) : ascii :=
  if is_upper c then ascii_of_nat (nat_of_ascii c + 32) else c.

Definition upper_char (c : ascii) : ascii :=
  if is_lower c then ascii_of_nat (nat_of_ascii c - 32) else c.

Fixpoint map_chars (f : ascii -> ascii) (s : string) : string :=
  match s with
  | EmptyString => EmptyString
  | String c r => String (f c) (map_chars f r)
  end.

(** [String.prototype.toLowerCase] and [toUpperCase]. *)
Definition toLowerCase : string -> string := map_chars lower_char.
Definition toUpperCase : string -> string := map_chars upper_char.

(** White space: tab, line feed, vertical tab, form feed, carriage
    return and space; the class of [\s] and of [trim]. *)
Definition is_space (c : ascii) : bool :=
  let n := nat_of_ascii c in
  (Nat.leb 9 n && Nat.leb n 13 || Nat.eqb n 32)%bool.

Fixpoint trimStart (s : string) : string :=
  match s with
  | EmptyString => EmptyString
  | String c r => if is_space c then trimStart r else s
  end.

Fixpoint rev_string (s acc : string) : string :=
  match s with
  | EmptyString => acc
  | String c r => rev_string r (String c acc)
  end.

Definition trimEnd (s : string) : string :=
  rev_string (trimStart (rev_string s EmptyString)) EmptyString.

(** [String.prototype.trim]. *)
Definition trim (s : string) : string := trimEnd (trimStart s).

(** [String.prototype.includes]. *)
Fixpoint includes (needle hay : string) : bool :=
  if String.prefix needle hay then true
  else match hay with
       | EmptyString => false
       | String _ r => includes needle r
       end.

(** A number that holds an integer, printed as a template literal
    prints it. *)
Definition number_to_string (z : Z) : string :=
  NilZero.string_of_int (Z.to_int z).

(** Truthiness of a string: only the empty one is falsy. *)
Definition truthy (s : string) : bool :=
  negb (String.eqb s EmptyString).

(** Truthiness of a value that may be [undefined] or a string. *)
Definition truthy_opt (o : option string) : bool :=
  match o with
  | Some s => truthy s
  | None => false
  end.

(** [o || d] for a value that may be [undefined] or a string. *)
Definition or_default (o : option string) (d : string) : string :=
  match o with
  | Some s => if truthy s then s else d
  | None => d
  end.

End Js.

(** ** Data model *)

Inductive Status := raised | in_progress | completed.

Definition Status_eqb (a b : Status) : bool :=
  match a, b with
  | raised, raised | in_progress, in_progress | completed, completed => true
  | _, _ => false
  end.

Definition Status_to_string (s : Status) : string :=
  match s with
  | raised => "raised"
  | in_progress => "in_progress"
  | completed => "completed"
  end.

Inductive Sender := guest | manager_sender | ai_assistant | system.

Record Message := mkMessage {
  content : string;
  sender : Sender;
  senderName : string;
  timestamp : Z
}.

Record Room := mkRoom {
  room_id : string;
  number : string;
  manager : option string
}.

(** The [room] field of a ticket: the id of a room, or what [populate]
    put in its place (the room document, [null] when there is none). *)
Inductive RoomRef :=
| RoomId (id : string)
| RoomDoc (r : option Room).

Record GuestInfo := mkGuestInfo {
  name : string;
  email : string;
  phone : string
}.

Record Ticket := mkTicket {
  _id : string;
  room : RoomRef;
  roomNumber : string;
  category : option string;
  guestInfo : GuestInfo;
  status : Status;
  ticket_manager : option string;
  subject : string;
  messages : list Message;
  priority : string;
  estimatedCompletion : option string;
  ticket_confidence : Q;
  createdAt : Z;
  updatedAt : Z
}.

(** The external classifier's answer.

    An entry of [categories] is an object with a [category] text. An
    entry that is [null] or has no [category] is outside the model. The
    loop of [createGuestTicket] throws on such an entry while it builds
    the argument of [Ticket.create] (at [categoryInfo.category], or at
    its [toUpperCase()]), so before [Ticket.create] is called; for a
    [null] entry the inner [catch] throws again, on
    [categoryInfo.category] in its message, and the handler answers 500
    after the tickets of the earlier entries were stored and emitted. *)
Record CategoryInfo := mkCategoryInfo {
  ci_category : string;
  ci_message : string;
  ci_urgency : option string
}.

Record Classification := mkClassification {
  should_create_ticket : bool;
  categories : option (list CategoryInfo);
  confidence : Q;
  reasoning : string;
  suggested_priority : string;
  estimated_completion_time : option string
}.

(** ** The server monad *)

(** The data-base round trips of the controller. *)
Inductive DbOp := OpFindOne | OpCreate | OpPopulate | OpFind.

(** Thrown values. *)
Inductive Exn :=
| AxiosError
| TypeError
| DbError (op : DbOp).

Inductive Completion (A : Type) :=
| Normal (a : A)
| Throw (e : Exn).
Arguments Normal {A} a.
Arguments Throw {A} e.

(** What the handlers do to the outside world, in order. *)
Inductive Effect :=
| AxiosPost (guest_message room_number : string)
| RoomFindOne (n : string)
| TicketCreate (cat : string)
| TicketPopulate (id : string)
| TicketFind (st cat : option string)
| IoEmit (event : string) (t : Ticket) (notification : string)
| ConsoleLog
| ConsoleError (e : Exn).

Record Server := mkServer {
  tickets_coll : list Ticket;
  rooms_coll : list Room;
  (** the answer of the external classifier to a request body *)
  classifier : string -> string -> Completion Classification;
  (** the fate of the next data-base operations: [true] makes the
      operation throw; past the end of the list they succeed *)
  db_faults : list bool;
  (** whether [req.app.get("io")] is there *)
  io : bool;
  clock : Z;
  next_id : nat;
  trace : list Effect
}.

Definition M (A : Type) : Type := Server -> Completion A * Server.

Definition ret {A} (a : A) : M A := fun s => (Normal a, s).

Definition bind {A B} (m : M A) (k : A -> M B) : M B :=
  fun s => match m s with
           | (Normal a, s') => k a s'
           | (Throw e, s') => (Throw e, s')
           end.

Definition throw {A} (e : Exn) : M A := fun s => (Throw e, s).

Definition try_catch {A} (m : M A) (handler : Exn -> M A) : M A :=
  fun s => match m s with
           | (Normal a, s') => (Normal a, s')
           | (Throw e, s') => handler e s'
           end.

Declare Scope server_scope.
Delimit Scope server_scope with server.
Notation "x <- m ;; k" := (bind m (fun x => k))
  (at level 61, m at next level, right associativity) : server_scope.
Notation "m ;;; k" := (bind m (fun _ => k))
  (at level 61, right associativity) : server_scope.
Local Open Scope server_scope.

Definition gets {A} (f : Server -> A) : M A := fun s => (Normal (f s), s).

Definition modify (f : Server -> Server) : M unit :=
  fun s => (Normal tt, f s).

Definition set_trace (s : Server) (tr : list Effect) : Server :=
  mkServer (tickets_coll s) (rooms_coll s) (classifier s) (db_faults s)
           (io s) (clock s) (next_id s) tr.

Definition set_db_faults (s : Server) (fs : list bool) : Server :=
  mkServer (tickets_coll s) (rooms_coll s) (classifier s) fs
           (io s) (clock s) (next_id s) (trace s).

Definition insert_ticket (s : Server) (t : Ticket) : Server :=
  mkServer (tickets_coll s ++ [t]) (rooms_coll s) (classifier s)
           (db_faults s) (io s) (clock s) (S (next_id s)) (trace s).

Definition effect (e : Effect) : M unit :=
  modify (fun s => set_trace s (trace s ++ [e])).

(** One round trip to the data base takes the next fault. Whether the
    next round trip succeeds: *)
Definition db_next_ok (s : Server) : bool :=
  match db_faults s with
  | true :: _ => false
  | _ => true
  end.

Definition db_op (op : DbOp) : M unit :=
  fun s =>
    let s' := set_db_faults s (tl (db_faults s)) in
    if db_next_ok s then (Normal tt, s') else (Throw (DbError op), s').

(** ** Classification gateway *)

Definition fallback : Classification :=
  {| should_create_ticket := false;
     categories := Some [];
     confidence := 0.0;
     reasoning := "Classification service unavailable";
     suggested_priority := "low";
     estimated_completion_time := None |}.

(** [roomNumber.toString()]: a [TypeError] on [undefined]. *)
Definition toString (v : option string) : M string :=
  match v with
  | Some s => ret s
  | None => throw TypeError
  end.

(** [axios.post(url, body)]: the promise is rejected on a network error
    and on a response whose status is not a success; otherwise it
    resolves to the response, whose [data] this returns. [axios] hands
    over whatever body the classifier sent; the model has the bodies that
    are classification objects. On a body [null] the handlers throw when
    they read [classification.should_create_ticket] and answer 500 from
    their [catch]: that run is not in the model. *)
Definition axios_post (guest_message room_number : string) : M Classification :=
  effect (AxiosPost guest_message room_number) ;;;
  fun s => (classifier s guest_message room_number, s).

Definition classifyWithExternalAPI (message : string) (roomNumber : option string)
  : M Classification :=
  try_catch
    (effect ConsoleLog ;;;
     room_number <- toString roomNumber ;;
     data <- axios_post message room_number ;;
     effect ConsoleLog ;;;
     ret data)
    (fun error =>
       effect (ConsoleError error) ;;;
       ret fallback).

(** ** Ticket store operations used by the controller *)

(** The id the store gives to its [n]-th document. *)
Definition fresh_id (n : nat) : string :=
  "t" ++ NilZero.string_of_uint (Nat.to_uint n).

Definition new_Date : M Z := gets clock.

(** [Room.findOne({ number })]. *)
Definition Room_findOne (n : string) : M (option Room) :=
  effect (RoomFindOne n) ;;;
  db_op OpFindOne ;;;
  gets (fun s => find (fun r => String.eqb (number r) n) (rooms_coll s)).

(** [Ticket.create({...})]: on success the document is in the collection,
    with a fresh id and both timestamps set to now. *)
Definition Ticket_create (room_ : string) (roomNumber_ : string)
    (category_ : string) (guestInfo_ : GuestInfo) (status_ : Status)
    (manager_ : option string) (subject_ : string) (messages_ : list Message) (priority_ : string)
    (estimatedCompletion_ : option string) (confidence_ : Q) : M Ticket :=
  effect (TicketCreate category_) ;;;
  db_op OpCreate ;;;
  now <- new_Date ;;
  n <- gets next_id ;;
  let t := mkTicket (fresh_id n) (RoomId room_) roomNumber_ (Some category_)
                    guestInfo_ status_ manager_ subject_ messages_ priority_
                    estimatedCompletion_ confidence_ now now in
  modify (fun s => insert_ticket s t) ;;;
  ret t.

Definition set_room (t : Ticket) (r : RoomRef) : Ticket :=
  mkTicket (_id t) r (roomNumber t) (category t) (guestInfo t) (status t)
           (ticket_manager t) (subject t) (messages t) (priority t) (estimatedCompletion t)
           (ticket_confidence t) (createdAt t) (updatedAt t).

Definition populated (rs : list Room) (t : Ticket) : Ticket :=
  match room t with
  | RoomId id =>
      set_room t (RoomDoc (find (fun r => String.eqb (room_id r) id) rs))
  | RoomDoc _ => t
  end.

(** [ticket.populate("room")]. *)
Definition populate (t : Ticket) : M Ticket :=
  effect (TicketPopulate (_id t)) ;;;
  db_op OpPopulate ;;;
  gets (fun s => populated (rooms_coll s) t).

(** [if (req.app && req.app.get("io")) io.emit(event, payload)]. *)
Definition io_emit (event : string) (t : Ticket) (notification : string)
  : M unit :=
  has_io <- gets io ;;
  if has_io then effect (IoEmit event t notification) else ret tt.

(** ** createGuestTicket *)

Record ReqGuestInfo := mkReqGuestInfo {
  g_name : string;
  g_email : option string;
  g_phone : option string
}.

(** The body of [POST /tickets/guest]; a missing field is [None]. *)
Record GuestTicketBody := mkGuestTicketBody {
  b_roomNumber : option string;
  b_guestInfo : option ReqGuestInfo;
  b_initialMessage : option string
}.

Inductive TicketData :=
| OneTicket (t : Ticket)
| ManyTickets (ts : list Ticket).

Inductive Body :=
| FailureBody (message : string)
| NoTicketBody (message : string) (shouldCreateTicket isGreeting : bool)
               (reason : string)
| CreatedBody (message : string) (data : TicketData) (ticketCount : nat)
              (cats : list string) (shouldCreateTicket : bool)
| TicketsBody (data : list Ticket).

(** The [success] field of a body. *)
Definition success (b : Body) : bool :=
  match b with
  | FailureBody _ => false
  | _ => true
  end.

Record Response := mkResponse {
  code : nat;
  body : Body
}.

Fixpoint for_of {A B} (l : list A) (step : B -> A -> M B) (acc : B) : M B :=
  match l with
  | [] => ret acc
  | x :: r => acc' <- step acc x ;; for_of r step acc'
  end.

(** The body of the loop over the categories: one [try] block whose
    [catch] logs and goes on. The array [createdTickets] is threaded. *)
Definition create_for_category (roomNumber_ : string) (guestInfo_ : ReqGuestInfo)
    (room_ : Room) (classification : Classification)
    (createdTickets : list Ticket) (categoryInfo : CategoryInfo)
  : M (list Ticket) :=
  try_catch
    (now <- new_Date ;;
     ticket <- Ticket_create
       (room_id room_)
       roomNumber_
       (ci_category categoryInfo)
       (mkGuestInfo (g_name guestInfo_)
                    (Js.or_default (g_email guestInfo_) "")
                    (Js.or_default (g_phone guestInfo_) ""))
       raised
       (manager room_)
       (Js.toUpperCase (ci_category categoryInfo) ++ " - Room " ++ roomNumber_)
       [mkMessage (ci_message categoryInfo) system "System" now]
       (Js.or_default (ci_urgency categoryInfo) "medium")
       (estimated_completion_time classification)
       (confidence classification) ;;
     ticket <- populate ticket ;;
     let createdTickets := (createdTickets ++ [ticket])%list in
     io_emit "newTicket" ticket
       (g_name guestInfo_ ++ " from Room " ++ roomNumber_ ++ " needs "
          ++ ci_category categoryInfo ++ " assistance") ;;;
     ret createdTickets)
    (fun error =>
       effect (ConsoleError error) ;;;
       ret createdTickets).

Definition created_message (n : nat) : string :=
  "Service request" ++ (if Nat.ltb 1 n then "s" else "")
    ++ " created successfully".

Definition created_data (createdTickets : list Ticket) : TicketData :=
  match createdTickets with
  | [t] => OneTicket t
  | _ => ManyTickets createdTickets
  end.

(** The three fields of the body when none of them is falsy. *)
Definition required_fields (req : GuestTicketBody)
  : option (string * ReqGuestInfo * string) :=
  match b_roomNumber req, b_guestInfo req, b_initialMessage req with
  | Some roomNumber_, Some guestInfo_, Some initialMessage =>
      if negb (Js.truthy roomNumber_) || negb (Js.truthy initialMessage)
      then None
      else Some (roomNumber_, guestInfo_, initialMessage)
  | _, _, _ => None
  end.

Definition createGuestTicket (req : GuestTicketBody) : M Response :=
  try_catch
    (match required_fields req with
     | None =>
         ret (mkResponse 400 (FailureBody
                "Room number, guest info, and initial message are required"))
     | Some (roomNumber_, guestInfo_, initialMessage) =>
         classification <-
           classifyWithExternalAPI initialMessage (Some roomNumber_) ;;
         if negb (should_create_ticket classification)
         then ret (mkResponse 200 (NoTicketBody
                "No ticket needed for this message" false true
                (reasoning classification)))
         else
           found <- Room_findOne roomNumber_ ;;
           match found with
           | None => ret (mkResponse 404 (FailureBody "Room not found"))
           | Some room_ =>
               createdTickets <-
                 match categories classification with
                 | Some ((_ :: _) as cs) =>
                     for_of cs
                       (create_for_category roomNumber_ guestInfo_ room_
                                            classification) []
                 | _ => ret []
                 end ;;
               match categories classification with
               | None => throw TypeError
               | Some cs =>
                   ret (mkResponse 201 (CreatedBody
                          (created_message (List.length createdTickets))
                          (created_data createdTickets)
                          (List.length createdTickets)
                          (map ci_category cs)
                          true))
               end
           end
     end)
    (fun error =>
       effect (ConsoleError error) ;;;
       ret (mkResponse 500 (FailureBody "Failed to create service request"))).

(** ** getTickets *)

Record TicketQuery := mkTicketQuery {
  q_status : option string;
  q_category : option string
}.

(** [if (status) query.status = status]: a falsy value adds no condition. *)
Definition query_field (v : option string) : option string :=
  if Js.truthy_opt v then v else None.

Definition matches_query (st cat : option string) (t : Ticket) : bool :=
  (match st with
   | Some s => String.eqb (Status_to_string (status t)) s
   | None => true
   end)
  &&
  (match cat with
   | Some c => match category t with
               | Some c' => String.eqb c' c
               | None => false
               end
   | None => true
   end).

(** [sort({ createdAt: -1 })], as a stable insertion sort. *)
Fixpoint insert_desc (t : Ticket) (l : list Ticket) : list Ticket :=
  match l with
  | [] => [t]
  | h :: r =>
      if createdAt h <=? createdAt t then t :: l else h :: insert_desc t r
  end.

Definition sort_desc (l : list Ticket) : list Ticket :=
  fold_right insert_desc [] l.

(** [Ticket.find(query).populate("room").sort({ createdAt: -1 })]. *)
Definition Ticket_find (st cat : option string) : M (list Ticket) :=
  effect (TicketFind st cat) ;;;
  db_op OpFind ;;;
  gets (fun s =>
          sort_desc (map (populated (rooms_coll s))
                         (filter (matches_query st cat) (tickets_coll s)))).

Definition getTickets (q : TicketQuery) : M Response :=
  try_catch
    (let st := query_field (q_status q) in
     let cat := query_field (q_category q) in
     tickets_ <- Ticket_find st cat ;;
     ret (mkResponse 200 (TicketsBody tickets_)))
    (fun error =>
       effect (ConsoleError error) ;;;
       ret (mkResponse 500 (FailureBody "Failed to get tickets"))).

(** ** Dashboard: grouping of related tickets *)

Definition five_minutes : Z := 5 * 60 * 1000.

(** The key of [groupRelatedTickets]: guest name, room number and the
    five-minute slot of the creation time, joined by dashes. *)
Definition timeSlot (t : Ticket) : Z := createdAt t / five_minutes.

Definition groupKey (t : Ticket) : string :=
  name (guestInfo t) ++ "-" ++ roomNumber t ++ "-"
    ++ Js.number_to_string (timeSlot t).

(** The [Map] from keys to arrays keeps its keys in insertion order, so
    it is an association list here. *)
Definition GroupMap := list (string * list Ticket).

Fixpoint Map_has (groups : GroupMap) (key : string) : bool :=
  match groups with
  | [] => false
  | (k, _) :: r => if String.eqb k key then true else Map_has r key
  end.

(** [groups.set(key, [])] on a key that is not there. *)
Definition Map_set_empty (groups : GroupMap) (key : string) : GroupMap :=
  (groups ++ [(key, [])])%list.

(** [groups.get(key)!.push(ticket)]. *)
Fixpoint Map_push (groups : GroupMap) (key : string) (t : Ticket) : GroupMap :=
  match groups with
  | [] => []
  | (k, ts) :: r =>
      if String.eqb k key then (k, (ts ++ [t])%list) :: r
      else (k, ts) :: Map_push r key t
  end.

Definition group_step (groups : GroupMap) (t : Ticket) : GroupMap :=
  let key := groupKey t in
  let groups := if Map_has groups key then groups
                else Map_set_empty groups key in
  Map_push groups key t.

Definition groupRelatedTickets (ts : list Ticket) : list (list Ticket) :=
  map snd (fold_left group_step ts []).



(** The predicate of the related-tickets filter in the ticket dialog. *)
Definition isRelated (selectedTicket t : Ticket) : bool :=
  if String.eqb (_id t) (_id selectedTicket) then true
  else if negb (String.eqb (name (guestInfo t))
                           (name (guestInfo selectedTicket))) then false
  else if negb (String.eqb (roomNumber t) (roomNumber selectedTicket))
       then false
  else Z.abs (createdAt t - createdAt selectedTicket) <=? five_minutes.

(** ** Dashboard: state *)

(** The state [tickets]: a record with the three keys the [Status] type
    allows. *)
Record Buckets := mkBuckets {
  b_raised : list Ticket;
  b_in_progress : list Ticket;
  b_completed : list Ticket
}.

Definition empty_buckets : Buckets := mkBuckets [] [] [].

(** [acc[status]]. *)
Definition bucket (b : Buckets) (s : Status) : list Ticket :=
  match s with
  | raised => b_raised b
  | in_progress => b_in_progress b
  | completed => b_completed b
  end.

(** [acc[status].push(ticket)]. *)
Definition bucket_push (b : Buckets) (s : Status) (t : Ticket) : Buckets :=
  match s with
  | raised => mkBuckets (b_raised b ++ [t]) (b_in_progress b) (b_completed b)
  | in_progress =>
      mkBuckets (b_raised b) (b_in_progress b ++ [t]) (b_completed b)
  | completed =>
      mkBuckets (b_raised b) (b_in_progress b) (b_completed b ++ [t])
  end.

(** [Object.values(tickets).flat()]. *)
Definition allTicketsFlat (b : Buckets) : list Ticket :=
  (b_raised b ++ b_in_progress b ++ b_completed b)%list.

Definition relatedTickets (b : Buckets) (selectedTicket : Ticket)
  : list Ticket :=
  filter (isRelated selectedTicket) (allTicketsFlat b).

Record DashboardStats := mkStats {
  totalRooms : nat;
  raisedTickets : nat;
  inProgressTickets : nat;
  completedTickets : nat
}.

Record Dashboard := mkDashboard {
  tickets : Buckets;
  rooms : list Room;
  stats : DashboardStats;
  isLoading : bool;
  searchQuery : string;
  filterRoom : option string;
  selectedCategories : list string
}.

Definition allCategories : list string :=
  ["reception"; "housekeeping"; "porter"; "concierge"; "service_fb";
   "maintenance"].

Definition initial_dashboard : Dashboard :=
  mkDashboard empty_buckets [] (mkStats 0 0 0 0) false "" None allCategories.

(** ** Dashboard: fetchData *)

(** What [apiClient.get] gives: a rejected promise, or a response whose
    body has a [success] flag and a [data] that is an array or not. *)
Inductive ApiResponse (A : Type) :=
| Rejected
| Replied (ok : bool) (data : option (list A)).
Arguments Rejected {A}.
Arguments Replied {A} ok data.

Inductive Toast :=
| NewRequestToast (t : Ticket)
| ErrorToast (text : string).

(** The text of the new-ticket toast, after its leading bell sign. *)
Definition toast_text (t : Ticket) : string :=
  "New service request from " ++ name (guestInfo t) ++ " in Room "
    ++ roomNumber t.

(** [tickets.raised?.some((existing) => existing._id === t._id)]. *)
Definition some_id (existing : list Ticket) (t : Ticket) : bool :=
  existsb (fun e => String.eqb (_id e) (_id t)) existing.

Definition is_raised (t : Ticket) : bool := Status_eqb (status t) raised.

(** The toasts of one refresh. *)
Definition new_ticket_toasts (prior : Buckets) (ticketsData : list Ticket)
  : list Toast :=
  let currentRaisedCount := List.length (b_raised prior) in
  let newRaisedCount := List.length (filter is_raised ticketsData) in
  if Nat.ltb currentRaisedCount newRaisedCount && Nat.ltb 0 currentRaisedCount
  then
    let newTickets :=
      filter (fun t => is_raised t && negb (some_id (b_raised prior) t))
             ticketsData in
    map NewRequestToast newTickets
  else [].

(** The [reduce] that buckets the fetched tickets by status. *)
Definition groupedTickets (ticketsData : list Ticket) : Buckets :=
  fold_left (fun acc t => bucket_push acc (status t) t) ticketsData
            empty_buckets.

Definition data_length {A} (r : ApiResponse A) : nat :=
  match r with
  | Replied _ (Some l) => List.length l
  | _ => 0%nat
  end.

Definition set_tickets (d : Dashboard) (b : Buckets) (st : DashboardStats)
  : Dashboard :=
  mkDashboard b (rooms d) st (isLoading d) (searchQuery d) (filterRoom d)
              (selectedCategories d).

Definition set_rooms (d : Dashboard) (rs : list Room) : Dashboard :=
  mkDashboard (tickets d) rs (stats d) (isLoading d) (searchQuery d)
              (filterRoom d) (selectedCategories d).

Definition set_loading (d : Dashboard) (l : bool) : Dashboard :=
  mkDashboard (tickets d) (rooms d) (stats d) l (searchQuery d)
              (filterRoom d) (selectedCategories d).

(** [fetchData], run from a render whose state is [d]: the new state and
    the toasts it shows. *)
Definition fetchData (d : Dashboard) (ticketsResponse : ApiResponse Ticket)
    (roomsResponse : ApiResponse Room) : Dashboard * list Toast :=
  match ticketsResponse, roomsResponse with
  | Rejected, _ | _, Rejected =>
      (set_loading d false, [ErrorToast "Failed to load dashboard data"])
  | Replied tickets_ok tickets_data, Replied rooms_ok rooms_data =>
      let '(d1, toasts) :=
        match tickets_ok, tickets_data with
        | true, Some ticketsData =>
            let grouped := groupedTickets ticketsData in
            (set_tickets d grouped
               (mkStats (data_length roomsResponse)
                        (List.length (b_raised grouped))
                        (List.length (b_in_progress grouped))
                        (List.length (b_completed grouped))),
             new_ticket_toasts (tickets d) ticketsData)
        | _, _ => (d, [])
        end in
      let d2 :=
        match rooms_ok, rooms_data with
        | true, Some rs => set_rooms d1 rs
        | _, _ => d1
        end in
      (set_loading d2 false, toasts)
  end.

(** The effect of the page, [useEffect(() => {...}, [])], runs once,
    after the first render. The start-up call, the 15-second interval
    and the handler of the [newTicket] event all call the [fetchData]
    that the first render made, and that closure reads the [tickets] of
    the first render, the initial state, however often the page has
    rendered since. What it sets ([setTickets], [setStats], [setRooms],
    [setIsLoading]) goes to the state the page has when it runs.

    A pull of the page in state [d]: the state is the one [fetchData]
    sets from [d], the toasts are the ones [fetchData] computes from the
    [tickets] of the first render. *)
Definition first_render : Dashboard := initial_dashboard.

Definition pull_fetchData (d : Dashboard)
    (ticketsResponse : ApiResponse Ticket) (roomsResponse : ApiResponse Room)
  : Dashboard * list Toast :=
  (fst (fetchData d ticketsResponse roomsResponse),
   snd (fetchData first_render ticketsResponse roomsResponse)).

(** ** Dashboard: getFilteredTickets *)

Definition greetings : list string :=
  ["hi"; "hello"; "hey"; "good morning"; "good afternoon"; "good evening";
   "greetings"; "how are you"; "nice to meet you"].

(** A literal of the pattern against the head of the input, letters
    compared without case as the [i] flag asks; the rest of the input. *)
Fixpoint match_literal (lit s : string) : option string :=
  match lit, s with
  | EmptyString, _ => Some s
  | String a lit', String b s' =>
      if Ascii.eqb (Js.upper_char a) (Js.upper_char b)
      then match_literal lit' s'
      else None
  | String _ _, EmptyString => None
  end.

(** The tail of the pattern: white space, then at most one of [!] and
    [.], then the end of the input. *)
Definition match_tail (s : string) : bool :=
  let r := Js.trimStart s in
  String.eqb r "" || String.eqb r "!" || String.eqb r ".".

(** [/^(hi|hello|...)\s*[!.]?$/i.test(s)]. *)
Definition greeting_test (s : string) : bool :=
  existsb (fun g => match match_literal g s with
                    | Some r => match_tail r
                    | None => false
                    end) greetings.

(** The language of the pattern, spelled out: a greeting in any case,
    then white space, then nothing, [!] or [.]. *)
Fixpoint all_space (w : string) : bool :=
  match w with
  | EmptyString => true
  | String c r => Js.is_space c && all_space r
  end.

Definition greeting_language (s : string) : Prop :=
  exists g s1 w p,
    In g greetings /\
    Js.toUpperCase s1 = Js.toUpperCase g /\
    all_space w = true /\
    (p = "" \/ p = "!" \/ p = ".") /\
    s = s1 ++ w ++ p.

(** [ticket.messages?.[0]?.content?.toLowerCase() || ""]. *)
Definition firstMessage (t : Ticket) : string :=
  match messages t with
  | [] => ""
  | m :: _ => Js.toLowerCase (content m)
  end.

Definition isGreeting (t : Ticket) : bool :=
  greeting_test (Js.trim (firstMessage t)).

(** [ticket.category || "reception"]. *)
Definition getTicketCategory (t : Ticket) : string :=
  Js.or_default (category t) "reception".

Definition matches_search (q : string) (t : Ticket) : bool :=
  Js.includes (Js.toLowerCase q) (Js.toLowerCase (name (guestInfo t)))
  || Js.includes q (roomNumber t)
  || Js.includes (Js.toLowerCase q)
       (Js.toLowerCase (match messages t with
                        | [] => ""
                        | m :: _ => content m
                        end)).

Definition getFilteredTickets (d : Dashboard) (s : Status) : list Ticket :=
  let filtered := bucket (tickets d) s in
  let filtered := filter (fun t => negb (isGreeting t)) filtered in
  let filtered :=
    if Js.truthy (searchQuery d)
    then filter (matches_search (searchQuery d)) filtered
    else filtered in
  let filtered :=
    match filterRoom d with
    | Some r => if Js.truthy r
                then filter (fun t => String.eqb (roomNumber t) r) filtered
                else filtered
    | None => filtered
    end in
  filter (fun t => existsb (String.eqb (getTicketCategory t))
                           (selectedCategories d)) filtered.

(** The tickets a board column renders. *)
Definition rendered (d : Dashboard) (t : Ticket) : Prop :=
  exists s, In t (getFilteredTickets d s).

(** The state in which the loop over the categories starts: after the
    classification of [im] for room [rn] and the look-up of that room. *)
Definition before_loop (s : Server) (im rn : string) : Server :=
  let s1 := set_trace s (trace s ++ [ConsoleLog; AxiosPost im rn; ConsoleLog])
  in set_db_faults (set_trace s1 (trace s1 ++ [RoomFindOne rn]))
                   (tl (db_faults s1)).

(** ** Reading a trace *)

(** The categories [Ticket.create] was called for, in order. *)
Definition create_attempts (tr : list Effect) : list string :=
  flat_map (fun e => match e with TicketCreate c => [c] | _ => [] end) tr.

(** The tickets sent to the managers, in order. *)
Definition emitted (tr : list Effect) : list Ticket :=
  flat_map (fun e => match e with IoEmit _ t _ => [t] | _ => [] end) tr.

(** The room numbers looked up, in order. *)
Definition room_lookups (tr : list Effect) : list string :=
  flat_map (fun e => match e with RoomFindOne n => [n] | _ => [] end) tr.

(** The errors written to the console, in order. *)
Definition logged_errors (tr : list Effect) : list Exn :=
  flat_map (fun e => match e with ConsoleError x => [x] | _ => [] end) tr.

(** How many of the logged errors come from a failed [populate]. *)
Definition populate_failures (tr : list Effect) : nat :=
  List.length
    (filter (fun x => match x with DbError OpPopulate => true | _ => false end)
            (logged_errors tr)).

(** [l1] is [l2] with some elements left out. *)
Inductive Subseq {A : Type} : list A -> list A -> Prop :=
| Subseq_nil : Subseq [] []
| Subseq_skip x l1 l2 : Subseq l1 l2 -> Subseq l1 (x :: l2)
| Subseq_take x l1 l2 : Subseq l1 l2 -> Subseq (x :: l1) (x :: l2).

(** What a run of the loop over the categories [cs] from state [s] to
    state [s'] has done when it pushed [created] to [createdTickets]. *)
Definition attempts_outcome (cs : list CategoryInfo) (s s' : Server)
    (created : list Ticket) : Prop :=
  exists (new : list Ticket) (l : list Effect),
    tickets_coll s' = (tickets_coll s ++ new)%list /\
    trace s' = (trace s ++ l)%list /\
    rooms_coll s' = rooms_coll s /\
    io s' = io s /\
    create_attempts l = map ci_category cs /\
    room_lookups l = [] /\
    List.length new = (List.length created + populate_failures l)%nat /\
    (List.length (logged_errors l) + List.length created)%nat
      = List.length cs /\
    emitted l = (if io s then created else []) /\
    Subseq created (map (populated (rooms_coll s)) new) /\
    Subseq (map category created)
           (map (fun ci => Some (ci_category ci)) cs).

(** The tickets and the categories a response carries. *)
Definition data_tickets (d : TicketData) : list Ticket :=
  match d with
  | OneTicket t => [t]
  | ManyTickets ts => ts
  end.

Definition body_tickets (b : Body) : list Ticket :=
  match b with
  | CreatedBody _ d _ _ _ => data_tickets d
  | TicketsBody ts => ts
  | _ => []
  end.

Definition body_categories (b : Body) : list string :=
  match b with
  | CreatedBody _ _ _ cs _ => cs
  | _ => []
  end.

Definition body_ticketCount (b : Body) : option nat :=
  match b with
  | CreatedBody _ _ n _ _ => Some n
  | _ => None
  end.

(** The order of a listing: the first ticket is not older than the
    second. *)
Definition newer_first (a b : Ticket) : Prop := createdAt b <= createdAt a.

(** The conditions of a listing request, read as the specification words
    them: a filter that is absent or empty asks nothing. *)
Definition matching (q : TicketQuery) (t : Ticket) : Prop :=
  (Js.truthy_opt (q_status q) = true ->
   Some (Status_to_string (status t)) = q_status q) /\
  (Js.truthy_opt (q_category q) = true -> category t = q_category q).

(** The new-ticket toasts as the specification words them: one for each
    fetched ticket that is raised and whose id is not in the prior raised
    bucket. *)
Definition spec_new_ticket_toasts (prior : Buckets) (ticketsData : list Ticket)
  : list Toast :=
  map NewRequestToast
      (filter (fun t => is_raised t && negb (some_id (b_raised prior) t))
              ticketsData).

(** The ids of the tickets a list of toasts announces. *)
Definition toast_ticket_ids (l : list Toast) : list string :=
  flat_map (fun x => match x with
                     | NewRequestToast t => [_id t]
                     | ErrorToast _ => []
                     end) l.

(** ** Sample data *)

Definition room101 : Room := mkRoom "r101" "101" (Some "m1").

(** The answer to "I need coffee and clean towels". *)
Definition coffee_and_towels : Classification :=
  {| should_create_ticket := true;
     categories := Some [mkCategoryInfo "service_fb" "coffee" (Some "high");
                         mkCategoryInfo "housekeeping" "clean towels" None];
     confidence := 0.9;
     reasoning := "Two services requested";
     suggested_priority := "medium";
     estimated_completion_time := Some "15 minutes" |}.

(** The answer to "Good morning". *)
Definition good_morning : Classification :=
  {| should_create_ticket := false;
     categories := Some [];
     confidence := 0.95;
     reasoning := "Greeting";
     suggested_priority := "low";
     estimated_completion_time := None |}.

Definition test_guest : ReqGuestInfo :=
  mkReqGuestInfo "Test Guest" (Some "test@test.com") (Some "N/A").

(** A server with room 101 only, an empty ticket collection, a classifier
    that gives [answer] to every request and the faults [faults]. *)
Definition sample_server (answer : Completion Classification)
    (faults : list bool) : Server :=
  mkServer [] [room101] (fun _ _ => answer) faults true 1704067440000 0 [].

Definition guest_request (rn msg : string) : GuestTicketBody :=
  mkGuestTicketBody (Some rn) (Some test_guest) (Some msg).

(** The room is found, then the first [Ticket.create] fails. *)
Definition first_create_fails : Server :=
  sample_server (Normal coffee_and_towels) [false; true].

(** A ticket of the test guest in room 101. *)
Definition sample_ticket (id : string) (st : Status) (cat : string)
    (created : Z) (msg : string) : Ticket :=
  mkTicket id (RoomId "r101") "101" (Some cat)
           (mkGuestInfo "Test Guest" "test@test.com" "N/A") st (Some "m1")
           (Js.toUpperCase cat ++ " - Room 101")
           [mkMessage msg system "System" created] "medium" None 0.9
           created created.

(** Two tickets of one guest and room, created on 2024-01-01 at 00:04:00
    and at 00:07:00 UTC. *)
Definition coffee_ticket : Ticket :=
  sample_ticket "t0" raised "service_fb" 1704067440000 "coffee".

Definition towels_ticket : Ticket :=
  sample_ticket "t1" raised "housekeeping" 1704067620000 "clean towels".

(** The coffee ticket once it is done. *)
Definition coffee_done : Ticket :=
  sample_ticket "t0" completed "service_fb" 1704067440000 "coffee".

(** A ticket whose first message is a greeting. *)
Definition greeting_ticket : Ticket :=
  sample_ticket "t2" raised "reception" 1704067440000 "Good morning!".

(** A board that shows the coffee ticket as raised. *)
Definition board_with_coffee : Dashboard :=
  mkDashboard (mkBuckets [coffee_ticket] [] []) [room101] (mkStats 1 1 0 0)
              false "" None allCategories.

(** A board whose raised bucket holds the greeting ticket. *)
Definition board_with_greeting : Dashboard :=
  mkDashboard (mkBuckets [greeting_ticket; coffee_ticket] [] []) [room101]
              (mkStats 1 2 0 0) false "" None allCategories.

(** A store that holds the coffee ticket, the towels ticket and a
    finished one, in the order they were created. *)
Definition sample_store : Server :=
  mkServer [coffee_ticket; towels_ticket;
            sample_ticket "t3" completed "porter" 1704067800000 "luggage"]
           [room101] (fun _ _ => Throw AxiosError) [] true 1704068000000 4 [].

Definition raised_only : TicketQuery := mkTicketQuery (Some "raised") None.

(** * The rest of the controller *)

(** ** chatWithAI *)

Record ChatGuestInfo := mkChatGuestInfo {
  cg_guestName : option string;
  cg_roomNumber : option string
}.

(** The body of [POST /chat/ai]; a missing field is [None]. *)
Record ChatRequest := mkChatRequest {
  c_message : option string;
  c_guestInfo : option ChatGuestInfo
}.

Inductive ChatBody :=
| ChatFailure (message : string)
| ChatReply (message : string) (shouldCreateTicket : bool)
            (cats : option (list CategoryInfo)) (conf : Q) (reason : string)
            (priority_ : string) (estimatedCompletion_ : option string)
            (timestamp_ : Z).

Record ChatResponse := mkChatResponse {
  chat_code : nat;
  chat_body : ChatBody
}.

(** The sentence the assistant answers with. *)
Definition aiResponse (classification : Classification) : string :=
  if negb (should_create_ticket classification)
  then "Hello! How can I assist you today?"
  else match categories classification with
       | Some ((_ :: _) as cs) =>
           "I'll handle your "
             ++ String.concat " and " (map ci_category cs)
             ++ " request immediately!"
       | _ => "I'll help you with that right away!"
       end.

Definition chatWithAI (req : ChatRequest) : M ChatResponse :=
  try_catch
    (match c_message req, c_guestInfo req with
     | Some message, Some guestInfo_ =>
         if negb (Js.truthy message)
         then ret (mkChatResponse 400
                     (ChatFailure "Message and guest info are required"))
         else
           classification <-
             classifyWithExternalAPI message (cg_roomNumber guestInfo_) ;;
           now <- new_Date ;;
           ret (mkChatResponse 200
                  (ChatReply (aiResponse classification)
                             (should_create_ticket classification)
                             (categories classification)
                             (confidence classification)
                             (reasoning classification)
                             (suggested_priority classification)
                             (estimated_completion_time classification)
                             now))
     | _, _ =>
         ret (mkChatResponse 400
                (ChatFailure "Message and guest info are required"))
     end)
    (fun error =>
       effect (ConsoleError error) ;;;
       ret (mkChatResponse 500 (ChatFailure "Failed to process chat message"))).

(** ** updateTicket and deleteTicket *)

(** The round trips of these two handlers take their faults from the
    schedule as the others do. [Ticket.findById] and
    [Ticket.findByIdAndDelete] are queries for one document and a failure
    of theirs carries the tag of [findOne]; [save] is what [Ticket.create]
    runs and carries its tag. An id that cannot be an id of the store
    makes [findById] throw: it is one of the faults. The trace keeps the
    emits and the console lines of these handlers. *)

Definition set_tickets_coll (s : Server) (ts : list Ticket) : Server :=
  mkServer ts (rooms_coll s) (classifier s) (db_faults s) (io s) (clock s)
           (next_id s) (trace s).

(** [Ticket.findById(id)]. *)
Definition Ticket_findById (id : string) : M (option Ticket) :=
  db_op OpFindOne ;;;
  gets (fun s => find (fun t => String.eqb (_id t) id) (tickets_coll s)).

(** [Ticket.findById(id).populate("room")], one query. *)
Definition Ticket_findById_populate (id : string) : M (option Ticket) :=
  db_op OpFindOne ;;;
  gets (fun s => option_map (populated (rooms_coll s))
                   (find (fun t => String.eqb (_id t) id) (tickets_coll s))).

Definition Status_of_string (s : string) : option Status :=
  if String.eqb s "raised" then Some raised
  else if String.eqb s "in_progress" then Some in_progress
  else if String.eqb s "completed" then Some completed
  else None.

(** What [if (status) ticket.status = status] leaves in the document:
    its status, a new one of the three, or a value that is none of
    them. *)
Inductive StatusField :=
| KeptStatus
| NewStatus (st : Status)
| BadStatus (v : string).

Definition assign_status (v : option string) : StatusField :=
  match v with
  | Some s => if Js.truthy s
              then match Status_of_string s with
                   | Some st => NewStatus st
                   | None => BadStatus s
                   end
              else KeptStatus
  | None => KeptStatus
  end.

(** The document after a save: status, messages and [updatedAt] are what
    the handler and the store set, the rest is as it was. *)
Definition saved (t : Ticket) (st : Status) (ms : list Message) (now : Z)
  : Ticket :=
  mkTicket (_id t) (room t) (roomNumber t) (category t) (guestInfo t) st
           (ticket_manager t) (subject t) ms (priority t)
           (estimatedCompletion t) (ticket_confidence t) (createdAt t) now.

(** The collection with its first document of id [id] replaced by [f] of
    it. *)
Fixpoint update_first (id : string) (f : Ticket -> Ticket) (l : list Ticket)
  : list Ticket :=
  match l with
  | [] => []
  | t :: r => if String.eqb (_id t) id then f t :: r
              else t :: update_first id f r
  end.

(** The collection without its first document of id [id]. *)
Fixpoint remove_first (id : string) (l : list Ticket) : list Ticket :=
  match l with
  | [] => []
  | t :: r => if String.eqb (_id t) id then r else t :: remove_first id r
  end.

(** Modelled from the spec: the schema of [Ticket], which is not part of
    the controller. [ticket.save()] refuses a status that is none of the
    three values, before any round trip, and a save that succeeds sets
    [updatedAt] to now. The document in the store keeps its reference to
    the room; the document in the hands of the handler stays populated. *)
Definition Ticket_save (ticket : Ticket) (field : StatusField)
    (ms : list Message) : M Ticket :=
  match field with
  | BadStatus _ => throw (DbError OpCreate)
  | _ =>
      let st := match field with
                | NewStatus st => st
                | _ => status ticket
                end in
      db_op OpCreate ;;;
      now <- new_Date ;;
      modify (fun s =>
                set_tickets_coll s
                  (update_first (_id ticket)
                                (fun stored => saved stored st ms now)
                                (tickets_coll s))) ;;;
      ret (saved ticket st ms now)
  end.

(** [Ticket.findByIdAndDelete(id)]. *)
Definition Ticket_findByIdAndDelete (id : string) : M unit :=
  db_op OpFindOne ;;;
  modify (fun s => set_tickets_coll s (remove_first id (tickets_coll s))).

(** The parameters and the body of [PUT /tickets/:id]. *)
Record UpdateRequest := mkUpdateRequest {
  u_id : string;
  u_status : option string;
  u_response : option string
}.

Inductive StoreBody :=
| StoreFailure (message : string)
| StoreTicket (data : Ticket)
| StoreDone (message : string).

Record StoreResponse := mkStoreResponse {
  store_code : nat;
  store_body : StoreBody
}.

(** [ticket.messages.push({...})] when a response is given. *)
Definition with_response (ms : list Message) (response : option string)
    (now : Z) : list Message :=
  match response with
  | Some r => if Js.truthy r
              then (ms ++ [mkMessage r manager_sender "Hotel Staff" now])%list
              else ms
  | None => ms
  end.

(** The payload of [ticketUpdated] is the ticket alone: its notification
    is empty here. *)
Definition updateTicket (req : UpdateRequest) : M StoreResponse :=
  try_catch
    (found <- Ticket_findById_populate (u_id req) ;;
     match found with
     | None => ret (mkStoreResponse 404 (StoreFailure "Ticket not found"))
     | Some ticket =>
         now <- new_Date ;;
         ticket <- Ticket_save ticket (assign_status (u_status req))
                     (with_response (messages ticket) (u_response req) now) ;;
         io_emit "ticketUpdated" ticket "" ;;;
         ret (mkStoreResponse 200 (StoreTicket ticket))
     end)
    (fun error =>
       effect (ConsoleError error) ;;;
       ret (mkStoreResponse 500 (StoreFailure "Failed to update ticket"))).

Definition deleteTicket (id : string) : M StoreResponse :=
  try_catch
    (found <- Ticket_findById id ;;
     match found with
     | None => ret (mkStoreResponse 404 (StoreFailure "Ticket not found"))
     | Some _ =>
         Ticket_findByIdAndDelete id ;;;
         ret (mkStoreResponse 200 (StoreDone "Ticket deleted successfully"))
     end)
    (fun error =>
       effect (ConsoleError error) ;;;
       ret (mkStoreResponse 500 (StoreFailure "Failed to delete ticket"))).

(** The fields [createGuestTicket] gives the ticket of a category. *)
Definition ticket_of_category (rn : string) (gi : ReqGuestInfo)
    (c : Classification) (now : Z) (ci : CategoryInfo) (t : Ticket) : Prop :=
  roomNumber t = rn /\
  category t = Some (ci_category ci) /\
  guestInfo t = mkGuestInfo (g_name gi) (Js.or_default (g_email gi) "")
                            (Js.or_default (g_phone gi) "") /\
  status t = raised /\
  subject t = Js.toUpperCase (ci_category ci) ++ " - Room " ++ rn /\
  messages t = [mkMessage (ci_message ci) system "System" now] /\
  priority t = Js.or_default (ci_urgency ci) "medium" /\
  estimatedCompletion t = estimated_completion_time c /\
  ticket_confidence t = confidence c /\
  createdAt t = now.

(** A run of a handler that leaves the rooms as they are and only adds
    the tickets [new] to the collection and the effects [l] to the
    trace. *)
Definition only_appends (s s' : Server) (new : list Ticket)
    (l : list Effect) : Prop :=
  tickets_coll s' = (tickets_coll s ++ new)%list /\
  rooms_coll s' = rooms_coll s /\
  trace s' = (trace s ++ l)%list.

(** What an update may change in a stored ticket: its status, its
    [updatedAt] and the end of its messages. *)
Definition same_ticket_grown (old new : Ticket) : Prop :=
  _id new = _id old /\
  room new = room old /\
  roomNumber new = roomNumber old /\
  category new = category old /\
  guestInfo new = guestInfo old /\
  subject new = subject old /\
  createdAt new = createdAt old /\
  exists extra, messages new = (messages old ++ extra)%list.

(** * The rest of the dashboard page *)

(** ** Category helpers *)

(** The six categories of the [switch] statements. *)
Definition known_category (c : string) : bool :=
  existsb (String.eqb c) allCategories.

Definition getCategoryLabel (category_ : option string) : string :=
  match category_ with
  | Some c =>
      if String.eqb c "reception" then "Reception"
      else if String.eqb c "housekeeping" then "Housekeeping"
      else if String.eqb c "porter" then "Porter"
      else if String.eqb c "concierge" then "Concierge"
      else if String.eqb c "service_fb" then "Service (F&B)"
      else if String.eqb c "maintenance" then "Maintenance"
      else "Reception"
  | None => "Reception"
  end.

Definition getCategoryColor (category_ : option string) : string :=
  match category_ with
  | Some c =>
      if String.eqb c "reception" then "bg-purple-100 text-purple-800"
      else if String.eqb c "housekeeping" then "bg-teal-100 text-teal-800"
      else if String.eqb c "porter" then "bg-sky-100 text-sky-800"
      else if String.eqb c "concierge" then "bg-pink-100 text-pink-800"
      else if String.eqb c "service_fb" then "bg-orange-100 text-orange-800"
      else if String.eqb c "maintenance" then "bg-amber-100 text-amber-800"
      else "bg-gray-100 text-gray-800"
  | None => "bg-gray-100 text-gray-800"
  end.

(** ** The chart *)

Record ChartEntry := mkChartEntry {
  chart_status : string;
  chart_count : nat;
  chart_fill : string;
  chart_label : string
}.

Definition getChartData (st : DashboardStats) : list ChartEntry :=
  [mkChartEntry "raised" (raisedTickets st) "#111827" "New Tickets";
   mkChartEntry "in_progress" (inProgressTickets st) "#6B7280" "In Progress";
   mkChartEntry "completed" (completedTickets st) "#D1D5DB" "Completed"].

(** [stats.raisedTickets + stats.inProgressTickets +
    stats.completedTickets]. *)
Definition totalTickets (st : DashboardStats) : nat :=
  (raisedTickets st + inProgressTickets st + completedTickets st)%nat.

(** ** The category tabs *)

Inductive CategoryTab :=
| AllTab
| OneTab (cat : string).

Definition set_selectedCategories (d : Dashboard) (cs : list string)
  : Dashboard :=
  mkDashboard (tickets d) (rooms d) (stats d) (isLoading d) (searchQuery d)
              (filterRoom d) cs.

Definition handleSelectCategory (d : Dashboard) (cat : CategoryTab)
  : Dashboard :=
  match cat with
  | AllTab => set_selectedCategories d allCategories
  | OneTab c => set_selectedCategories d [c]
  end.

(** The tests that underline a tab: [selectedCategories.length === 0]
    for "All", [length === 1 && selectedCategories[0] === cat] for a
    category. *)
Definition all_tab_active (d : Dashboard) : bool :=
  Nat.eqb (List.length (selectedCategories d)) 0.

Definition tab_active (d : Dashboard) (cat : string) : bool :=
  match selectedCategories d with
  | [c] => String.eqb c cat
  | _ => false
  end.

(** ** Drag and drop *)

(** [Object.values(tickets).flat().find((t) => t._id === id)]. *)
Definition find_on_board (b : Buckets) (id : string) : option Ticket :=
  find (fun t => String.eqb (_id t) id) (allTicketsFlat b).

(** [handleDragStart]: the ticket that becomes the active one. *)
Definition handleDragStart (b : Buckets) (active_id : string)
  : option Ticket :=
  find_on_board b active_id.

(** [handleDragEnd]: the status change it asks the server for, as the
    pair of the ticket id and the new status, if it asks for one. [over]
    is the id of the drop target, when there is one. *)
Definition handleDragEnd (b : Buckets) (active_id : string)
    (over : option string) : option (string * string) :=
  match over with
  | None => None
  | Some newStatus =>
      match find_on_board b active_id with
      | None => None
      | Some ticket =>
          if String.eqb (Status_to_string (status ticket)) newStatus
          then None
          else Some (active_id, newStatus)
      end
  end.

(** ** The ticket dialog: handleSendMessage *)

Record Dialog := mkDialog {
  selectedTicket : option Ticket;
  newMessage : string;
  aiSuggestion : string
}.

Inductive Notice :=
| SuccessNotice (text : string)
| ErrorNotice (text : string).

(** What [apiClient.post] of a message gives: a rejected promise, or a
    body with its [success] flag and the stored message in [data]. *)
Inductive MessageReply :=
| MessageRejected
| MessageReplied (ok : bool) (data : Message).

Definition set_messages (t : Ticket) (ms : list Message) : Ticket :=
  mkTicket (_id t) (room t) (roomNumber t) (category t) (guestInfo t)
           (status t) (ticket_manager t) (subject t) ms (priority t)
           (estimatedCompletion t) (ticket_confidence t) (createdAt t)
           (updatedAt t).

(** [newTickets[status].map((t) => t._id === id ? updatedTicket : t)] on
    each of the buckets. *)
Definition replace_by_id (id : string) (updatedTicket : Ticket)
    (l : list Ticket) : list Ticket :=
  map (fun t => if String.eqb (_id t) id then updatedTicket else t) l.

Definition replace_on_board (id : string) (updatedTicket : Ticket)
    (b : Buckets) : Buckets :=
  mkBuckets (replace_by_id id updatedTicket (b_raised b))
            (replace_by_id id updatedTicket (b_in_progress b))
            (replace_by_id id updatedTicket (b_completed b)).

Record SendOutcome := mkSendOutcome {
  so_dashboard : Dashboard;
  so_dialog : Dialog;
  (** the ticket id and the content posted, if a request was made *)
  so_posted : option (string * string);
  so_notices : list Notice
}.

(** [handleSendMessage] of the dashboard; [reply] is what the server
    answers if it is asked. *)
Definition handleSendMessage (d : Dashboard) (dlg : Dialog)
    (reply : MessageReply) : SendOutcome :=
  match selectedTicket dlg with
  | None => mkSendOutcome d dlg None []
  | Some selected =>
      if negb (Js.truthy (Js.trim (newMessage dlg)))
      then mkSendOutcome d dlg None []
      else
        let posted := Some (_id selected, newMessage dlg) in
        match reply with
        | MessageRejected =>
            mkSendOutcome (set_loading d false) dlg posted
                          [ErrorNotice "Failed to send message"]
        | MessageReplied false _ =>
            mkSendOutcome (set_loading d false) dlg posted []
        | MessageReplied true data =>
            let updatedTicket :=
              set_messages selected (messages selected ++ [data]) in
            mkSendOutcome
              (set_loading
                 (mkDashboard
                    (replace_on_board (_id selected) updatedTicket (tickets d))
                    (rooms d) (stats d) (isLoading d) (searchQuery d)
                    (filterRoom d) (selectedCategories d))
                 false)
              (mkDialog (Some updatedTicket) "" "")
              posted
              [SuccessNotice "Message sent successfully"]
        end
  end.

(** * The guest chat page *)

Inductive Role := user_role | assistant_role.

Record ChatMessage := mkChatMessage {
  role : Role;
  chat_content : string;
  chat_timestamp : Z
}.

(** The state of the page that [handleSendMessage] reads and writes. *)
Record GuestChat := mkGuestChat {
  chat_messages : list ChatMessage;
  message_box : string;
  isSubmitting : bool
}.

(** [axios] resolves on a status from 200 to 299 and rejects on any
    other. *)
Definition axios_resolves (status_code : nat) : bool :=
  Nat.leb 200 status_code && Nat.ltb status_code 300.

(** The text of the toast for created tickets, after its leading sign. *)
Definition created_notice (ticketCount : nat) (cats : list string) : Notice :=
  if Nat.ltb 1 ticketCount
  then SuccessNotice (NilZero.string_of_uint (Nat.to_uint ticketCount)
                        ++ " service requests created for: "
                        ++ String.concat ", " cats)
  else SuccessNotice ("Service request created for "
                        ++ String.concat ", " cats).

(** The [isGreeting] field of a body. *)
Definition body_isGreeting (b : Body) : bool :=
  match b with
  | NoTicketBody _ _ g _ => g
  | _ => false
  end.

(** What the page shows for the answer of [POST /tickets/guest]. *)
Definition ticket_notices (r : Response) : list Notice :=
  if axios_resolves (code r)
  then
    if success (body r)
    then match body_ticketCount (body r) with
         | Some n => if Nat.ltb 0 n
                     then [created_notice n (body_categories (body r))]
                     else []
         | None => []
         end
    else []
  else
    if body_isGreeting (body r) then []
    else [ErrorNotice "Failed to send request to staff"].

(** [prev.slice(0, -1)]. *)
Definition slice_last {A} (l : list A) : list A := removelast l.

(** [aiResponse.data.shouldCreateTicket &&
    aiResponse.data.categories?.length > 0]. *)
Definition wants_ticket (shouldCreateTicket : bool)
    (cats : option (list CategoryInfo)) : bool :=
  shouldCreateTicket &&
  match cats with
  | Some (_ :: _) => true
  | _ => false
  end.

(** [handleSendMessage] of the guest page of room [rn], run against the
    server: a request that reaches the server runs its handler.
    [ai_reachable] and [ticket_reachable] say whether the two requests
    reach the server and come back; [now] is the clock of the page. The
    result is the state of the page and the toasts shown. *)
Definition guest_handleSendMessage (rn : string)
    (ai_reachable ticket_reachable : bool) (now : Z) (g : GuestChat)
  : M (GuestChat * list Notice) :=
  if negb (Js.truthy (Js.trim (message_box g))) || isSubmitting g
  then ret (g, [])
  else
    let currentMessage := message_box g in
    let sent := (chat_messages g
                   ++ [mkChatMessage user_role currentMessage now])%list in
    let failed :=
      (mkGuestChat (slice_last sent) "" false,
       [ErrorNotice "Failed to send message. Please try again."]) in
    if negb ai_reachable then ret failed
    else
      answer <- chatWithAI
                  (mkChatRequest (Some currentMessage)
                     (Some (mkChatGuestInfo (Some ("Guest-" ++ rn))
                                            (Some rn)))) ;;
      if negb (axios_resolves (chat_code answer)) then ret failed
      else
        match chat_body answer with
        | ChatFailure _ => ret failed
        | ChatReply text shouldCreateTicket cats _ _ _ _ _ =>
            let answered :=
              (sent ++ [mkChatMessage assistant_role text now])%list in
            if wants_ticket shouldCreateTicket cats
            then
              if negb ticket_reachable
              then ret (mkGuestChat answered "" false,
                        [ErrorNotice "Failed to send request to staff"])
              else
                r <- createGuestTicket
                       (mkGuestTicketBody (Some rn)
                          (Some (mkReqGuestInfo ("Guest-" ++ rn)
                                   (Some ("guest." ++ rn ++ "@hotel.com"))
                                   (Some "Not provided")))
                          (Some currentMessage)) ;;
                ret (mkGuestChat answered "" false, ticket_notices r)
            else ret (mkGuestChat answered "" false, [])
        end.

(** * Properties *)

(** ** The server monad *)

Lemma bind_normal {A B} (m : M A) (k : A -> M B) s a s' :
  m s = (Normal a, s') -> bind m k s = k a s'.
Proof. intros H. unfold bind. now rewrite H. Qed.

Lemma bind_throw {A B} (m : M A) (k : A -> M B) s e s' :
  m s = (Throw e, s') -> bind m k s = (Throw e, s').
Proof. intros H. unfold bind. now rewrite H. Qed.

Lemma try_catch_normal {A} (m : M A) h s a s' :
  m s = (Normal a, s') -> try_catch m h s = (Normal a, s').
Proof. intros H. unfold try_catch. now rewrite H. Qed.

Lemma try_catch_throw {A} (m : M A) h s e s' :
  m s = (Throw e, s') -> try_catch m h s = h e s'.
Proof. intros H. unfold try_catch. now rewrite H. Qed.

(** ** Classification gateway *)

(** The gateway always returns: whatever the classifier does, no
    exception reaches the caller, and the state changes in its trace
    only, by console lines and at most one request. *)
Lemma classify_returns (message : string) (roomNumber_ : option string)
    (s : Server) :
  exists c l,
    classifyWithExternalAPI message roomNumber_ s
      = (Normal c, set_trace s (trace s ++ l)) /\
    create_attempts l = [] /\ emitted l = [] /\ room_lookups l = [].
Proof.
  unfold classifyWithExternalAPI, try_catch, bind, toString, axios_post,
    effect, modify, ret, throw, bind.
  destruct roomNumber_ as [rn|]; simpl.
  - destruct (classifier s message rn) as [c|e] eqn:E; simpl.
    + exists c, [ConsoleLog; AxiosPost message rn; ConsoleLog].
      unfold set_trace; simpl. rewrite <- !app_assoc. simpl. auto.
    + exists fallback, [ConsoleLog; AxiosPost message rn; ConsoleError e].
      unfold set_trace; simpl. rewrite <- !app_assoc. simpl. auto.
  - exists fallback, [ConsoleLog; ConsoleError TypeError].
    unfold set_trace; simpl. rewrite <- !app_assoc. simpl. auto.
Qed.

(** ** The loop over the categories *)

Lemma Subseq_refl {A} (l : list A) : Subseq l l.
Proof. induction l; constructor; assumption. Qed.

Lemma Subseq_nil_l {A} (l : list A) : Subseq [] l.
Proof. induction l; constructor; assumption. Qed.

Ltac outcome_fact :=
  first [ reflexivity
        | assumption
        | apply Subseq_refl
        | apply Subseq_nil_l
        | match goal with
          | |- context [io ?s] => now destruct (io s)
          end ].

Lemma Subseq_app {A} (a b c d : list A) :
  Subseq a b -> Subseq c d -> Subseq (a ++ c) (b ++ d).
Proof.
  intros Hab Hcd. induction Hab; simpl.
  - assumption.
  - now constructor.
  - now constructor.
Qed.

Lemma Subseq_length {A} (a b : list A) :
  Subseq a b -> (List.length a <= List.length b)%nat.
Proof. induction 1; simpl; lia. Qed.

Lemma Subseq_same_length {A} (a b : list A) :
  Subseq a b -> List.length a = List.length b -> a = b.
Proof.
  induction 1; simpl; intros Hl.
  - reflexivity.
  - apply Subseq_length in H. lia.
  - f_equal. apply IHSubseq. lia.
Qed.

Lemma Subseq_In {A} (a b : list A) x : Subseq a b -> In x a -> In x b.
Proof.
  induction 1; simpl; intros Hin; auto.
  destruct Hin; auto.
Qed.

Lemma populate_failures_app (l1 l2 : list Effect) :
  populate_failures (l1 ++ l2)
  = (populate_failures l1 + populate_failures l2)%nat.
Proof.
  unfold populate_failures, logged_errors.
  now rewrite flat_map_app, filter_app, length_app.
Qed.

Lemma populate_failures_le (l : list Effect) :
  (populate_failures l <= List.length (logged_errors l))%nat.
Proof. unfold populate_failures. apply filter_length_le. Qed.

Lemma attempts_outcome_nil (s : Server) : attempts_outcome [] s s [].
Proof.
  exists [], []. rewrite !app_nil_r. simpl.
  repeat split; try reflexivity.
  - now destruct (io s).
  - constructor.
  - constructor.
Qed.

Lemma attempts_outcome_app (cs1 cs2 : list CategoryInfo) (s s1 s2 : Server)
    (c1 c2 : list Ticket) :
  attempts_outcome cs1 s s1 c1 ->
  attempts_outcome cs2 s1 s2 c2 ->
  attempts_outcome (cs1 ++ cs2) s s2 (c1 ++ c2).
Proof.
  intros (n1 & l1 & Ht1 & Hr1 & Hrm1 & Hio1 & Ha1 & Hk1 & Hn1 & He1 & Hm1
          & Hs1 & Hc1)
         (n2 & l2 & Ht2 & Hr2 & Hrm2 & Hio2 & Ha2 & Hk2 & Hn2 & He2 & Hm2
          & Hs2 & Hc2).
  exists (n1 ++ n2)%list, (l1 ++ l2)%list.
  rewrite Hio1, Hrm1 in *.
  repeat split.
  - now rewrite Ht2, Ht1, app_assoc.
  - now rewrite Hr2, Hr1, app_assoc.
  - congruence.
  - congruence.
  - unfold create_attempts in *.
    now rewrite flat_map_app, map_app, Ha1, Ha2.
  - unfold room_lookups in *. now rewrite flat_map_app, Hk1, Hk2.
  - rewrite populate_failures_app, !length_app. lia.
  - unfold logged_errors in *.
    rewrite flat_map_app, !length_app. lia.
  - unfold emitted in *. rewrite flat_map_app, Hm1, Hm2.
    destruct (io s); reflexivity.
  - rewrite map_app. now apply Subseq_app.
  - rewrite !map_app. now apply Subseq_app.
Qed.

(** The state after a round trip that left the effect [e]. *)
Lemma db_op_run (op : DbOp) (s : Server) :
  db_op op s
  = (if db_next_ok s then Normal tt else Throw (DbError op),
     set_db_faults s (tl (db_faults s))).
Proof. unfold db_op. now destruct (db_next_ok s). Qed.

Lemma Room_findOne_run (n : string) (s : Server) :
  let s' := set_db_faults (set_trace s (trace s ++ [RoomFindOne n]))
                          (tl (db_faults s)) in
  Room_findOne n s
  = (if db_next_ok s
     then Normal (find (fun r => String.eqb (number r) n) (rooms_coll s))
     else Throw (DbError OpFindOne), s').
Proof.
  unfold Room_findOne, bind, effect, modify, gets, db_op, db_next_ok. simpl.
  now destruct (db_faults s) as [|[|] fs].
Qed.

Lemma populate_run (t : Ticket) (s : Server) :
  let s' := set_db_faults (set_trace s (trace s ++ [TicketPopulate (_id t)]))
                          (tl (db_faults s)) in
  populate t s
  = (if db_next_ok s then Normal (populated (rooms_coll s) t)
     else Throw (DbError OpPopulate), s').
Proof.
  unfold populate, bind, effect, modify, gets, db_op, db_next_ok. simpl.
  now destruct (db_faults s) as [|[|] fs].
Qed.

Lemma Ticket_create_run (r rn cat : string) (g : GuestInfo) (st : Status)
    (m : option string) (sub : string) (ms : list Message) (p : string)
    (ec : option string) (cf : Q) (s : Server) :
  let s1 := set_db_faults (set_trace s (trace s ++ [TicketCreate cat]))
                          (tl (db_faults s)) in
  let t := mkTicket (fresh_id (next_id s)) (RoomId r) rn (Some cat) g st m
                    sub ms p ec cf (clock s) (clock s) in
  Ticket_create r rn cat g st m sub ms p ec cf s
  = if db_next_ok s then (Normal t, insert_ticket s1 t)
    else (Throw (DbError OpCreate), s1).
Proof.
  unfold Ticket_create, bind, effect, modify, gets, new_Date, db_op,
    db_next_ok, ret.
  simpl. now destruct (db_faults s) as [|[|] fs].
Qed.

Lemma io_emit_run (event : string) (t : Ticket) (n : string) (s : Server) :
  io_emit event t n s
  = (Normal tt,
     if io s then set_trace s (trace s ++ [IoEmit event t n]) else s).
Proof. unfold io_emit, bind, gets, effect, modify, ret. now destruct (io s). Qed.

(** One turn of the loop always completes, whatever the store does: it
    returns [createdTickets] with at most one more ticket. *)
Lemma create_for_category_outcome (roomNumber_ : string)
    (guestInfo_ : ReqGuestInfo) (room_ : Room) (c : Classification)
    (acc : list Ticket) (ci : CategoryInfo) (s : Server) :
  exists created s',
    create_for_category roomNumber_ guestInfo_ room_ c acc ci s
      = (Normal (acc ++ created)%list, s') /\
    attempts_outcome [ci] s s' created.
Proof.
  unfold create_for_category, try_catch.
  unfold bind at 1. unfold new_Date at 1, gets at 1.
  unfold bind at 1. rewrite Ticket_create_run.
  set (t := mkTicket _ _ _ _ _ _ _ _ _ _ _ _ _ _).
  destruct (db_next_ok s) eqn:Hc.
  - unfold bind at 1. rewrite populate_run.
    set (s1 := insert_ticket _ t).
    destruct (db_next_ok s1) eqn:Hp.
    + unfold bind at 1. rewrite io_emit_run. unfold ret.
      eexists [_], _. split; [reflexivity|].
      subst s1. simpl. destruct (io s) eqn:Hio; simpl.
      * exists [t], [TicketCreate (ci_category ci); TicketPopulate (_id t);
                    IoEmit "newTicket" (populated (rooms_coll s) t)
                      (g_name guestInfo_ ++ " from Room " ++ roomNumber_
                         ++ " needs " ++ ci_category ci ++ " assistance")].
        rewrite <- !app_assoc. simpl.
        repeat split; outcome_fact.
      * exists [t], [TicketCreate (ci_category ci); TicketPopulate (_id t)].
        rewrite <- !app_assoc. simpl.
        repeat split; outcome_fact.
    + unfold bind at 1, effect, modify, ret. simpl.
      eexists [], _. rewrite app_nil_r. split; [reflexivity|].
      exists [t], [TicketCreate (ci_category ci); TicketPopulate (_id t);
                  ConsoleError (DbError OpPopulate)].
      rewrite <- !app_assoc. simpl.
      repeat split; outcome_fact.
  - unfold bind at 1, effect, modify, ret. simpl.
    eexists [], _. rewrite app_nil_r. split; [reflexivity|].
    exists [], [TicketCreate (ci_category ci); ConsoleError (DbError OpCreate)].
    rewrite <- !app_assoc, app_nil_r. simpl.
    repeat split; outcome_fact.
Qed.

(** The whole loop completes, and it makes one attempt per category. *)
Lemma for_of_outcome (roomNumber_ : string) (guestInfo_ : ReqGuestInfo)
    (room_ : Room) (c : Classification) (cs : list CategoryInfo) :
  forall (acc : list Ticket) (s : Server),
  exists created s',
    for_of cs (create_for_category roomNumber_ guestInfo_ room_ c) acc s
      = (Normal (acc ++ created)%list, s') /\
    attempts_outcome cs s s' created.
Proof.
  induction cs as [|ci cs IH]; intros acc s.
  - exists [], s. rewrite app_nil_r. split; [reflexivity|].
    apply attempts_outcome_nil.
  - destruct (create_for_category_outcome roomNumber_ guestInfo_ room_ c
                acc ci s) as (c1 & s1 & Hrun1 & Hout1).
    destruct (IH (acc ++ c1)%list s1) as (c2 & s2 & Hrun2 & Hout2).
    exists (c1 ++ c2)%list, s2. split.
    + simpl. rewrite (bind_normal _ _ _ _ _ Hrun1), Hrun2.
      now rewrite app_assoc.
    + change (ci :: cs) with ([ci] ++ cs)%list.
      eapply attempts_outcome_app; eassumption.
Qed.

(** ** Runs of the gateway and of createGuestTicket *)

Lemma classify_run_normal (message rn : string) (s : Server)
    (c : Classification) :
  classifier s message rn = Normal c ->
  classifyWithExternalAPI message (Some rn) s
  = (Normal c,
     set_trace s (trace s ++ [ConsoleLog; AxiosPost message rn; ConsoleLog])).
Proof.
  intros H.
  unfold classifyWithExternalAPI, try_catch, bind, toString, axios_post,
    effect, modify, ret, bind.
  simpl. rewrite H. unfold set_trace; simpl.
  now rewrite <- !app_assoc.
Qed.

Lemma classify_run_throw (message rn : string) (s : Server) (e : Exn) :
  classifier s message rn = Throw e ->
  classifyWithExternalAPI message (Some rn) s
  = (Normal fallback,
     set_trace s (trace s ++ [ConsoleLog; AxiosPost message rn;
                              ConsoleError e])).
Proof.
  intros H.
  unfold classifyWithExternalAPI, try_catch, bind, toString, axios_post,
    effect, modify, ret, bind.
  simpl. rewrite H. unfold set_trace; simpl.
  now rewrite <- !app_assoc.
Qed.

(** A message the classification declines is answered right after the
    classification, in the state the gateway left. *)
Lemma createGuestTicket_declined (req : GuestTicketBody) (s s1 : Server)
    (rn im : string) (gi : ReqGuestInfo) (c : Classification) :
  required_fields req = Some (rn, gi, im) ->
  classifyWithExternalAPI im (Some rn) s = (Normal c, s1) ->
  should_create_ticket c = false ->
  createGuestTicket req s
  = (Normal (mkResponse 200 (NoTicketBody "No ticket needed for this message"
                                         false true (reasoning c))), s1).
Proof.
  intros Hreq Hcl Hno.
  unfold createGuestTicket. rewrite Hreq.
  apply try_catch_normal.
  rewrite (bind_normal _ _ _ _ _ Hcl), Hno. reflexivity.
Qed.

(** A message with ticket-worthy categories for a room that exists: the
    answer is built from what the loop returns. *)
Lemma createGuestTicket_run (req : GuestTicketBody) (s s' : Server)
    (rn im : string) (gi : ReqGuestInfo) (c : Classification)
    (cs : list CategoryInfo) (room_ : Room) (created : list Ticket) :
  required_fields req = Some (rn, gi, im) ->
  classifier s im rn = Normal c ->
  should_create_ticket c = true ->
  categories c = Some cs ->
  db_next_ok s = true ->
  find (fun r => String.eqb (number r) rn) (rooms_coll s) = Some room_ ->
  for_of cs (create_for_category rn gi room_ c) [] (before_loop s im rn)
  = (Normal created, s') ->
  createGuestTicket req s
  = (Normal (mkResponse 201
       (CreatedBody (created_message (List.length created))
                    (created_data created) (List.length created)
                    (map ci_category cs) true)), s').
Proof.
  intros Hreq Hcl Hyes Hcs Hdb Hroom Hloop.
  pose proof (classify_run_normal im rn s c Hcl) as Hrun.
  set (s1 := set_trace s _) in Hrun.
  pose proof (Room_findOne_run rn s1) as Hfind. simpl in Hfind.
  change (db_next_ok s1) with (db_next_ok s) in Hfind.
  rewrite Hdb, Hroom in Hfind.
  change (set_db_faults _ _) with (before_loop s im rn) in Hfind.
  unfold createGuestTicket. rewrite Hreq.
  apply try_catch_normal.
  rewrite (bind_normal _ _ _ _ _ Hrun), Hyes. cbn [negb].
  rewrite (bind_normal _ _ _ _ _ Hfind), Hcs.
  destruct cs as [|ci cs'].
  - simpl in Hloop. unfold ret in Hloop. inversion Hloop; subst.
    reflexivity.
  - rewrite (bind_normal _ _ _ _ _ Hloop). reflexivity.
Qed.

Lemma createGuestTicket_created (req : GuestTicketBody) (s : Server)
    (rn im : string) (gi : ReqGuestInfo) (c : Classification)
    (cs : list CategoryInfo) (room_ : Room) :
  required_fields req = Some (rn, gi, im) ->
  classifier s im rn = Normal c ->
  should_create_ticket c = true ->
  categories c = Some cs ->
  db_next_ok s = true ->
  find (fun r => String.eqb (number r) rn) (rooms_coll s) = Some room_ ->
  exists created s',
    createGuestTicket req s
    = (Normal (mkResponse 201
         (CreatedBody (created_message (List.length created))
                      (created_data created) (List.length created)
                      (map ci_category cs) true)), s') /\
    attempts_outcome cs (before_loop s im rn) s' created.
Proof.
  intros Hreq Hcl Hyes Hcs Hdb Hroom.
  destruct (for_of_outcome rn gi room_ c cs [] (before_loop s im rn))
    as (created & s' & Hloop & Hout).
  exists created, s'. split; [|exact Hout].
  exact (createGuestTicket_run req s s' rn im gi c cs room_ created
           Hreq Hcl Hyes Hcs Hdb Hroom Hloop).
Qed.

(** Where a 404 comes from. *)
Lemma createGuestTicket_404 (req : GuestTicketBody) (s s' : Server)
    (r : Response) :
  createGuestTicket req s = (Normal r, s') ->
  code r = 404%nat ->
  exists rn gi im c s1,
    required_fields req = Some (rn, gi, im) /\
    classifyWithExternalAPI im (Some rn) s = (Normal c, s1) /\
    should_create_ticket c = true /\
    find (fun x => String.eqb (number x) rn) (rooms_coll s) = None.
Proof.
  intros Hrun Hcode.
  unfold createGuestTicket in Hrun.
  destruct (required_fields req) as [[[rn gi] im]|] eqn:Hreq.
  2:{ exfalso. unfold try_catch, ret in Hrun.
      inversion Hrun; subst. simpl in Hcode. discriminate. }
  destruct (classify_returns im (Some rn) s) as (c & l & Hcl & _).
  set (s1 := set_trace s _) in Hcl.
  exists rn, gi, im, c, s1. split; [reflexivity|]. split; [exact Hcl|].
  unfold try_catch in Hrun.
  rewrite (bind_normal _ _ _ _ _ Hcl) in Hrun.
  destruct (should_create_ticket c) eqn:Hs.
  2:{ exfalso. simpl in Hrun. unfold ret in Hrun.
      inversion Hrun; subst. simpl in Hcode. discriminate. }
  split; [reflexivity|]. cbn [negb] in Hrun.
  unfold bind at 1 in Hrun. rewrite Room_findOne_run in Hrun.
  change (rooms_coll s1) with (rooms_coll s) in Hrun.
  destruct (db_next_ok s1).
  2:{ exfalso. unfold effect, modify, bind, ret in Hrun. simpl in Hrun.
      inversion Hrun; subst. simpl in Hcode. discriminate. }
  destruct (find _ (rooms_coll s)) as [room_|] eqn:Hf; [|reflexivity].
  exfalso. revert Hrun.
  set (s2 := set_db_faults _ _).
  destruct (categories c) as [[|ci cs]|].
  - unfold bind, ret. intros Hrun.
    inversion Hrun; subst; simpl in Hcode; discriminate.
  - destruct (for_of_outcome rn gi room_ c (ci :: cs) [] s2)
      as (cr & sx & Hl & _).
    rewrite (bind_normal _ _ _ _ _ Hl). unfold ret. intros Hrun.
    inversion Hrun; subst; simpl in Hcode; discriminate.
  - unfold bind, ret, throw, effect, modify. simpl. intros Hrun.
    inversion Hrun; subst; simpl in Hcode; discriminate.
Qed.

Lemma data_tickets_created_data (created : list Ticket) :
  data_tickets (created_data created) = created.
Proof. now destruct created as [|t [|u r]]. Qed.

Lemma create_attempts_app (l1 l2 : list Effect) :
  create_attempts (l1 ++ l2) = (create_attempts l1 ++ create_attempts l2)%list.
Proof. apply flat_map_app. Qed.

Lemma emitted_app (l1 l2 : list Effect) :
  emitted (l1 ++ l2) = (emitted l1 ++ emitted l2)%list.
Proof. apply flat_map_app. Qed.

Lemma logged_errors_app (l1 l2 : list Effect) :
  logged_errors (l1 ++ l2) = (logged_errors l1 ++ logged_errors l2)%list.
Proof. apply flat_map_app. Qed.

(** ** Claims about the gateway and createGuestTicket *)

(** C2. When the call to the external classifier throws, whatever the
    message and the room number, [classifyWithExternalAPI] returns
    normally, and what it returns is the fixed fallback: no ticket to
    create, no category, confidence 0.0 and the reasoning
    "Classification service unavailable". *)
Theorem classify_fallback_on_throw (message rn : string) (s : Server)
    (e : Exn) :
  classifier s message rn = Throw e ->
  fst (classifyWithExternalAPI message (Some rn) s) = Normal fallback /\
  should_create_ticket fallback = false /\
  categories fallback = Some [] /\
  confidence fallback = 0.0%Q /\
  reasoning fallback = "Classification service unavailable".
Proof.
  intros H. rewrite (classify_run_throw message rn s e H).
  repeat split.
Qed.

Lemma classify_fallback_on_throw_witness :
  fst (classifyWithExternalAPI "I need coffee" (Some "101")
         (sample_server (Throw AxiosError) []))
  = Normal fallback /\
  should_create_ticket fallback = false /\
  categories fallback = Some [] /\
  confidence fallback = 0.0%Q /\
  reasoning fallback = "Classification service unavailable".
Proof.
  apply (classify_fallback_on_throw "I need coffee" "101"
           (sample_server (Throw AxiosError) []) AxiosError).
  reflexivity.
Defined.

(** A room number that is [undefined] makes [toString] throw inside the
    [try] block: the fallback again. *)
Lemma classify_fallback_on_undefined_room (message : string) (s : Server) :
  fst (classifyWithExternalAPI message None s) = Normal fallback.
Proof. reflexivity. Qed.

(** C3. When the classification of a guest request says that no ticket
    should be created, [createGuestTicket] answers 200 with
    [success = true], [shouldCreateTicket = false] and [isGreeting = true],
    which is no error answer; the ticket collection is unchanged, no
    [Ticket.create] was attempted and nothing was emitted. *)
Theorem declined_message_creates_nothing (req : GuestTicketBody)
    (s : Server) (rn im : string) (gi : ReqGuestInfo) (c : Classification) :
  required_fields req = Some (rn, gi, im) ->
  fst (classifyWithExternalAPI im (Some rn) s) = Normal c ->
  should_create_ticket c = false ->
  exists s' l,
    createGuestTicket req s
    = (Normal (mkResponse 200
         (NoTicketBody "No ticket needed for this message" false true
                       (reasoning c))), s') /\
    success (NoTicketBody "No ticket needed for this message" false true
                          (reasoning c)) = true /\
    tickets_coll s' = tickets_coll s /\
    trace s' = (trace s ++ l)%list /\
    create_attempts l = [] /\
    emitted l = [].
Proof.
  intros Hreq Hcl Hno.
  destruct (classify_returns im (Some rn) s) as (c' & l & Hrun & Ha & He & _).
  rewrite Hrun in Hcl. simpl in Hcl. inversion Hcl; subst c'.
  exists (set_trace s (trace s ++ l)), l.
  rewrite (createGuestTicket_declined req s _ rn im gi c Hreq Hrun Hno).
  repeat split; assumption.
Qed.

Lemma declined_message_creates_nothing_witness :
  exists s' l,
    createGuestTicket (guest_request "101" "Good morning")
                      (sample_server (Normal good_morning) [])
    = (Normal (mkResponse 200
         (NoTicketBody "No ticket needed for this message" false true
                       (reasoning good_morning))), s') /\
    success (NoTicketBody "No ticket needed for this message" false true
                          (reasoning good_morning)) = true /\
    tickets_coll s'
    = tickets_coll (sample_server (Normal good_morning) []) /\
    trace s' = (trace (sample_server (Normal good_morning) []) ++ l)%list /\
    create_attempts l = [] /\
    emitted l = [].
Proof.
  apply (declined_message_creates_nothing
           (guest_request "101" "Good morning")
           (sample_server (Normal good_morning) [])
           "101" "Good morning" test_guest good_morning);
    reflexivity.
Defined.

(** C9. The greeting check comes before the room check. A request whose
    classification declines is answered 200 with [isGreeting = true] and
    no room was looked up, whether the room exists or not; and an answer
    404 is only given to a request whose classification asked for a
    ticket and whose room is not in the collection. *)
Theorem greeting_check_precedes_room_check (req : GuestTicketBody)
    (s : Server) :
  (forall rn gi im c,
     required_fields req = Some (rn, gi, im) ->
     fst (classifyWithExternalAPI im (Some rn) s) = Normal c ->
     should_create_ticket c = false ->
     exists s' l,
       createGuestTicket req s
       = (Normal (mkResponse 200
            (NoTicketBody "No ticket needed for this message" false true
                          (reasoning c))), s') /\
       trace s' = (trace s ++ l)%list /\
       room_lookups l = []) /\
  (forall r s',
     createGuestTicket req s = (Normal r, s') ->
     code r = 404%nat ->
     exists rn gi im c,
       required_fields req = Some (rn, gi, im) /\
       fst (classifyWithExternalAPI im (Some rn) s) = Normal c /\
       should_create_ticket c = true /\
       find (fun x => String.eqb (number x) rn) (rooms_coll s) = None).
Proof.
  split.
  - intros rn gi im c Hreq Hcl Hno.
    destruct (classify_returns im (Some rn) s)
      as (c' & l & Hrun & _ & _ & Hk).
    rewrite Hrun in Hcl. simpl in Hcl. inversion Hcl; subst c'.
    exists (set_trace s (trace s ++ l)), l.
    rewrite (createGuestTicket_declined req s _ rn im gi c Hreq Hrun Hno).
    repeat split; assumption.
  - intros r s' Hrun Hcode.
    destruct (createGuestTicket_404 req s s' r Hrun Hcode)
      as (rn & gi & im & c & s1 & Hreq & Hcl & Hyes & Hnone).
    exists rn, gi, im, c. rewrite Hcl. repeat split; assumption.
Qed.

(** A greeting that names room 999, which does not exist: 200, and no
    look-up of the room. *)
Lemma greeting_check_precedes_room_check_witness :
  exists s' l,
    createGuestTicket (guest_request "999" "Good morning")
                      (sample_server (Normal good_morning) [])
    = (Normal (mkResponse 200
         (NoTicketBody "No ticket needed for this message" false true
                       (reasoning good_morning))), s') /\
    trace s' = (trace (sample_server (Normal good_morning) []) ++ l)%list /\
    room_lookups l = [].
Proof.
  apply (proj1 (greeting_check_precedes_room_check
                  (guest_request "999" "Good morning")
                  (sample_server (Normal good_morning) []))
               "999" test_guest "Good morning" good_morning);
    reflexivity.
Defined.

(** The same room with a message that asks for a ticket: 404. *)
Example ticket_request_for_unknown_room :
  fst (createGuestTicket (guest_request "999" "I need coffee")
                         (sample_server (Normal coffee_and_towels) []))
  = Normal (mkResponse 404 (FailureBody "Room not found")).
Proof. vm_compute. reflexivity. Qed.

(** The loop of a guest request whose classification asks for a ticket
    with the categories [cs], for a room that exists: [Ticket.create] is
    attempted once per category, in their order, whatever attempts fail;
    every failure is logged and the loop goes on; the collection grows by
    at most one ticket per category; the answer is 201 and its
    [ticketCount] is the length of [createdTickets]. That is the number
    of tickets created only as long as no [populate] throws: the
    collection has grown by [ticketCount] plus the number of failed
    [populate]s. *)
Theorem one_attempt_per_category (req : GuestTicketBody) (s : Server)
    (rn im : string) (gi : ReqGuestInfo) (c : Classification)
    (cs : list CategoryInfo) (room_ : Room) :
  required_fields req = Some (rn, gi, im) ->
  classifier s im rn = Normal c ->
  should_create_ticket c = true ->
  categories c = Some cs ->
  db_next_ok s = true ->
  find (fun r => String.eqb (number r) rn) (rooms_coll s) = Some room_ ->
  exists created new l s',
    createGuestTicket req s
    = (Normal (mkResponse 201
         (CreatedBody (created_message (List.length created))
                      (created_data created) (List.length created)
                      (map ci_category cs) true)), s') /\
    trace s' = (trace s ++ l)%list /\
    create_attempts l = map ci_category cs /\
    tickets_coll s' = (tickets_coll s ++ new)%list /\
    (List.length created <= List.length new <= List.length cs)%nat /\
    List.length new = (List.length created + populate_failures l)%nat /\
    (List.length (logged_errors l) + List.length created)%nat
      = List.length cs /\
    Subseq created (map (populated (rooms_coll s)) new) /\
    emitted l = (if io s then created else []).
Proof.
  intros Hreq Hcl Hyes Hcs Hdb Hroom.
  destruct (createGuestTicket_created req s rn im gi c cs room_
              Hreq Hcl Hyes Hcs Hdb Hroom)
    as (created & s' & Hrun & Hout).
  destruct Hout as (new & l & Ht & Htr & Hrm & Hio & Ha & Hk & Hn & He & Hm
                    & Hs & Hc).
  exists created, new,
    ([ConsoleLog; AxiosPost im rn; ConsoleLog; RoomFindOne rn] ++ l)%list, s'.
  simpl in Ht, Htr, Hrm, Hio, Hm, Hs.
  pose proof (populate_failures_le l) as Hle.
  repeat split.
  - exact Hrun.
  - rewrite Htr, <- !app_assoc. reflexivity.
  - rewrite create_attempts_app. exact Ha.
  - exact Ht.
  - lia.
  - lia.
  - rewrite populate_failures_app. exact Hn.
  - rewrite logged_errors_app. exact He.
  - exact Hs.
  - rewrite emitted_app. exact Hm.
Qed.

Lemma one_attempt_per_category_witness :
  exists created new l s',
    createGuestTicket (guest_request "101" "I need coffee and clean towels")
                      first_create_fails
    = (Normal (mkResponse 201
         (CreatedBody (created_message (List.length created))
                      (created_data created) (List.length created)
                      (map ci_category
                         [mkCategoryInfo "service_fb" "coffee" (Some "high");
                          mkCategoryInfo "housekeeping" "clean towels" None])
                      true)), s') /\
    trace s' = (trace first_create_fails ++ l)%list /\
    create_attempts l
    = map ci_category
        [mkCategoryInfo "service_fb" "coffee" (Some "high");
         mkCategoryInfo "housekeeping" "clean towels" None] /\
    tickets_coll s' = (tickets_coll first_create_fails ++ new)%list /\
    (List.length created <= List.length new <= 2)%nat /\
    List.length new = (List.length created + populate_failures l)%nat /\
    (List.length (logged_errors l) + List.length created)%nat = 2%nat /\
    Subseq created (map (populated (rooms_coll first_create_fails)) new) /\
    emitted l = (if io first_create_fails then created else []).
Proof.
  apply (one_attempt_per_category
           (guest_request "101" "I need coffee and clean towels")
           first_create_fails "101" "I need coffee and clean towels"
           test_guest coffee_and_towels
           [mkCategoryInfo "service_fb" "coffee" (Some "high");
            mkCategoryInfo "housekeeping" "clean towels" None]
           room101);
    reflexivity.
Defined.

(** With a store that does not fail, both tickets of the sample request
    are created, stored and emitted. *)
Example both_tickets_created :
  let '(r, s') :=
    createGuestTicket (guest_request "101" "I need coffee and clean towels")
                      (sample_server (Normal coffee_and_towels) []) in
  (option_map (fun x => body_ticketCount (body x))
              (match r with Normal x => Some x | Throw _ => None end),
   map category (tickets_coll s'),
   map category (emitted (trace s')))
  = (Some (Some 2%nat),
     [Some "service_fb"; Some "housekeeping"],
     [Some "service_fb"; Some "housekeeping"]).
Proof. vm_compute. reflexivity. Qed.

(** C1. The count of the answer misses a ticket that was created. The
    request "I need coffee and clean towels" of room 101 is classified
    into two categories; the room is found, [Ticket.create] succeeds for
    the coffee ticket and the [populate] that follows it throws; the
    towels ticket goes through. [Ticket.create] was attempted once per
    category and both tickets are in the collection, but the first never
    reached [createdTickets.push]: the answer 201 says [ticketCount = 1]
    and carries the towels ticket only, the failure is logged as a
    failure to create, and the managers are told of one ticket. *)
Theorem stored_but_not_counted :
  let '(r, s') :=
    createGuestTicket (guest_request "101" "I need coffee and clean towels")
                      (sample_server (Normal coffee_and_towels)
                                     [false; false; true]) in
  (option_map (fun x => (code x, body_ticketCount (body x),
                         map category (body_tickets (body x))))
              (match r with Normal x => Some x | Throw _ => None end),
   create_attempts (trace s'),
   map category (tickets_coll s'),
   logged_errors (trace s'),
   map category (emitted (trace s')))
  = (Some (201%nat, Some 1%nat, [Some "housekeeping"]),
     ["service_fb"; "housekeeping"],
     [Some "service_fb"; Some "housekeeping"],
     [DbError OpPopulate],
     [Some "housekeeping"]).
Proof. vm_compute. reflexivity. Qed.

(** *** A store that does not fail *)

Lemma create_for_category_no_fault (roomNumber_ : string)
    (guestInfo_ : ReqGuestInfo) (room_ : Room) (c : Classification)
    (acc : list Ticket) (ci : CategoryInfo) (s : Server) :
  db_faults s = [] ->
  exists t s',
    create_for_category roomNumber_ guestInfo_ room_ c acc ci s
      = (Normal (acc ++ [t])%list, s') /\
    category t = Some (ci_category ci) /\
    db_faults s' = [].
Proof.
  intros Hf.
  unfold create_for_category, try_catch.
  unfold bind at 1. unfold new_Date at 1, gets at 1.
  unfold bind at 1. rewrite Ticket_create_run.
  unfold db_next_ok. rewrite Hf.
  unfold bind at 1. rewrite populate_run.
  unfold db_next_ok. cbn [db_faults insert_ticket set_db_faults tl].
  unfold bind at 1. rewrite io_emit_run. unfold ret.
  eexists. eexists. split; [reflexivity|].
  split; [reflexivity|].
  simpl. destruct (io s); reflexivity.
Qed.

Lemma for_of_no_fault (roomNumber_ : string) (guestInfo_ : ReqGuestInfo)
    (room_ : Room) (c : Classification) (cs : list CategoryInfo) :
  forall (acc : list Ticket) (s : Server),
    db_faults s = [] ->
    exists created s',
      for_of cs (create_for_category roomNumber_ guestInfo_ room_ c) acc s
        = (Normal (acc ++ created)%list, s') /\
      map category created = map (fun ci => Some (ci_category ci)) cs /\
      db_faults s' = [].
Proof.
  induction cs as [|ci cs IH]; intros acc s Hf.
  - exists [], s. rewrite app_nil_r. auto.
  - destruct (create_for_category_no_fault roomNumber_ guestInfo_ room_ c
                acc ci s Hf) as (t & s1 & Hrun1 & Hcat & Hf1).
    destruct (IH (acc ++ [t])%list s1 Hf1) as (cr & s2 & Hrun2 & Hcats & Hf2).
    exists (t :: cr), s2. split; [|split].
    + simpl. rewrite (bind_normal _ _ _ _ _ Hrun1), Hrun2.
      now rewrite <- app_assoc.
    + simpl. now rewrite Hcat, Hcats.
    + exact Hf2.
Qed.

(** When the store does not fail, there is one ticket per category: the
    count is the number of categories and the categories of the tickets
    are those of the classification. *)
Lemma all_created_without_faults (req : GuestTicketBody) (s : Server)
    (rn im : string) (gi : ReqGuestInfo) (c : Classification)
    (cs : list CategoryInfo) (room_ : Room) :
  required_fields req = Some (rn, gi, im) ->
  classifier s im rn = Normal c ->
  should_create_ticket c = true ->
  categories c = Some cs ->
  db_faults s = [] ->
  find (fun r => String.eqb (number r) rn) (rooms_coll s) = Some room_ ->
  exists r s',
    createGuestTicket req s = (Normal r, s') /\
    code r = 201%nat /\
    body_ticketCount (body r) = Some (List.length cs) /\
    map category (body_tickets (body r)) = map Some (body_categories (body r)).
Proof.
  intros Hreq Hcl Hyes Hcs Hf Hroom.
  assert (Hdb : db_next_ok s = true) by (unfold db_next_ok; now rewrite Hf).
  assert (Hf2 : db_faults (before_loop s im rn) = [])
    by (simpl; now rewrite Hf).
  destruct (for_of_no_fault rn gi room_ c cs [] _ Hf2)
    as (created & s' & Hloop & Hcats & _).
  eexists. exists s'. split.
  - exact (createGuestTicket_run req s s' rn im gi c cs room_ created
             Hreq Hcl Hyes Hcs Hdb Hroom Hloop).
  - simpl. rewrite data_tickets_created_data, Hcats, map_map.
    repeat split.
    f_equal. rewrite <- (length_map category created), Hcats.
    apply length_map.
Qed.

(** C6, as the specification words it, fails: when the first creation
    fails the answer still lists both classified categories and carries
    the one ticket that was created. *)
Lemma categories_of_a_partial_creation :
  match fst (createGuestTicket
               (guest_request "101" "I need coffee and clean towels")
               first_create_fails) with
  | Normal r =>
      code r = 201%nat /\
      body_categories (body r) = ["service_fb"; "housekeeping"] /\
      map category (body_tickets (body r)) = [Some "housekeeping"] /\
      map category (body_tickets (body r))
        <> map Some (body_categories (body r))
  | Throw _ => False
  end.
Proof. vm_compute. repeat split. discriminate. Qed.

(** C6, amended. The [categories] field of the 201 answer lists the
    categories of the classification, all of them and in its order,
    whether or not the ticket of a category was created. The categories
    of the tickets created are those with some left out, and the two
    lists are the same when as many tickets were created as there are
    classified categories. *)
Theorem response_lists_classified_categories (req : GuestTicketBody)
    (s : Server) (rn im : string) (gi : ReqGuestInfo) (c : Classification)
    (cs : list CategoryInfo) (room_ : Room) :
  required_fields req = Some (rn, gi, im) ->
  classifier s im rn = Normal c ->
  should_create_ticket c = true ->
  categories c = Some cs ->
  db_next_ok s = true ->
  find (fun r => String.eqb (number r) rn) (rooms_coll s) = Some room_ ->
  exists r s',
    createGuestTicket req s = (Normal r, s') /\
    code r = 201%nat /\
    body_categories (body r) = map ci_category cs /\
    Subseq (map category (body_tickets (body r)))
           (map Some (body_categories (body r))) /\
    (body_ticketCount (body r) = Some (List.length cs) ->
     map category (body_tickets (body r))
     = map Some (body_categories (body r))).
Proof.
  intros Hreq Hcl Hyes Hcs Hdb Hroom.
  destruct (createGuestTicket_created req s rn im gi c cs room_
              Hreq Hcl Hyes Hcs Hdb Hroom)
    as (created & s' & Hrun & Hout).
  destruct Hout as (new & l & Hout).
  assert (Hc : Subseq (map category created)
                      (map (fun ci => Some (ci_category ci)) cs))
    by apply Hout.
  eexists. exists s'. split; [exact Hrun|]. simpl.
  rewrite data_tickets_created_data, map_map.
  repeat split.
  - exact Hc.
  - intros Hn. inversion Hn as [Hlen].
    apply Subseq_same_length; [exact Hc|].
    now rewrite !length_map.
Qed.

Lemma response_lists_classified_categories_witness :
  exists r s',
    createGuestTicket (guest_request "101" "I need coffee and clean towels")
                      first_create_fails = (Normal r, s') /\
    code r = 201%nat /\
    body_categories (body r)
    = map ci_category
        [mkCategoryInfo "service_fb" "coffee" (Some "high");
         mkCategoryInfo "housekeeping" "clean towels" None] /\
    Subseq (map category (body_tickets (body r)))
           (map Some (body_categories (body r))) /\
    (body_ticketCount (body r) = Some 2%nat ->
     map category (body_tickets (body r))
     = map Some (body_categories (body r))).
Proof.
  apply (response_lists_classified_categories
           (guest_request "101" "I need coffee and clean towels")
           first_create_fails "101" "I need coffee and clean towels"
           test_guest coffee_and_towels
           [mkCategoryInfo "service_fb" "coffee" (Some "high");
            mkCategoryInfo "housekeeping" "clean towels" None]
           room101);
    reflexivity.
Defined.

(** ** getTickets *)

Lemma insert_desc_perm (t : Ticket) (l : list Ticket) :
  Permutation (t :: l) (insert_desc t l).
Proof.
  induction l as [|h r IH]; simpl.
  - apply Permutation_refl.
  - destruct (createdAt h <=? createdAt t).
    + apply Permutation_refl.
    + eapply perm_trans; [apply perm_swap|]. now apply perm_skip.
Qed.

Lemma sort_desc_perm (l : list Ticket) : Permutation l (sort_desc l).
Proof.
  induction l as [|t r IH]; simpl.
  - apply perm_nil.
  - eapply perm_trans; [apply perm_skip, IH|]. apply insert_desc_perm.
Qed.

Lemma insert_desc_sorted (t : Ticket) (l : list Ticket) :
  StronglySorted newer_first l -> StronglySorted newer_first (insert_desc t l).
Proof.
  induction l as [|h r IH]; simpl; intros Hs.
  - repeat constructor.
  - inversion Hs as [|h' r' Hr Hall]; subst.
    destruct (createdAt h <=? createdAt t) eqn:Hle.
    + apply Z.leb_le in Hle. constructor; [exact Hs|].
      constructor; [exact Hle|].
      eapply Forall_impl; [|exact Hall].
      intros a Ha. unfold newer_first in *. lia.
    + apply Z.leb_gt in Hle. constructor; [now apply IH|].
      eapply Permutation_Forall; [apply insert_desc_perm|].
      constructor; [unfold newer_first; lia | exact Hall].
Qed.

Lemma sort_desc_sorted (l : list Ticket) :
  StronglySorted newer_first (sort_desc l).
Proof.
  induction l as [|t r IH]; simpl.
  - constructor.
  - now apply insert_desc_sorted.
Qed.

Lemma matches_query_matching (q : TicketQuery) (t : Ticket) :
  matches_query (query_field (q_status q)) (query_field (q_category q)) t
  = true <-> matching q t.
Proof.
  unfold matches_query, query_field, matching.
  destruct q as [[st|] [cat|]]; simpl;
    try destruct (Js.truthy st) eqn:Hst;
    try destruct (Js.truthy cat) eqn:Hcat;
    try destruct (category t) as [c'|] eqn:Hc;
    rewrite ?andb_true_iff, ?String.eqb_eq;
    intuition (try congruence; try discriminate).
  all: try (match goal with
            | H : _ -> Some _ = Some _ |- _ =>
                specialize (H eq_refl); inversion H; reflexivity
            end).
Qed.

Lemma Ticket_find_run (st cat : option string) (s : Server) :
  let s' := set_db_faults (set_trace s (trace s ++ [TicketFind st cat]))
                          (tl (db_faults s)) in
  Ticket_find st cat s
  = (if db_next_ok s
     then Normal (sort_desc (map (populated (rooms_coll s))
                                 (filter (matches_query st cat)
                                         (tickets_coll s))))
     else Throw (DbError OpFind), s').
Proof.
  unfold Ticket_find, bind, effect, modify, gets, db_op, db_next_ok. simpl.
  now destruct (db_faults s) as [|[|] fs].
Qed.

Lemma getTickets_run (q : TicketQuery) (s : Server) :
  db_next_ok s = true ->
  getTickets q s
  = (Normal (mkResponse 200 (TicketsBody
       (sort_desc (map (populated (rooms_coll s))
          (filter (matches_query (query_field (q_status q))
                                 (query_field (q_category q)))
                  (tickets_coll s)))))),
     set_db_faults
       (set_trace s (trace s ++ [TicketFind (query_field (q_status q))
                                            (query_field (q_category q))]))
       (tl (db_faults s))).
Proof.
  intros Hdb. unfold getTickets.
  apply try_catch_normal. unfold bind at 1.
  rewrite Ticket_find_run, Hdb. reflexivity.
Qed.

(** C8. A listing whose read of the store succeeds answers with the
    tickets of the collection that match the status and category filters
    of the request, each one once, the newest first; it leaves the
    collection as it is, and a listing of the same collection, such as a
    second call with no write in between, gives the same answer in the
    same order. *)
Theorem getTickets_newest_first (q : TicketQuery) (s : Server) :
  db_next_ok s = true ->
  exists l s',
    getTickets q s = (Normal (mkResponse 200 (TicketsBody l)), s') /\
    Permutation l (map (populated (rooms_coll s))
                       (filter (matches_query (query_field (q_status q))
                                              (query_field (q_category q)))
                               (tickets_coll s))) /\
    (forall t, In t l <->
               exists t0, In t0 (tickets_coll s) /\ matching q t0 /\
                          t = populated (rooms_coll s) t0) /\
    StronglySorted newer_first l /\
    tickets_coll s' = tickets_coll s /\
    rooms_coll s' = rooms_coll s /\
    (forall s2,
       tickets_coll s2 = tickets_coll s ->
       rooms_coll s2 = rooms_coll s ->
       db_next_ok s2 = true ->
       fst (getTickets q s2) = Normal (mkResponse 200 (TicketsBody l))).
Proof.
  intros Hdb. eexists. eexists.
  split; [apply (getTickets_run q s Hdb)|].
  split; [apply Permutation_sym, sort_desc_perm|].
  split; [|split; [apply sort_desc_sorted|]].
  - intros t. split.
    + intros Hin.
      apply (Permutation_in _ (Permutation_sym (sort_desc_perm _))) in Hin.
      apply in_map_iff in Hin. destruct Hin as (t0 & Ht & Hin).
      apply filter_In in Hin. destruct Hin as (Hin & Hm).
      exists t0. rewrite <- matches_query_matching. auto.
    + intros (t0 & Hin & Hm & Ht). subst t.
      apply (Permutation_in _ (sort_desc_perm _)).
      apply in_map, filter_In. split; [exact Hin|].
      now apply matches_query_matching.
  - simpl. repeat split.
    intros s2 Ht Hr Hdb2. rewrite (getTickets_run q s2 Hdb2). simpl.
    now rewrite Ht, Hr.
Qed.

Lemma getTickets_newest_first_witness :
  exists l s',
    getTickets raised_only sample_store
    = (Normal (mkResponse 200 (TicketsBody l)), s') /\
    Permutation l
      (map (populated (rooms_coll sample_store))
           (filter (matches_query (query_field (q_status raised_only))
                                  (query_field (q_category raised_only)))
                   (tickets_coll sample_store))) /\
    (forall t, In t l <->
               exists t0, In t0 (tickets_coll sample_store) /\
                          matching raised_only t0 /\
                          t = populated (rooms_coll sample_store) t0) /\
    StronglySorted newer_first l /\
    tickets_coll s' = tickets_coll sample_store /\
    rooms_coll s' = rooms_coll sample_store /\
    (forall s2,
       tickets_coll s2 = tickets_coll sample_store ->
       rooms_coll s2 = rooms_coll sample_store ->
       db_next_ok s2 = true ->
       fst (getTickets raised_only s2)
       = Normal (mkResponse 200 (TicketsBody l))).
Proof.
  apply (getTickets_newest_first raised_only sample_store).
  reflexivity.
Defined.

(** The raised tickets of the sample store, the newest first. *)
Example raised_tickets_listed :
  option_map (fun r => map _id (body_tickets (body r)))
             (match fst (getTickets raised_only sample_store) with
              | Normal r => Some r
              | Throw _ => None
              end)
  = Some ["t1"; "t0"].
Proof. vm_compute. reflexivity. Qed.

(** A listing whose read of the store fails answers 500. *)
Example listing_fails_with_the_store :
  fst (getTickets raised_only
         (sample_server (Throw AxiosError) [true]))
  = Normal (mkResponse 500 (FailureBody "Failed to get tickets")).
Proof. vm_compute. reflexivity. Qed.

(** ** Grouping of related tickets *)

(** The related-tickets filter of the ticket dialog keeps another ticket
    exactly when guest name and room number are the same and the creation
    times are at most five minutes apart. *)
Lemma isRelated_iff (selectedTicket t : Ticket) :
  _id t <> _id selectedTicket ->
  (isRelated selectedTicket t = true <->
   name (guestInfo t) = name (guestInfo selectedTicket) /\
   roomNumber t = roomNumber selectedTicket /\
   Z.abs (createdAt t - createdAt selectedTicket) <= five_minutes).
Proof.
  intros Hid. unfold isRelated.
  apply String.eqb_neq in Hid. rewrite Hid.
  destruct (String.eqb (name (guestInfo t)) (name (guestInfo selectedTicket)))
    eqn:Hn; simpl.
  - apply String.eqb_eq in Hn.
    destruct (String.eqb (roomNumber t) (roomNumber selectedTicket)) eqn:Hr;
      simpl.
    + apply String.eqb_eq in Hr. rewrite Z.leb_le. tauto.
    + apply String.eqb_neq in Hr. split; [discriminate | tauto].
  - apply String.eqb_neq in Hn. split; [discriminate | tauto].
Qed.



(** The tickets the dialog of [selectedTicket] relates to it: the ticket
    itself, by its id, and the tickets of the board with its guest name
    and room number created at most five minutes before or after it. *)
Lemma relatedTickets_In (b : Buckets) (selectedTicket t : Ticket) :
  In t (relatedTickets b selectedTicket) <->
  In t (allTicketsFlat b) /\
  (_id t = _id selectedTicket \/
   name (guestInfo t) = name (guestInfo selectedTicket) /\
   roomNumber t = roomNumber selectedTicket /\
   Z.abs (createdAt t - createdAt selectedTicket) <= five_minutes).
Proof.
  unfold relatedTickets. rewrite filter_In.
  destruct (String.eqb_spec (_id t) (_id selectedTicket)) as [Hid|Hid].
  - unfold isRelated. rewrite Hid, String.eqb_refl. tauto.
  - rewrite (isRelated_iff selectedTicket t Hid). tauto.
Qed.


(** *** The map of groupRelatedTickets *)














(** The key joins its parts with dashes, so two guests in two rooms can
    share a key, and a group. *)
Example groupRelatedTickets_joins_two_guests :
  let a := mkTicket "t0" (RoomId "r1") "2" (Some "porter")
                    (mkGuestInfo "Kim-1" "" "") raised None "PORTER - Room 2"
                    [] "medium" None 0.9 1704067440000 1704067440000 in
  let b := mkTicket "t1" (RoomId "r2") "1-2" (Some "porter")
                    (mkGuestInfo "Kim" "" "") raised None "PORTER - Room 1-2"
                    [] "medium" None 0.9 1704067440000 1704067440000 in
  groupRelatedTickets [a; b] = [[a; b]].
Proof. vm_compute. reflexivity. Qed.


(** Two tickets the same request made one millisecond apart, on the two
    sides of a slot boundary, are split as well. *)
Example groupRelatedTickets_splits_one_request :
  groupRelatedTickets
    [sample_ticket "t0" raised "service_fb" 1704067499999 "coffee";
     sample_ticket "t1" raised "housekeeping" 1704067500000 "clean towels"]
  = [[sample_ticket "t0" raised "service_fb" 1704067499999 "coffee"];
     [sample_ticket "t1" raised "housekeeping" 1704067500000 "clean towels"]].
Proof. vm_compute. reflexivity. Qed.




(** ** The staff board: fetchData *)

Lemma groupedTickets_from (ticketsData : list Ticket) (acc : Buckets) :
  fold_left (fun acc t => bucket_push acc (status t) t) ticketsData acc
  = mkBuckets
      (b_raised acc
         ++ filter (fun t => Status_eqb (status t) raised) ticketsData)
      (b_in_progress acc
         ++ filter (fun t => Status_eqb (status t) in_progress) ticketsData)
      (b_completed acc
         ++ filter (fun t => Status_eqb (status t) completed) ticketsData).
Proof.
  revert acc. induction ticketsData as [|t r IH]; intros acc; simpl.
  - rewrite !app_nil_r. now destruct acc.
  - rewrite IH. destruct (status t); simpl; now rewrite <- ?app_assoc.
Qed.

Lemma groupedTickets_bucket (ticketsData : list Ticket) (s : Status) :
  bucket (groupedTickets ticketsData) s
  = filter (fun t => Status_eqb (status t) s) ticketsData.
Proof.
  unfold groupedTickets. rewrite groupedTickets_from. now destruct s.
Qed.

Lemma Status_eqb_eq (a b : Status) : Status_eqb a b = true <-> a = b.
Proof. destruct a, b; simpl; split; congruence. Qed.

Lemma groupedTickets_flat (ticketsData : list Ticket) :
  Permutation (allTicketsFlat (groupedTickets ticketsData)) ticketsData.
Proof.
  unfold allTicketsFlat, groupedTickets. rewrite groupedTickets_from. simpl.
  induction ticketsData as [|t r IH]; simpl.
  - constructor.
  - destruct (status t); simpl.
    + now constructor.
    + apply Permutation_sym, Permutation_cons_app, Permutation_sym, IH.
    + apply Permutation_sym. rewrite app_assoc.
      apply Permutation_cons_app. rewrite <- app_assoc.
      apply Permutation_sym, IH.
Qed.

Lemma NoDup_map_inj {A B} (f : A -> B) (l : list A) (a b : A) :
  NoDup (map f l) -> In a l -> In b l -> f a = f b -> a = b.
Proof.
  induction l as [|x r IH]; simpl; intros Hnd Ha Hb Hf; [contradiction|].
  inversion Hnd as [|y ys Hnot Hrest]; subst.
  destruct Ha as [<-|Ha], Hb as [<-|Hb].
  - reflexivity.
  - exfalso. apply Hnot. rewrite Hf. now apply in_map.
  - exfalso. apply Hnot. rewrite <- Hf. now apply in_map.
  - now apply IH.
Qed.

Lemma fetchData_tickets (d : Dashboard) (ticketsData : list Ticket)
    (rooms_ok : bool) (rooms_data : option (list Room)) :
  let d' := fst (fetchData d (Replied true (Some ticketsData))
                             (Replied rooms_ok rooms_data)) in
  tickets d' = groupedTickets ticketsData /\
  stats d'
  = mkStats (data_length (Replied rooms_ok rooms_data))
            (List.length (b_raised (groupedTickets ticketsData)))
            (List.length (b_in_progress (groupedTickets ticketsData)))
            (List.length (b_completed (groupedTickets ticketsData))).
Proof. simpl. now destruct rooms_ok, rooms_data. Qed.

Lemma fetchData_toasts (d : Dashboard) (ticketsData : list Ticket)
    (rooms_ok : bool) (rooms_data : option (list Room)) :
  snd (fetchData d (Replied true (Some ticketsData))
                   (Replied rooms_ok rooms_data))
  = new_ticket_toasts (tickets d) ticketsData.
Proof. reflexivity. Qed.

(** C7. After a refresh that fetched the ticket list [ticketsData], whose
    ids are distinct as the ids of a collection are, each bucket holds
    the fetched tickets of its status, in their order: a ticket is in a
    bucket exactly when it was fetched and has the status of the bucket,
    the three buckets together are the fetched list rearranged, no id is
    in two buckets or twice in one, and the three counts of the stats are
    the lengths of the buckets. *)
Theorem fetchData_buckets_partition (d : Dashboard)
    (ticketsData : list Ticket) (rooms_ok : bool)
    (rooms_data : option (list Room)) :
  NoDup (map _id ticketsData) ->
  let d' := fst (fetchData d (Replied true (Some ticketsData))
                             (Replied rooms_ok rooms_data)) in
  (forall s, bucket (tickets d') s
             = filter (fun t => Status_eqb (status t) s) ticketsData) /\
  (forall t s, In t (bucket (tickets d') s)
               <-> In t ticketsData /\ status t = s) /\
  Permutation (allTicketsFlat (tickets d')) ticketsData /\
  NoDup (map _id (allTicketsFlat (tickets d'))) /\
  (forall s1 s2 t1 t2,
     In t1 (bucket (tickets d') s1) -> In t2 (bucket (tickets d') s2) ->
     _id t1 = _id t2 -> s1 = s2) /\
  raisedTickets (stats d') = List.length (bucket (tickets d') raised) /\
  inProgressTickets (stats d')
  = List.length (bucket (tickets d') in_progress) /\
  completedTickets (stats d') = List.length (bucket (tickets d') completed).
Proof.
  intros Hnd d'.
  destruct (fetchData_tickets d ticketsData rooms_ok rooms_data)
    as [Ht Hs].
  fold d' in Ht, Hs. rewrite Ht, Hs.
  assert (Hin : forall t s, In t (bucket (groupedTickets ticketsData) s)
                            <-> In t ticketsData /\ status t = s).
  { intros t s. rewrite groupedTickets_bucket, filter_In, Status_eqb_eq.
    tauto. }
  split; [apply groupedTickets_bucket|].
  split; [exact Hin|].
  split; [apply groupedTickets_flat|].
  split.
  { eapply Permutation_NoDup; [|exact Hnd].
    apply Permutation_sym, Permutation_map, groupedTickets_flat. }
  split; [|repeat split].
  intros s1 s2 t1 t2 H1 H2 Hid.
  apply Hin in H1, H2. destruct H1 as [H1 <-], H2 as [H2 <-].
  now rewrite (NoDup_map_inj _id ticketsData t1 t2 Hnd H1 H2 Hid).
Qed.

Lemma fetchData_buckets_partition_witness :
  let d' := fst (fetchData board_with_coffee
                   (Replied true (Some [towels_ticket; coffee_done]))
                   (Replied true (Some [room101]))) in
  (forall s, bucket (tickets d') s
             = filter (fun t => Status_eqb (status t) s)
                      [towels_ticket; coffee_done]) /\
  (forall t s, In t (bucket (tickets d') s)
               <-> In t [towels_ticket; coffee_done] /\ status t = s) /\
  Permutation (allTicketsFlat (tickets d')) [towels_ticket; coffee_done] /\
  NoDup (map _id (allTicketsFlat (tickets d'))) /\
  (forall s1 s2 t1 t2,
     In t1 (bucket (tickets d') s1) -> In t2 (bucket (tickets d') s2) ->
     _id t1 = _id t2 -> s1 = s2) /\
  raisedTickets (stats d') = List.length (bucket (tickets d') raised) /\
  inProgressTickets (stats d')
  = List.length (bucket (tickets d') in_progress) /\
  completedTickets (stats d') = List.length (bucket (tickets d') completed).
Proof.
  apply (fetchData_buckets_partition board_with_coffee
           [towels_ticket; coffee_done] true (Some [room101])).
  repeat constructor; simpl; intuition discriminate.
Defined.

Lemma toast_ticket_ids_new (l : list Ticket) :
  toast_ticket_ids (map NewRequestToast l) = map _id l.
Proof.
  induction l as [|t r IH]; simpl; [reflexivity|]. now rewrite IH.
Qed.

(** Filtering a ticket list keeps its ids distinct. *)
Lemma filter_keeps_ids_distinct (keep : Ticket -> bool) (ts : list Ticket) :
  NoDup (map _id ts) -> NoDup (map _id (filter keep ts)).
Proof.
  intros Hnd. induction ts as [|t r IH]; simpl; [constructor|].
  simpl in Hnd. apply NoDup_cons_iff in Hnd. destruct Hnd as [Hnot Hrest].
  destruct (keep t); simpl; [|now apply IH].
  apply NoDup_cons; [|now apply IH].
  intros Hin. apply Hnot.
  apply in_map_iff in Hin. destruct Hin as (a & Ha & Hin).
  apply filter_In in Hin. rewrite <- Ha. apply in_map, Hin.
Qed.

(** *** fetchData called from the current render

    [handleStatusChange] and the handler that adds a room call the
    [fetchData] of the render they were made in, which reads the
    [tickets] the page shows. *)

(** The guard of the toasts. From a board whose raised bucket is empty a
    raised ticket is fetched and no toast is shown; and when one ticket
    leaves the raised bucket while another one enters it, the count is
    the same and no toast is shown for the one that entered. *)
Lemma no_toast_unless_the_count_grows :
  snd (fetchData initial_dashboard (Replied true (Some [coffee_ticket]))
                 (Replied true (Some [room101])))
    <> spec_new_ticket_toasts (tickets initial_dashboard) [coffee_ticket] /\
  snd (fetchData board_with_coffee
                 (Replied true (Some [towels_ticket; coffee_done]))
                 (Replied true (Some [room101])))
    <> spec_new_ticket_toasts (tickets board_with_coffee)
                              [towels_ticket; coffee_done].
Proof. vm_compute. split; discriminate. Qed.

(** A [fetchData] that reads the board [d] shows the new-ticket toasts
    only when the raised bucket of [d] is not empty and the fetched list
    has more raised tickets than it: then there is one toast for each
    fetched ticket that is raised and whose id is not in that bucket. In
    every other case it shows none. No id is announced twice when the
    fetched ids are distinct. *)
Lemma new_ticket_toasts_when_count_grows (d : Dashboard)
    (ticketsData : list Ticket) (rooms_ok : bool)
    (rooms_data : option (list Room)) :
  let toasts := snd (fetchData d (Replied true (Some ticketsData))
                                 (Replied rooms_ok rooms_data)) in
  let currentRaisedCount := List.length (b_raised (tickets d)) in
  let newRaisedCount := List.length (filter is_raised ticketsData) in
  ((0 < currentRaisedCount < newRaisedCount)%nat ->
   toasts = spec_new_ticket_toasts (tickets d) ticketsData) /\
  (~ (0 < currentRaisedCount < newRaisedCount)%nat -> toasts = []) /\
  (NoDup (map _id ticketsData) -> NoDup (toast_ticket_ids toasts)).
Proof.
  intros toasts cur new.
  assert (Ht : toasts = new_ticket_toasts (tickets d) ticketsData)
    by apply fetchData_toasts.
  rewrite Ht. unfold new_ticket_toasts. fold cur new.
  destruct (Nat.ltb_spec cur new) as [H1|H1],
           (Nat.ltb_spec 0 cur) as [H2|H2]; simpl.
  - split; [reflexivity|]. split; [intros Hn; exfalso; apply Hn; lia|].
    intros Hnd. rewrite toast_ticket_ids_new.
    now apply filter_keeps_ids_distinct.
  - split; [lia|]. split; [reflexivity|]. constructor.
  - split; [lia|]. split; [reflexivity|]. constructor.
  - split; [lia|]. split; [reflexivity|]. constructor.
Qed.

(** The board shows the coffee ticket; the towels ticket arrives. *)
Lemma new_ticket_toasts_when_count_grows_witness :
  snd (fetchData board_with_coffee
                 (Replied true (Some [coffee_ticket; towels_ticket]))
                 (Replied true (Some [room101])))
  = spec_new_ticket_toasts (tickets board_with_coffee)
                           [coffee_ticket; towels_ticket].
Proof.
  apply (proj1 (new_ticket_toasts_when_count_grows board_with_coffee
                  [coffee_ticket; towels_ticket] true (Some [room101]))).
  simpl. lia.
Defined.

Example toast_for_the_towels_ticket :
  spec_new_ticket_toasts (tickets board_with_coffee)
                         [coffee_ticket; towels_ticket]
  = [NewRequestToast towels_ticket].
Proof. vm_compute. reflexivity. Qed.

Lemma populated_id (rs : list Room) (t : Ticket) :
  _id (populated rs t) = _id t.
Proof. unfold populated. now destruct (room t). Qed.

(** The ids of a listing are distinct when those of the collection are:
    the list a refresh fetches satisfies the hypothesis of C7. *)
Lemma listing_ids_distinct (q : TicketQuery) (s s' : Server)
    (l : list Ticket) :
  NoDup (map _id (tickets_coll s)) ->
  getTickets q s = (Normal (mkResponse 200 (TicketsBody l)), s') ->
  NoDup (map _id l).
Proof.
  intros Hnd Hrun. unfold getTickets, try_catch in Hrun.
  unfold bind at 1 in Hrun. rewrite Ticket_find_run in Hrun.
  destruct (db_next_ok s).
  - unfold ret in Hrun. inversion Hrun; subst. clear Hrun.
    eapply Permutation_NoDup.
    + apply Permutation_map, sort_desc_perm.
    + rewrite map_map.
      rewrite (map_ext _ _id (fun t => populated_id (rooms_coll s) t)).
      now apply filter_keeps_ids_distinct.
  - unfold bind, effect, modify, ret in Hrun. simpl in Hrun.
    inversion Hrun.
Qed.

(** A ticket announced by a refresh is in the raised bucket the refresh
    leaves, so the next refresh from that state does not announce it
    again. *)
Lemma toast_not_repeated (d : Dashboard) (first second : list Ticket)
    (ok1 ok2 : bool) (rd1 rd2 : option (list Room)) (t u : Ticket) :
  let r1 := fetchData d (Replied true (Some first)) (Replied ok1 rd1) in
  let r2 := fetchData (fst r1) (Replied true (Some second))
                      (Replied ok2 rd2) in
  In (NewRequestToast t) (snd r1) ->
  In (NewRequestToast u) (snd r2) ->
  _id u <> _id t.
Proof.
  intros r1 r2 H1 H2 Heq.
  unfold r2 in H2. rewrite fetchData_toasts in H2.
  destruct (fetchData_tickets d first ok1 rd1) as [Ht _].
  fold r1 in Ht. rewrite Ht in H2.
  unfold r1 in H1. rewrite fetchData_toasts in H1.
  unfold new_ticket_toasts in H1, H2.
  destruct (_ && _)%bool in H1; [|contradiction].
  destruct (_ && _)%bool in H2; [|contradiction].
  apply in_map_iff in H1, H2.
  destruct H1 as (t' & E1 & H1), H2 as (u' & E2 & H2).
  inversion E1; inversion E2; subst t' u'.
  apply filter_In in H1, H2.
  destruct H1 as [Hin1 Hc1], H2 as [_ Hc2].
  apply andb_true_iff in Hc1, Hc2.
  destruct Hc1 as [Hr1 _], Hc2 as [_ Hn2].
  apply negb_true_iff in Hn2.
  assert (Hsome : some_id (b_raised (groupedTickets first)) u = true).
  { unfold some_id. apply existsb_exists. exists t. split.
    - change (b_raised (groupedTickets first))
        with (bucket (groupedTickets first) raised).
      rewrite groupedTickets_bucket. apply filter_In. split; [exact Hin1|].
      exact Hr1.
    - rewrite Heq. apply String.eqb_refl. }
  congruence.
Qed.

(** *** The pull: fetchData of the first render *)

(** What a pull sets does not depend on the render its [fetchData] was
    made in: the buckets and the stats are those of the fetched list. *)
Lemma pull_fetchData_tickets (d : Dashboard) (ticketsData : list Ticket)
    (rooms_ok : bool) (rooms_data : option (list Room)) :
  tickets (fst (pull_fetchData d (Replied true (Some ticketsData))
                               (Replied rooms_ok rooms_data)))
  = groupedTickets ticketsData.
Proof.
  unfold pull_fetchData. cbn [fst].
  exact (proj1 (fetchData_tickets d ticketsData rooms_ok rooms_data)).
Qed.

(** No pull ever shows a new-ticket toast, whatever the board shows and
    whatever is fetched: the closure counts the raised tickets of the
    first render, none, and the guard asks for a count above zero. *)
Lemma pull_fetchData_never_announces (d : Dashboard)
    (ticketsResponse : ApiResponse Ticket) (roomsResponse : ApiResponse Room)
    (t : Ticket) :
  ~ In (NewRequestToast t)
       (snd (pull_fetchData d ticketsResponse roomsResponse)).
Proof.
  unfold pull_fetchData, first_render. cbn [snd].
  destruct ticketsResponse as [|ok data], roomsResponse as [|rooms_ok rooms_data];
    simpl; try (intros [H|[]]; discriminate H).
  destruct ok, data as [ticketsData|]; simpl; try tauto.
  unfold new_ticket_toasts. simpl.
  rewrite andb_false_r. simpl. tauto.
Qed.

(** C5. The pull misses a new ticket. The board shows the coffee ticket
    as raised; the interval fires and the server lists a towels ticket
    and the coffee ticket, both raised, the newer first. The towels
    ticket is raised and its id is not in the raised bucket of the board,
    so a toast for it is due; it enters the raised bucket, and no toast
    is shown. The same [fetchData], when it is the one of the current
    render, shows the toast. *)
Theorem pull_misses_the_new_ticket :
  let fetched := [towels_ticket; coffee_ticket] in
  let pull := pull_fetchData board_with_coffee (Replied true (Some fetched))
                             (Replied true (Some [room101])) in
  spec_new_ticket_toasts (tickets board_with_coffee) fetched
  = [NewRequestToast towels_ticket] /\
  b_raised (tickets (fst pull)) = [towels_ticket; coffee_ticket] /\
  snd pull = [] /\
  snd (fetchData board_with_coffee (Replied true (Some fetched))
                 (Replied true (Some [room101])))
  = [NewRequestToast towels_ticket].
Proof. vm_compute. repeat split. Qed.

(** ** The staff board: getFilteredTickets *)

Example greetings_match :
  map (fun s => greeting_test (Js.trim (Js.toLowerCase s)))
      ["hi"; "Hello!"; "  Good Morning.  "; "hey  !"; "how are you";
       "hi there"; "I need coffee"; "hi!!"; ""]
  = [true; true; true; true; true; false; false; false; false].
Proof. vm_compute. reflexivity. Qed.

(** *** The greeting pattern *)

Lemma match_literal_spec (lit s r : string) :
  match_literal lit s = Some r <->
  exists s1, s = s1 ++ r /\ Js.toUpperCase s1 = Js.toUpperCase lit.
Proof.
  revert s. induction lit as [|a lit IH]; intros s; simpl.
  - split.
    + intros H. inversion H; subst. exists "". auto.
    + intros (s1 & -> & Hu). destruct s1; [reflexivity|discriminate].
  - destruct s as [|b s'].
    + split; [discriminate|].
      intros (s1 & Hs & Hu). destruct s1; discriminate.
    + destruct (Ascii.eqb (Js.upper_char a) (Js.upper_char b)) eqn:E.
      * apply Ascii.eqb_eq in E. rewrite IH. split.
        -- intros (s1 & -> & Hu). exists (String b s1). simpl.
           split; [reflexivity|]. unfold Js.toUpperCase in *. simpl.
           now rewrite E, Hu.
        -- intros (s1 & Hs & Hu). destruct s1 as [|b' s1]; [discriminate|].
           simpl in Hs. inversion Hs; subst. exists s1.
           split; [reflexivity|]. unfold Js.toUpperCase in *. simpl in Hu.
           now inversion Hu.
      * apply Ascii.eqb_neq in E. split; [discriminate|].
        intros (s1 & Hs & Hu). destruct s1 as [|b' s1]; [discriminate|].
        simpl in Hs. inversion Hs; subst. exfalso. apply E.
        unfold Js.toUpperCase in Hu. simpl in Hu. now inversion Hu.
Qed.

Lemma trimStart_split (s : string) :
  exists w, all_space w = true /\ s = w ++ Js.trimStart s.
Proof.
  induction s as [|c r [w [Hw Hs]]]; simpl.
  - exists "". auto.
  - destruct (Js.is_space c) eqn:E.
    + exists (String c w). simpl. rewrite E, Hw. split; [reflexivity|].
      now rewrite <- Hs.
    + exists "". auto.
Qed.

Lemma trimStart_spaces (w p : string) :
  all_space w = true -> Js.trimStart (w ++ p) = Js.trimStart p.
Proof.
  induction w as [|c r IH]; simpl; intros H; [reflexivity|].
  apply andb_true_iff in H. destruct H as [Hc Hr].
  rewrite Hc. now apply IH.
Qed.

Lemma match_tail_spec (r : string) :
  match_tail r = true <->
  exists w p, all_space w = true /\ (p = "" \/ p = "!" \/ p = ".") /\
              r = w ++ p.
Proof.
  unfold match_tail. rewrite !orb_true_iff, !String.eqb_eq. split.
  - intros H. destruct (trimStart_split r) as (w & Hw & Hr).
    exists w, (Js.trimStart r). tauto.
  - intros (w & p & Hw & Hp & ->).
    rewrite (trimStart_spaces w p Hw).
    destruct Hp as [-> | [-> | ->]]; simpl; tauto.
Qed.

(** The matcher accepts the language of the pattern. *)
Lemma greeting_test_spec (s : string) :
  greeting_test s = true <-> greeting_language s.
Proof.
  unfold greeting_test, greeting_language. rewrite existsb_exists. split.
  - intros (g & Hg & Hm).
    destruct (match_literal g s) as [r|] eqn:Hl; [|discriminate].
    apply match_literal_spec in Hl. destruct Hl as (s1 & -> & Hu).
    apply match_tail_spec in Hm. destruct Hm as (w & p & Hw & Hp & ->).
    exists g, s1, w, p. auto.
  - intros (g & s1 & w & p & Hg & Hu & Hw & Hp & ->).
    exists g. split; [exact Hg|].
    assert (Hl : match_literal g (s1 ++ w ++ p) = Some (w ++ p)).
    { apply match_literal_spec. exists s1. auto. }
    rewrite Hl. apply match_tail_spec. exists w, p. auto.
Qed.

(** What [getFilteredTickets] keeps of a bucket. *)
Lemma getFilteredTickets_In (d : Dashboard) (s : Status) (t : Ticket) :
  In t (getFilteredTickets d s) <->
  In t (bucket (tickets d) s) /\
  isGreeting t = false /\
  (Js.truthy (searchQuery d) = true -> matches_search (searchQuery d) t = true)
  /\
  (forall r, filterRoom d = Some r -> Js.truthy r = true ->
             roomNumber t = r) /\
  existsb (String.eqb (getTicketCategory t)) (selectedCategories d) = true.
Proof.
  unfold getFilteredTickets.
  rewrite filter_In.
  assert (Hroom :
    forall l,
      In t (match filterRoom d with
            | Some r => if Js.truthy r
                        then filter (fun t => String.eqb (roomNumber t) r) l
                        else l
            | None => l
            end)
      <-> In t l /\ (forall r, filterRoom d = Some r -> Js.truthy r = true ->
                               roomNumber t = r)).
  { intros l. destruct (filterRoom d) as [r|].
    - destruct (Js.truthy r) eqn:Hr.
      + rewrite filter_In, String.eqb_eq. split.
        * intros [H1 H2]. split; [exact H1|].
          intros r' Hr' _. now inversion Hr'; subst.
        * intros [H1 H2]. split; [exact H1|]. now apply H2.
      + split; [intros H; split; [exact H|]|tauto].
        intros r' Hr' Ht. inversion Hr'; subst. congruence.
    - split; [intros H; split; [exact H|]|tauto]. discriminate. }
  rewrite Hroom.
  assert (Hsearch :
    forall l,
      In t (if Js.truthy (searchQuery d)
            then filter (matches_search (searchQuery d)) l else l)
      <-> In t l /\ (Js.truthy (searchQuery d) = true ->
                     matches_search (searchQuery d) t = true)).
  { intros l. destruct (Js.truthy (searchQuery d)).
    - rewrite filter_In. tauto.
    - split; [intros H; split; [exact H|discriminate]|tauto]. }
  rewrite Hsearch, filter_In, negb_true_iff. tauto.
Qed.

(** C10. Whatever the bucket, the search text, the room filter and the
    selected categories are, [getFilteredTickets] leaves out every ticket
    whose first message, in lower case and trimmed, matches the greeting
    pattern: no board column renders it, even when it is in the bucket. *)
Theorem greeting_tickets_never_rendered (d : Dashboard) (s : Status)
    (t : Ticket) :
  isGreeting t = true -> ~ In t (getFilteredTickets d s).
Proof.
  intros Hg Hin. apply getFilteredTickets_In in Hin.
  destruct Hin as (_ & Hno & _). congruence.
Qed.

Lemma greeting_tickets_never_rendered_witness :
  In greeting_ticket (bucket (tickets board_with_greeting) raised) /\
  ~ In greeting_ticket (getFilteredTickets board_with_greeting raised).
Proof.
  split; [left; reflexivity|].
  apply (greeting_tickets_never_rendered board_with_greeting raised
           greeting_ticket).
  vm_compute. reflexivity.
Defined.

(** The same with the language of the pattern spelled out. *)
Lemma greeting_language_never_rendered (d : Dashboard) (s : Status)
    (t : Ticket) :
  greeting_language (Js.trim (firstMessage t)) ->
  ~ In t (getFilteredTickets d s).
Proof.
  intros Hl Hin. apply getFilteredTickets_In in Hin.
  destruct Hin as (_ & Hno & _).
  apply greeting_test_spec in Hl. unfold isGreeting in Hno. congruence.
Qed.

Lemma greeting_tickets_not_rendered (d : Dashboard) (t : Ticket) :
  isGreeting t = true -> ~ rendered d t.
Proof.
  intros Hg [s Hin]. apply getFilteredTickets_In in Hin.
  destruct Hin as (_ & Hno & _). congruence.
Qed.

(** The other ticket of that board is rendered. *)
Example coffee_ticket_rendered :
  getFilteredTickets board_with_greeting raised = [coffee_ticket].
Proof. vm_compute. reflexivity. Qed.

(** * More of the controller *)

(** ** chatWithAI *)

Lemma new_Date_run (s : Server) : new_Date s = (Normal (clock s), s).
Proof. reflexivity. Qed.

(** What [chatWithAI] does with a message and a guest: it classifies and
    answers 200 with the fields of the classification. *)
Lemma chatWithAI_run (req : ChatRequest) (s s1 : Server) (message : string)
    (g : ChatGuestInfo) (c : Classification) :
  c_message req = Some message ->
  Js.truthy message = true ->
  c_guestInfo req = Some g ->
  classifyWithExternalAPI message (cg_roomNumber g) s = (Normal c, s1) ->
  chatWithAI req s
  = (Normal (mkChatResponse 200
       (ChatReply (aiResponse c) (should_create_ticket c) (categories c)
                  (confidence c) (reasoning c) (suggested_priority c)
                  (estimated_completion_time c) (clock s1))), s1).
Proof.
  intros Hm Ht Hg Hcl. unfold chatWithAI. rewrite Hm, Hg, Ht. cbn [negb].
  apply try_catch_normal.
  rewrite (bind_normal _ _ _ _ _ Hcl).
  rewrite (bind_normal _ _ _ _ _ (new_Date_run s1)). reflexivity.
Qed.

(** A chat request without a message (absent or empty) or without
    guest info is answered 400 without asking the classifier: the server
    state, its trace included, is unchanged. *)
Theorem chatWithAI_missing_fields (req : ChatRequest) (s : Server) :
  Js.truthy_opt (c_message req) = false \/ c_guestInfo req = None ->
  chatWithAI req s
  = (Normal (mkChatResponse 400
       (ChatFailure "Message and guest info are required")), s).
Proof.
  intros H. unfold chatWithAI, try_catch.
  destruct (c_message req) as [m|], (c_guestInfo req) as [g|];
    simpl in *; try reflexivity.
  destruct H as [H|H]; [|discriminate]. now rewrite H.
Qed.

Lemma chatWithAI_missing_fields_witness :
  chatWithAI (mkChatRequest (Some "") (Some (mkChatGuestInfo None (Some "101"))))
             (sample_server (Normal coffee_and_towels) [])
  = (Normal (mkChatResponse 400
       (ChatFailure "Message and guest info are required")),
     sample_server (Normal coffee_and_towels) []).
Proof.
  apply (chatWithAI_missing_fields
           (mkChatRequest (Some "") (Some (mkChatGuestInfo None (Some "101"))))
           (sample_server (Normal coffee_and_towels) [])).
  left. reflexivity.
Defined.

(** X1. A chat request with a message and guest info, to which the
    classifier answers with a classification object [c], is answered 200:
    the answer carries the sentence and the fields of [c], the classifier
    was asked once, and nothing else has happened on the server; no room
    was looked up, no ticket created and nothing emitted, also when [c]
    asks for tickets. *)
Theorem chatWithAI_answers_the_classification (req : ChatRequest)
    (s : Server) (message rn : string) (g : ChatGuestInfo)
    (c : Classification) :
  c_message req = Some message ->
  Js.truthy message = true ->
  c_guestInfo req = Some g ->
  cg_roomNumber g = Some rn ->
  classifier s message rn = Normal c ->
  chatWithAI req s
  = (Normal (mkChatResponse 200
       (ChatReply (aiResponse c) (should_create_ticket c) (categories c)
                  (confidence c) (reasoning c) (suggested_priority c)
                  (estimated_completion_time c) (clock s))),
     set_trace s (trace s ++ [ConsoleLog; AxiosPost message rn; ConsoleLog])).
Proof.
  intros Hm Ht Hg Hrn Hcl.
  pose proof (classify_run_normal message rn s c Hcl) as Hrun.
  rewrite <- Hrn in Hrun.
  exact (chatWithAI_run req s _ message g c Hm Ht Hg Hrun).
Qed.

Lemma chatWithAI_answers_the_classification_witness :
  chatWithAI (mkChatRequest (Some "I need coffee and clean towels")
                (Some (mkChatGuestInfo (Some "Guest-101") (Some "101"))))
             (sample_server (Normal coffee_and_towels) [])
  = (Normal (mkChatResponse 200
       (ChatReply (aiResponse coffee_and_towels)
                  (should_create_ticket coffee_and_towels)
                  (categories coffee_and_towels)
                  (confidence coffee_and_towels)
                  (reasoning coffee_and_towels)
                  (suggested_priority coffee_and_towels)
                  (estimated_completion_time coffee_and_towels)
                  (clock (sample_server (Normal coffee_and_towels) [])))),
     set_trace (sample_server (Normal coffee_and_towels) [])
               (trace (sample_server (Normal coffee_and_towels) [])
                  ++ [ConsoleLog;
                      AxiosPost "I need coffee and clean towels" "101";
                      ConsoleLog])).
Proof.
  apply (chatWithAI_answers_the_classification
           (mkChatRequest (Some "I need coffee and clean towels")
              (Some (mkChatGuestInfo (Some "Guest-101") (Some "101"))))
           (sample_server (Normal coffee_and_towels) [])
           "I need coffee and clean towels" "101"
           (mkChatGuestInfo (Some "Guest-101") (Some "101"))
           coffee_and_towels);
    reflexivity.
Defined.

(** X2. While the classifier cannot be reached, or when the guest info
    has no room number, a request for service is answered like a
    greeting: 200 with "Hello! How can I assist you today?" and
    [shouldCreateTicket = false]. *)
Theorem chatWithAI_classifier_down (req : ChatRequest) (s : Server)
    (message : string) (g : ChatGuestInfo) :
  c_message req = Some message ->
  Js.truthy message = true ->
  c_guestInfo req = Some g ->
  (forall rn, cg_roomNumber g = Some rn ->
              exists e, classifier s message rn = Throw e) ->
  fst (chatWithAI req s)
  = Normal (mkChatResponse 200
      (ChatReply "Hello! How can I assist you today?" false (Some []) 0.0
                 "Classification service unavailable" "low" None (clock s))).
Proof.
  intros Hm Ht Hg Hdown.
  assert (Hcl : exists s1,
             classifyWithExternalAPI message (cg_roomNumber g) s
             = (Normal fallback, s1) /\ clock s1 = clock s).
  { destruct (cg_roomNumber g) as [rn|] eqn:Hrn.
    - destruct (Hdown rn eq_refl) as [e He].
      rewrite (classify_run_throw message rn s e He). eauto.
    - eexists. split; reflexivity. }
  destruct Hcl as (s1 & Hcl & Hclock).
  rewrite (chatWithAI_run req s s1 message g fallback Hm Ht Hg Hcl).
  simpl. now rewrite Hclock.
Qed.

Lemma chatWithAI_classifier_down_witness :
  fst (chatWithAI (mkChatRequest (Some "I need coffee")
                     (Some (mkChatGuestInfo (Some "Guest-101") (Some "101"))))
                  (sample_server (Throw AxiosError) []))
  = Normal (mkChatResponse 200
      (ChatReply "Hello! How can I assist you today?" false (Some []) 0.0
                 "Classification service unavailable" "low" None
                 (clock (sample_server (Throw AxiosError) [])))).
Proof.
  apply (chatWithAI_classifier_down
           (mkChatRequest (Some "I need coffee")
              (Some (mkChatGuestInfo (Some "Guest-101") (Some "101"))))
           (sample_server (Throw AxiosError) [])
           "I need coffee" (mkChatGuestInfo (Some "Guest-101") (Some "101")));
    try reflexivity.
  intros rn _. exists AxiosError. reflexivity.
Defined.

(** The sentences of the three cases. *)
Example aiResponse_sentences :
  (aiResponse coffee_and_towels, aiResponse good_morning,
   aiResponse (mkClassification true (Some []) 0.5 "" "low" None))
  = ("I'll handle your service_fb and housekeeping request immediately!",
     "Hello! How can I assist you today?",
     "I'll help you with that right away!").
Proof. vm_compute. reflexivity. Qed.

(** ** More of createGuestTicket *)

(** A guest request without a room number, without guest info or
    without an initial message (absent or empty) is answered 400 before
    anything else: the classifier is not asked and the server state is
    unchanged. *)
Theorem createGuestTicket_missing_fields (req : GuestTicketBody)
    (s : Server) :
  Js.truthy_opt (b_roomNumber req) = false \/
  b_guestInfo req = None \/
  Js.truthy_opt (b_initialMessage req) = false ->
  createGuestTicket req s
  = (Normal (mkResponse 400 (FailureBody
       "Room number, guest info, and initial message are required")), s).
Proof.
  intros H.
  assert (Hreq : required_fields req = None).
  { unfold required_fields.
    destruct (b_roomNumber req) as [rn|], (b_guestInfo req) as [g|],
             (b_initialMessage req) as [im|]; simpl in *; try reflexivity.
    destruct H as [H|[H|H]]; try discriminate; rewrite H; simpl;
      try reflexivity.
    now destruct (Js.truthy rn). }
  unfold createGuestTicket. now rewrite Hreq.
Qed.

Lemma createGuestTicket_missing_fields_witness :
  createGuestTicket (mkGuestTicketBody (Some "101") (Some test_guest) (Some ""))
                    (sample_server (Normal coffee_and_towels) [])
  = (Normal (mkResponse 400 (FailureBody
       "Room number, guest info, and initial message are required")),
     sample_server (Normal coffee_and_towels) []).
Proof.
  apply (createGuestTicket_missing_fields
           (mkGuestTicketBody (Some "101") (Some test_guest) (Some ""))
           (sample_server (Normal coffee_and_towels) [])).
  right. right. reflexivity.
Defined.

Lemma ticket_of_category_populated (rn : string) (gi : ReqGuestInfo)
    (c : Classification) (now : Z) (ci : CategoryInfo) (rs : list Room)
    (t : Ticket) :
  ticket_of_category rn gi c now ci t ->
  ticket_of_category rn gi c now ci (populated rs t).
Proof. unfold populated. now destruct (room t). Qed.

(** One turn of the loop, with what it stores. *)
Lemma create_for_category_stores (rn : string) (gi : ReqGuestInfo)
    (room_ : Room) (c : Classification) (acc : list Ticket)
    (ci : CategoryInfo) (s : Server) :
  exists created new s',
    create_for_category rn gi room_ c acc ci s
      = (Normal (acc ++ created)%list, s') /\
    tickets_coll s' = (tickets_coll s ++ new)%list /\
    rooms_coll s' = rooms_coll s /\
    clock s' = clock s /\
    Forall (ticket_of_category rn gi c (clock s) ci) new /\
    Forall (fun t => exists t0, In t0 new /\
                                t = populated (rooms_coll s) t0) created.
Proof.
  unfold create_for_category, try_catch.
  unfold bind at 1. unfold new_Date at 1, gets at 1.
  unfold bind at 1. rewrite Ticket_create_run.
  set (t := mkTicket _ _ _ _ _ _ _ _ _ _ _ _ _ _).
  assert (Ht : ticket_of_category rn gi c (clock s) ci t)
    by (repeat split).
  destruct (db_next_ok s) eqn:Hc.
  - unfold bind at 1. rewrite populate_run.
    set (s1 := insert_ticket _ t).
    destruct (db_next_ok s1) eqn:Hp.
    + unfold bind at 1. rewrite io_emit_run. unfold ret.
      exists [populated (rooms_coll s) t], [t]. eexists.
      split; [reflexivity|].
      subst s1. simpl. destruct (io s); simpl.
      all: repeat split; try (constructor; [|constructor]); auto.
      all: exists t; split; [now left | reflexivity].
    + unfold bind at 1, effect, modify, ret. simpl.
      exists [], [t]. eexists. rewrite app_nil_r.
      split; [reflexivity|]. simpl.
      repeat split; try (constructor; [|constructor]); auto.
  - unfold bind at 1, effect, modify, ret. simpl.
    exists [], []. eexists. rewrite !app_nil_r.
    split; [reflexivity|]. simpl. repeat split; constructor.
Qed.

Lemma for_of_stores (rn : string) (gi : ReqGuestInfo) (room_ : Room)
    (c : Classification) (cs : list CategoryInfo) :
  forall (acc : list Ticket) (s : Server),
  exists created new s',
    for_of cs (create_for_category rn gi room_ c) acc s
      = (Normal (acc ++ created)%list, s') /\
    tickets_coll s' = (tickets_coll s ++ new)%list /\
    rooms_coll s' = rooms_coll s /\
    clock s' = clock s /\
    Forall (fun t => exists ci, In ci cs /\
                                ticket_of_category rn gi c (clock s) ci t)
           new /\
    Forall (fun t => exists t0, In t0 new /\
                                t = populated (rooms_coll s) t0) created.
Proof.
  induction cs as [|ci cs IH]; intros acc s.
  - exists [], [], s. rewrite !app_nil_r. repeat split; constructor.
  - destruct (create_for_category_stores rn gi room_ c acc ci s)
      as (c1 & n1 & s1 & Hrun1 & Ht1 & Hr1 & Hc1 & Hn1 & Hp1).
    destruct (IH (acc ++ c1)%list s1)
      as (c2 & n2 & s2 & Hrun2 & Ht2 & Hr2 & Hc2 & Hn2 & Hp2).
    exists (c1 ++ c2)%list, (n1 ++ n2)%list, s2.
    split; [|repeat split].
    + simpl. rewrite (bind_normal _ _ _ _ _ Hrun1), Hrun2.
      now rewrite app_assoc.
    + now rewrite Ht2, Ht1, app_assoc.
    + congruence.
    + congruence.
    + apply Forall_app. split.
      * eapply Forall_impl; [|exact Hn1]. intros t Ht.
        exists ci. split; [now left | exact Ht].
      * rewrite Hc1 in Hn2. eapply Forall_impl; [|exact Hn2].
        intros t (ci' & Hin & Ht). exists ci'. split; [now right | exact Ht].
    + apply Forall_app. split.
      * eapply Forall_impl; [|exact Hp1]. intros t (t0 & Hin & ->).
        exists t0. split; [apply in_or_app; now left | reflexivity].
      * rewrite Hr1 in Hp2. eapply Forall_impl; [|exact Hp2].
        intros t (t0 & Hin & ->).
        exists t0. split; [apply in_or_app; now right | reflexivity].
Qed.

(** X3. The tickets of a guest request. Each ticket [createGuestTicket]
    stores, and each ticket of its 201 answer, is the ticket of one of
    the classified categories: it is raised, for the room of the request,
    in that category, with the subject "CATEGORY - Room n", one system
    message that holds the message of the category, the urgency of the
    category as priority ("medium" when there is none), the guest of the
    request with empty strings for a missing e-mail or phone, and the
    confidence and estimated completion of the classification. *)
Theorem created_tickets_fields (req : GuestTicketBody) (s : Server)
    (rn im : string) (gi : ReqGuestInfo) (c : Classification)
    (cs : list CategoryInfo) (room_ : Room) :
  required_fields req = Some (rn, gi, im) ->
  classifier s im rn = Normal c ->
  should_create_ticket c = true ->
  categories c = Some cs ->
  db_next_ok s = true ->
  find (fun r => String.eqb (number r) rn) (rooms_coll s) = Some room_ ->
  exists r s' new,
    createGuestTicket req s = (Normal r, s') /\
    code r = 201%nat /\
    tickets_coll s' = (tickets_coll s ++ new)%list /\
    (forall t, In t new \/ In t (body_tickets (body r)) ->
               exists ci, In ci cs /\
                          ticket_of_category rn gi c (clock s) ci t).
Proof.
  intros Hreq Hcl Hyes Hcs Hdb Hroom.
  destruct (for_of_stores rn gi room_ c cs [] (before_loop s im rn))
    as (created & new & s' & Hloop & Ht & Hr & Hc & Hn & Hp).
  simpl in Ht, Hr, Hc, Hn, Hp.
  eexists. exists s', new. split.
  - exact (createGuestTicket_run req s s' rn im gi c cs room_ created
             Hreq Hcl Hyes Hcs Hdb Hroom Hloop).
  - split; [reflexivity|]. split; [exact Ht|].
    simpl. rewrite data_tickets_created_data.
    rewrite Forall_forall in Hn, Hp.
    intros t [Hin|Hin]; [now apply Hn|].
    destruct (Hp t Hin) as (t0 & Hin0 & ->).
    destruct (Hn t0 Hin0) as (ci & Hci & Hshape).
    exists ci. split; [exact Hci|].
    now apply ticket_of_category_populated.
Qed.

Lemma created_tickets_fields_witness :
  exists r s' new,
    createGuestTicket (guest_request "101" "I need coffee and clean towels")
                      first_create_fails = (Normal r, s') /\
    code r = 201%nat /\
    tickets_coll s' = (tickets_coll first_create_fails ++ new)%list /\
    (forall t, In t new \/ In t (body_tickets (body r)) ->
               exists ci,
                 In ci [mkCategoryInfo "service_fb" "coffee" (Some "high");
                        mkCategoryInfo "housekeeping" "clean towels" None] /\
                 ticket_of_category "101" test_guest coffee_and_towels
                                    (clock first_create_fails) ci t).
Proof.
  apply (created_tickets_fields
           (guest_request "101" "I need coffee and clean towels")
           first_create_fails "101" "I need coffee and clean towels"
           test_guest coffee_and_towels
           [mkCategoryInfo "service_fb" "coffee" (Some "high");
            mkCategoryInfo "housekeeping" "clean towels" None]
           room101);
    reflexivity.
Defined.

Lemma for_of_appends (rn : string) (gi : ReqGuestInfo) (room_ : Room)
    (c : Classification) (cs : list CategoryInfo) (s : Server) :
  exists created new l s',
    for_of cs (create_for_category rn gi room_ c) [] s = (Normal created, s') /\
    only_appends s s' new l.
Proof.
  destruct (for_of_outcome rn gi room_ c cs [] s)
    as (created & s' & Hrun & new & l & Ht & Htr & Hr & _).
  exists created, new, l, s'. split; [exact Hrun|]. repeat split; assumption.
Qed.

(** X4. A guest request with its three fields, to which the classifier
    answers with a classification object [c], is answered whatever the
    store does, for every schedule of failing round trips: no exception
    leaves the handler; the answer is 200 when [c] declines the ticket
    and 201, 404 or 500 when [c] asks for one; the rooms and the tickets
    already stored are left as they are; and tickets are added to the
    collection, and events emitted, only by a request that is answered
    201. *)
Theorem createGuestTicket_answers_under_faults (req : GuestTicketBody)
    (s : Server) (rn im : string) (gi : ReqGuestInfo) (c : Classification) :
  required_fields req = Some (rn, gi, im) ->
  classifier s im rn = Normal c ->
  exists r s' new l,
    createGuestTicket req s = (Normal r, s') /\
    only_appends s s' new l /\
    (if should_create_ticket c
     then In (code r) [201; 404; 500]%nat
     else code r = 200%nat) /\
    (code r <> 201%nat -> new = [] /\ emitted l = []).
Proof.
  intros Hreq Hc. unfold createGuestTicket. rewrite Hreq.
  pose proof (classify_run_normal im rn s c Hc) as Hcl.
  remember [ConsoleLog; AxiosPost im rn; ConsoleLog] as l0 eqn:El0.
  assert (He0 : emitted l0 = []) by (rewrite El0; reflexivity).
  clear El0.
  set (s1 := set_trace s (trace s ++ l0)) in Hcl.
  unfold try_catch. rewrite (bind_normal _ _ _ _ _ Hcl).
  destruct (should_create_ticket c) eqn:Hs; cbn [negb].
  2:{ eexists. exists s1, [], l0. unfold only_appends, ret.
      rewrite !app_nil_r. simpl. intuition. }
  unfold bind at 1. rewrite Room_findOne_run.
  set (s2 := set_db_faults _ _).
  assert (H2 : only_appends s s2 [] (l0 ++ [RoomFindOne rn])).
  { unfold only_appends. subst s2 s1. simpl.
    now rewrite app_nil_r, app_assoc. }
  assert (He2 : emitted (l0 ++ [RoomFindOne rn]) = []).
  { rewrite emitted_app, He0. reflexivity. }
  destruct (db_next_ok s1).
  2:{ unfold effect, modify, bind, ret. simpl.
      eexists. eexists. exists [], (l0 ++ [RoomFindOne rn;
                                           ConsoleError (DbError OpFindOne)])%list.
      split; [reflexivity|]. unfold only_appends. simpl.
      rewrite !app_nil_r, emitted_app, He0, <- !app_assoc. simpl.
      intuition. }
  destruct (find _ (rooms_coll s1)) as [room_|].
  2:{ unfold ret. eexists. exists s2, [], (l0 ++ [RoomFindOne rn])%list.
      simpl. intuition. }
  destruct H2 as (Ht2 & Hr2 & Htr2).
  destruct (categories c) as [[|ci cs]|].
  - unfold bind, ret. eexists. exists s2, [], (l0 ++ [RoomFindOne rn])%list.
    unfold only_appends. simpl. intuition.
  - destruct (for_of_appends rn gi room_ c (ci :: cs) s2)
      as (created & new & l & s' & Hloop & Ht & Hr & Htr).
    rewrite (bind_normal _ _ _ _ _ Hloop). unfold ret.
    eexists. exists s', new, ((l0 ++ [RoomFindOne rn]) ++ l)%list.
    split; [reflexivity|]. unfold only_appends. simpl.
    rewrite Ht, Hr, Htr, Ht2, Hr2, Htr2, app_nil_r, <- !app_assoc.
    intuition.
  - unfold bind, ret, throw, effect, modify. simpl.
    eexists. eexists. exists [], (l0 ++ [RoomFindOne rn;
                                         ConsoleError TypeError])%list.
    split; [reflexivity|]. unfold only_appends. simpl.
    change (tickets_coll s2) with (tickets_coll s).
    change (rooms_coll s2) with (rooms_coll s).
    change (trace s2) with ((trace s ++ l0) ++ [RoomFindOne rn])%list.
    rewrite !app_nil_r, emitted_app, He0, <- !app_assoc. simpl.
    intuition.
Qed.

(** The room is found, the first [Ticket.create] fails, the second
    ticket goes through. *)
Lemma createGuestTicket_answers_under_faults_witness :
  exists r s' new l,
    createGuestTicket (guest_request "101" "I need coffee and clean towels")
                      first_create_fails
    = (Normal r, s') /\
    only_appends first_create_fails s' new l /\
    (if should_create_ticket coffee_and_towels
     then In (code r) [201; 404; 500]%nat
     else code r = 200%nat) /\
    (code r <> 201%nat -> new = [] /\ emitted l = []).
Proof.
  apply (createGuestTicket_answers_under_faults
           (guest_request "101" "I need coffee and clean towels")
           first_create_fails "101" "I need coffee and clean towels"
           test_guest coffee_and_towels);
    reflexivity.
Defined.

(** X5. A classification that asks for a ticket and lists no category,
    for a room that exists: the answer is 201 with [ticketCount = 0], no
    ticket in [data] and no category; nothing is stored, nothing is
    emitted and no [Ticket.create] is attempted. *)
Theorem no_category_no_ticket (req : GuestTicketBody) (s : Server)
    (rn im : string) (gi : ReqGuestInfo) (c : Classification)
    (room_ : Room) :
  required_fields req = Some (rn, gi, im) ->
  classifier s im rn = Normal c ->
  should_create_ticket c = true ->
  categories c = Some [] ->
  db_next_ok s = true ->
  find (fun r => String.eqb (number r) rn) (rooms_coll s) = Some room_ ->
  createGuestTicket req s
  = (Normal (mkResponse 201
       (CreatedBody "Service request created successfully" (ManyTickets [])
                    0 [] true)),
     before_loop s im rn) /\
  tickets_coll (before_loop s im rn) = tickets_coll s /\
  create_attempts (trace (before_loop s im rn)) = create_attempts (trace s) /\
  emitted (trace (before_loop s im rn)) = emitted (trace s).
Proof.
  intros Hreq Hcl Hyes Hcs Hdb Hroom. split.
  - apply (createGuestTicket_run req s _ rn im gi c [] room_ []
             Hreq Hcl Hyes Hcs Hdb Hroom).
    reflexivity.
  - simpl. rewrite <- !app_assoc, create_attempts_app, emitted_app. simpl.
    now rewrite !app_nil_r.
Qed.

Lemma no_category_no_ticket_witness :
  createGuestTicket (guest_request "101" "Thanks")
    (sample_server
       (Normal (mkClassification true (Some []) 0.5 "" "low" None)) [])
  = (Normal (mkResponse 201
       (CreatedBody "Service request created successfully" (ManyTickets [])
                    0 [] true)),
     before_loop
       (sample_server
          (Normal (mkClassification true (Some []) 0.5 "" "low" None)) [])
       "Thanks" "101") /\
  tickets_coll
    (before_loop
       (sample_server
          (Normal (mkClassification true (Some []) 0.5 "" "low" None)) [])
       "Thanks" "101")
  = tickets_coll
      (sample_server
         (Normal (mkClassification true (Some []) 0.5 "" "low" None)) []) /\
  create_attempts
    (trace (before_loop
              (sample_server
                 (Normal (mkClassification true (Some []) 0.5 "" "low" None))
                 [])
              "Thanks" "101"))
  = create_attempts
      (trace (sample_server
                (Normal (mkClassification true (Some []) 0.5 "" "low" None))
                [])) /\
  emitted
    (trace (before_loop
              (sample_server
                 (Normal (mkClassification true (Some []) 0.5 "" "low" None))
                 [])
              "Thanks" "101"))
  = emitted
      (trace (sample_server
                (Normal (mkClassification true (Some []) 0.5 "" "low" None))
                [])).
Proof.
  apply (no_category_no_ticket (guest_request "101" "Thanks")
           (sample_server
              (Normal (mkClassification true (Some []) 0.5 "" "low" None)) [])
           "101" "Thanks" test_guest
           (mkClassification true (Some []) 0.5 "" "low" None) room101);
    reflexivity.
Defined.

(** X6. A classification that asks for a ticket and has no list of
    categories at all, for a room that exists: reading the categories for
    the answer throws, the request is answered 500 and nothing was
    stored. *)
Theorem missing_categories_fail (req : GuestTicketBody) (s : Server)
    (rn im : string) (gi : ReqGuestInfo) (c : Classification)
    (room_ : Room) :
  required_fields req = Some (rn, gi, im) ->
  classifier s im rn = Normal c ->
  should_create_ticket c = true ->
  categories c = None ->
  db_next_ok s = true ->
  find (fun r => String.eqb (number r) rn) (rooms_coll s) = Some room_ ->
  exists s',
    createGuestTicket req s
    = (Normal (mkResponse 500
         (FailureBody "Failed to create service request")), s') /\
    tickets_coll s' = tickets_coll s /\
    logged_errors (trace s') = (logged_errors (trace s) ++ [TypeError])%list.
Proof.
  intros Hreq Hcl Hyes Hcs Hdb Hroom.
  pose proof (classify_run_normal im rn s c Hcl) as Hrun.
  set (s1 := set_trace s _) in Hrun.
  pose proof (Room_findOne_run rn s1) as Hfind. simpl in Hfind.
  change (db_next_ok s1) with (db_next_ok s) in Hfind.
  rewrite Hdb, Hroom in Hfind.
  unfold createGuestTicket. rewrite Hreq. unfold try_catch.
  rewrite (bind_normal _ _ _ _ _ Hrun), Hyes. cbn [negb].
  rewrite (bind_normal _ _ _ _ _ Hfind), Hcs.
  unfold bind, ret, throw, effect, modify. simpl.
  eexists. split; [reflexivity|]. simpl. split; [reflexivity|].
  rewrite <- !app_assoc, logged_errors_app. reflexivity.
Qed.

Lemma missing_categories_fail_witness :
  exists s',
    createGuestTicket (guest_request "101" "Thanks")
      (sample_server
         (Normal (mkClassification true None 0.5 "" "low" None)) [])
    = (Normal (mkResponse 500
         (FailureBody "Failed to create service request")), s') /\
    tickets_coll s'
    = tickets_coll
        (sample_server
           (Normal (mkClassification true None 0.5 "" "low" None)) []) /\
    logged_errors (trace s')
    = (logged_errors
         (trace (sample_server
                   (Normal (mkClassification true None 0.5 "" "low" None))
                   []))
       ++ [TypeError])%list.
Proof.
  apply (missing_categories_fail (guest_request "101" "Thanks")
           (sample_server
              (Normal (mkClassification true None 0.5 "" "low" None)) [])
           "101" "Thanks" test_guest
           (mkClassification true None 0.5 "" "low" None) room101);
    reflexivity.
Defined.

(** ** createGuestTicket, then getTickets *)

(** X7. What a guest request created is what a listing returns. After a
    request answered 201, a listing of the raised tickets (or of all
    tickets) without category filter, whose read of the store succeeds,
    contains every ticket of the answer, as the answer shows it. *)
Theorem created_tickets_are_listed (req : GuestTicketBody) (s : Server)
    (rn im : string) (gi : ReqGuestInfo) (c : Classification)
    (cs : list CategoryInfo) (room_ : Room) (q : TicketQuery) :
  required_fields req = Some (rn, gi, im) ->
  classifier s im rn = Normal c ->
  should_create_ticket c = true ->
  categories c = Some cs ->
  db_next_ok s = true ->
  find (fun r => String.eqb (number r) rn) (rooms_coll s) = Some room_ ->
  (Js.truthy_opt (q_status q) = true -> q_status q = Some "raised") ->
  Js.truthy_opt (q_category q) = false ->
  exists r s',
    createGuestTicket req s = (Normal r, s') /\
    code r = 201%nat /\
    (db_next_ok s' = true ->
     exists l s'',
       getTickets q s' = (Normal (mkResponse 200 (TicketsBody l)), s'') /\
       forall t, In t (body_tickets (body r)) -> In t l).
Proof.
  intros Hreq Hcl Hyes Hcs Hdb Hroom Hqs Hqc.
  destruct (for_of_stores rn gi room_ c cs [] (before_loop s im rn))
    as (created & new & s' & Hloop & Ht & Hr & Hc & Hn & Hp).
  simpl in Ht, Hr, Hc, Hn, Hp.
  eexists. exists s'. split.
  - exact (createGuestTicket_run req s s' rn im gi c cs room_ created
             Hreq Hcl Hyes Hcs Hdb Hroom Hloop).
  - split; [reflexivity|]. intros Hdb'.
    eexists. eexists. split; [apply (getTickets_run q s' Hdb')|].
    simpl. rewrite data_tickets_created_data. intros t Hin.
    rewrite Forall_forall in Hn, Hp.
    destruct (Hp t Hin) as (t0 & Hin0 & ->).
    destruct (Hn t0 Hin0) as (ci & _ & Hshape).
    apply (Permutation_in _ (sort_desc_perm _)).
    rewrite Hr. apply in_map, filter_In. split.
    + rewrite Ht. apply in_or_app. now right.
    + apply matches_query_matching. split.
      * intros Hs. rewrite (Hqs Hs).
        destruct Hshape as (_ & _ & _ & -> & _). reflexivity.
      * intros Hcq. congruence.
Qed.

Lemma created_tickets_are_listed_witness :
  exists r s',
    createGuestTicket (guest_request "101" "I need coffee and clean towels")
                      first_create_fails = (Normal r, s') /\
    code r = 201%nat /\
    (db_next_ok s' = true ->
     exists l s'',
       getTickets raised_only s'
       = (Normal (mkResponse 200 (TicketsBody l)), s'') /\
       forall t, In t (body_tickets (body r)) -> In t l).
Proof.
  apply (created_tickets_are_listed
           (guest_request "101" "I need coffee and clean towels")
           first_create_fails "101" "I need coffee and clean towels"
           test_guest coffee_and_towels
           [mkCategoryInfo "service_fb" "coffee" (Some "high");
            mkCategoryInfo "housekeeping" "clean towels" None]
           room101 raised_only);
    reflexivity.
Defined.

(** ** More of getTickets *)

(** X8. A listing never changes the tickets or the rooms, and it always
    answers: 200 with a list when its read of the store succeeds, 500
    with "Failed to get tickets" when the read throws. *)
Theorem getTickets_reads_only (q : TicketQuery) (s : Server) :
  exists r s',
    getTickets q s = (Normal r, s') /\
    tickets_coll s' = tickets_coll s /\
    rooms_coll s' = rooms_coll s /\
    (if db_next_ok s
     then exists l, r = mkResponse 200 (TicketsBody l)
     else r = mkResponse 500 (FailureBody "Failed to get tickets")).
Proof.
  unfold getTickets, try_catch. unfold bind at 1.
  rewrite Ticket_find_run.
  destruct (db_next_ok s).
  - unfold ret. eexists. eexists. split; [reflexivity|].
    repeat split. eexists. reflexivity.
  - unfold bind, effect, modify, ret. simpl.
    eexists. eexists. split; [reflexivity|]. repeat split.
Qed.

(** X9. A status filter that names none of the three statuses is no
    error: the listing is answered 200 with no ticket. *)
Theorem getTickets_unknown_status (q : TicketQuery) (s : Server)
    (st : string) :
  q_status q = Some st ->
  Js.truthy st = true ->
  Status_of_string st = None ->
  db_next_ok s = true ->
  fst (getTickets q s) = Normal (mkResponse 200 (TicketsBody [])).
Proof.
  intros Hq Ht Hst Hdb. rewrite (getTickets_run q s Hdb). simpl.
  do 2 f_equal.
  assert (Hnone : filter (matches_query (query_field (q_status q))
                                        (query_field (q_category q)))
                         (tickets_coll s) = []).
  { induction (tickets_coll s) as [|t r IH]; simpl; [reflexivity|].
    rewrite IH. unfold query_field at 1. rewrite Hq. simpl. rewrite Ht.
    unfold matches_query.
    assert (Hne : String.eqb (Status_to_string (status t)) st = false).
    { apply String.eqb_neq. intros <-. now destruct (status t). }
    now rewrite Hne. }
  now rewrite Hnone.
Qed.

Lemma getTickets_unknown_status_witness :
  fst (getTickets (mkTicketQuery (Some "done") None) sample_store)
  = Normal (mkResponse 200 (TicketsBody [])).
Proof.
  apply (getTickets_unknown_status (mkTicketQuery (Some "done") None)
           sample_store "done");
    reflexivity.
Defined.

(** ** updateTicket *)

Lemma Ticket_findById_run (id : string) (s : Server) :
  Ticket_findById id s
  = (if db_next_ok s
     then Normal (find (fun t => String.eqb (_id t) id) (tickets_coll s))
     else Throw (DbError OpFindOne),
     set_db_faults s (tl (db_faults s))).
Proof.
  unfold Ticket_findById, bind, gets, db_op.
  now destruct (db_next_ok s).
Qed.

Lemma Ticket_findById_populate_run (id : string) (s : Server) :
  Ticket_findById_populate id s
  = (if db_next_ok s
     then Normal (option_map (populated (rooms_coll s))
                    (find (fun t => String.eqb (_id t) id) (tickets_coll s)))
     else Throw (DbError OpFindOne),
     set_db_faults s (tl (db_faults s))).
Proof.
  unfold Ticket_findById_populate, bind, gets, db_op.
  now destruct (db_next_ok s).
Qed.

Lemma Ticket_save_run (ticket : Ticket) (field : StatusField)
    (ms : list Message) (s : Server) :
  let st := match field with
            | NewStatus st => st
            | _ => status ticket
            end in
  Ticket_save ticket field ms s
  = match field with
    | BadStatus _ => (Throw (DbError OpCreate), s)
    | _ =>
        if db_next_ok s
        then (Normal (saved ticket st ms (clock s)),
              set_tickets_coll (set_db_faults s (tl (db_faults s)))
                (update_first (_id ticket)
                   (fun stored => saved stored st ms (clock s))
                   (tickets_coll s)))
        else (Throw (DbError OpCreate), set_db_faults s (tl (db_faults s)))
    end.
Proof.
  unfold Ticket_save, throw, bind, db_op, new_Date, gets, modify, ret.
  destruct field; simpl; try reflexivity; now destruct (db_next_ok s).
Qed.

Lemma populated_saved (rs : list Room) (t : Ticket) (st : Status)
    (ms : list Message) (now : Z) :
  populated rs (saved t st ms now) = saved (populated rs t) st ms now.
Proof. unfold populated. simpl. now destruct (room t). Qed.

Lemma populated_fields (rs : list Room) (t : Ticket) :
  _id (populated rs t) = _id t /\
  category (populated rs t) = category t /\
  status (populated rs t) = status t /\
  messages (populated rs t) = messages t /\
  createdAt (populated rs t) = createdAt t.
Proof. unfold populated. now destruct (room t). Qed.

Lemma find_id (id : string) (l : list Ticket) (t : Ticket) :
  find (fun x => String.eqb (_id x) id) l = Some t ->
  In t l /\ _id t = id.
Proof.
  intros H. apply find_some in H. now rewrite String.eqb_eq in H.
Qed.

Lemma Forall2_refl_list (R : Ticket -> Ticket -> Prop) (l : list Ticket) :
  (forall t, R t t) -> Forall2 R l l.
Proof. intros H. induction l; constructor; auto. Qed.

(** The update of the first document of an id relates the collection
    before and after, document by document. *)
Lemma update_first_Forall2 (R : Ticket -> Ticket -> Prop) (id : string)
    (f : Ticket -> Ticket) (l : list Ticket) :
  (forall t, R t t) ->
  (forall t, In t l -> _id t = id -> R t (f t)) ->
  Forall2 R l (update_first id f l).
Proof.
  intros Hrefl Hf. induction l as [|t r IH]; simpl; [constructor|].
  destruct (String.eqb (_id t) id) eqn:E.
  - apply String.eqb_eq in E. constructor.
    + apply Hf; [now left | exact E].
    + now apply Forall2_refl_list.
  - constructor; [apply Hrefl|]. apply IH.
    intros x Hx. apply Hf. now right.
Qed.

Lemma update_first_In (id : string) (f : Ticket -> Ticket)
    (l : list Ticket) (t : Ticket) :
  find (fun x => String.eqb (_id x) id) l = Some t ->
  In (f t) (update_first id f l).
Proof.
  induction l as [|x r IH]; simpl; [discriminate|].
  destruct (String.eqb (_id x) id).
  - intros H. inversion H; subst. now left.
  - intros H. right. now apply IH.
Qed.

Lemma update_first_other (id : string) (f : Ticket -> Ticket)
    (l : list Ticket) (t : Ticket) :
  In t l -> _id t <> id -> In t (update_first id f l).
Proof.
  induction l as [|x r IH]; simpl; [contradiction|].
  intros [<-|Hin] Hne.
  - apply String.eqb_neq in Hne. rewrite Hne. now left.
  - destruct (String.eqb (_id x) id); right; auto.
Qed.

(** What [updateTicket] does when both round trips succeed and the
    status is acceptable. *)
Lemma updateTicket_run (req : UpdateRequest) (s : Server) (t0 : Ticket) :
  db_next_ok s = true ->
  db_next_ok (set_db_faults s (tl (db_faults s))) = true ->
  find (fun t => String.eqb (_id t) (u_id req)) (tickets_coll s) = Some t0 ->
  (forall v, assign_status (u_status req) <> BadStatus v) ->
  let st := match assign_status (u_status req) with
            | NewStatus st => st
            | _ => status t0
            end in
  let ms := with_response (messages t0) (u_response req) (clock s) in
  let data := saved (populated (rooms_coll s) t0) st ms (clock s) in
  let s2 := set_tickets_coll
              (set_db_faults s (tl (tl (db_faults s))))
              (update_first (_id t0) (fun stored => saved stored st ms (clock s))
                            (tickets_coll s)) in
  updateTicket req s
  = (Normal (mkStoreResponse 200 (StoreTicket data)),
     if io s then set_trace s2 (trace s ++ [IoEmit "ticketUpdated" data ""])
     else s2).
Proof.
  intros Hdb1 Hdb2 Hfind Hok st ms data s2.
  unfold updateTicket, try_catch. unfold bind at 1.
  rewrite Ticket_findById_populate_run, Hdb1, Hfind. cbn [option_map].
  unfold bind at 1. rewrite new_Date_run.
  unfold bind at 1. rewrite Ticket_save_run.
  destruct (populated_fields (rooms_coll s) t0)
    as (Hid & _ & Hst & Hms & _).
  destruct (assign_status (u_status req)) as [|st'|v] eqn:Ha;
    [| |exfalso; exact (Hok v eq_refl)].
  all: rewrite Hdb2; unfold bind at 1; rewrite io_emit_run; unfold ret.
  all: simpl; rewrite ?Hid, ?Hst, ?Hms.
  all: subst data s2 st ms; rewrite ?Ha; simpl.
  all: destruct (io s); reflexivity.
Qed.

(** Every run of [updateTicket]: either it answers 200 and the collection
    is the old one with the first document of the id saved anew, or it
    answers 404 or 500 and neither stores nor emits anything. *)
Lemma updateTicket_cases (req : UpdateRequest) (s : Server) :
  exists r s',
    updateTicket req s = (Normal r, s') /\
    rooms_coll s' = rooms_coll s /\
    ((In (store_code r) [404; 500]%nat /\
      tickets_coll s' = tickets_coll s /\
      emitted (trace s') = emitted (trace s))
     \/
     (exists t0 st ms now,
        find (fun t => String.eqb (_id t) (u_id req)) (tickets_coll s)
        = Some t0 /\
        r = mkStoreResponse 200
              (StoreTicket (saved (populated (rooms_coll s) t0) st ms now)) /\
        (exists extra, ms = (messages t0 ++ extra)%list) /\
        tickets_coll s'
        = update_first (_id t0) (fun stored => saved stored st ms now)
                       (tickets_coll s))).
Proof.
  destruct (db_next_ok s) eqn:Hdb1.
  2:{ unfold updateTicket, try_catch. unfold bind at 1.
      rewrite Ticket_findById_populate_run, Hdb1.
      unfold bind, effect, modify, ret. simpl.
      eexists. eexists. split; [reflexivity|]. split; [reflexivity|].
      left. simpl. rewrite emitted_app. simpl. rewrite app_nil_r. auto. }
  destruct (find (fun t => String.eqb (_id t) (u_id req)) (tickets_coll s))
    as [t0|] eqn:Hfind.
  2:{ unfold updateTicket, try_catch. unfold bind at 1.
      rewrite Ticket_findById_populate_run, Hdb1, Hfind. cbn [option_map].
      unfold ret. eexists. eexists. split; [reflexivity|].
      split; [reflexivity|]. left. simpl. auto. }
  destruct (assign_status (u_status req)) as [|st'|v] eqn:Ha.
  3:{ unfold updateTicket, try_catch. unfold bind at 1.
      rewrite Ticket_findById_populate_run, Hdb1, Hfind. cbn [option_map].
      unfold bind at 1. rewrite new_Date_run.
      unfold bind at 1. rewrite Ticket_save_run, Ha.
      unfold bind, effect, modify, ret. simpl.
      eexists. eexists. split; [reflexivity|]. split; [reflexivity|].
      left. simpl. rewrite emitted_app. simpl. rewrite app_nil_r. auto. }
  all: destruct (db_next_ok (set_db_faults s (tl (db_faults s)))) eqn:Hdb2.
  all: try (
    assert (Hok : forall v, assign_status (u_status req) <> BadStatus v)
      by (intros v; rewrite Ha; discriminate);
    pose proof (updateTicket_run req s t0 Hdb1 Hdb2 Hfind Hok) as Hrun;
    cbv zeta in Hrun; rewrite Ha in Hrun;
    eexists; eexists; split; [exact Hrun|];
    split; [now destruct (io s)|];
    right; eexists t0, _, _, _; split; [reflexivity|];
    split; [reflexivity|]; split;
    [ unfold with_response;
      destruct (u_response req) as [resp|];
      [destruct (Js.truthy resp); [eexists; reflexivity|]|];
      exists []; now rewrite app_nil_r
    | now destruct (io s) ]).
  all: unfold updateTicket, try_catch; unfold bind at 1;
    rewrite Ticket_findById_populate_run, Hdb1, Hfind; cbn [option_map];
    unfold bind at 1; rewrite new_Date_run;
    unfold bind at 1; rewrite Ticket_save_run, Ha.
  all: rewrite Hdb2; unfold bind, effect, modify, ret; simpl.
  all: eexists; eexists; split; [reflexivity|]; split; [reflexivity|].
  all: left; simpl; rewrite emitted_app; simpl; rewrite app_nil_r; auto.
Qed.

Lemma same_ticket_grown_refl (t : Ticket) : same_ticket_grown t t.
Proof.
  repeat split. exists []. now rewrite app_nil_r.
Qed.

Lemma update_first_found (R : Ticket -> Ticket -> Prop) (id : string)
    (f : Ticket -> Ticket) (l : list Ticket) (t0 : Ticket) :
  (forall t, R t t) ->
  find (fun x => String.eqb (_id x) id) l = Some t0 ->
  R t0 (f t0) ->
  Forall2 R l (update_first id f l).
Proof.
  intros Hrefl Hfind Hf. induction l as [|t r IH]; simpl; [constructor|].
  simpl in Hfind. destruct (String.eqb (_id t) id).
  - inversion Hfind; subst. constructor; [exact Hf|].
    now apply Forall2_refl_list.
  - constructor; [apply Hrefl | now apply IH].
Qed.

(** X10. An update of an id that is not in the collection, when the
    look-up itself succeeds, is answered 404 "Ticket not found"; no
    ticket changes, nothing is saved and nothing is emitted. *)
Theorem updateTicket_unknown_id (req : UpdateRequest) (s : Server) :
  db_next_ok s = true ->
  find (fun t => String.eqb (_id t) (u_id req)) (tickets_coll s) = None ->
  updateTicket req s
  = (Normal (mkStoreResponse 404 (StoreFailure "Ticket not found")),
     set_db_faults s (tl (db_faults s))).
Proof.
  intros Hdb Hfind. unfold updateTicket, try_catch. unfold bind at 1.
  now rewrite Ticket_findById_populate_run, Hdb, Hfind.
Qed.

Lemma updateTicket_unknown_id_witness :
  updateTicket (mkUpdateRequest "t9" (Some "completed") None) sample_store
  = (Normal (mkStoreResponse 404 (StoreFailure "Ticket not found")),
     set_db_faults sample_store (tl (db_faults sample_store))).
Proof.
  apply (updateTicket_unknown_id
           (mkUpdateRequest "t9" (Some "completed") None) sample_store);
    reflexivity.
Defined.

(** X11. Whatever the request and whatever the store does, [updateTicket]
    keeps the collection ticket for ticket: as many tickets in the same
    order, each with the id, room, category, guest, subject and creation
    time it had, and with its old messages at the head of its messages.
    An update can change a status and add to the messages, nothing
    else of these; the rooms are untouched. *)
Theorem updateTicket_keeps_tickets (req : UpdateRequest) (s : Server) :
  Forall2 same_ticket_grown (tickets_coll s)
          (tickets_coll (snd (updateTicket req s))) /\
  rooms_coll (snd (updateTicket req s)) = rooms_coll s.
Proof.
  destruct (updateTicket_cases req s) as (r & s' & Hrun & Hrooms & Hcase).
  rewrite Hrun. simpl. split; [|exact Hrooms].
  destruct Hcase as [(_ & Ht & _)|(t0 & st & ms & now & Hfind & _ & Hms & Ht)].
  - rewrite Ht. apply Forall2_refl_list, same_ticket_grown_refl.
  - rewrite Ht. destruct (find_id _ _ _ Hfind) as [_ Hid].
    rewrite Hid.
    apply (update_first_found same_ticket_grown (u_id req) _ _ t0
             same_ticket_grown_refl Hfind).
    repeat split. exact Hms.
Qed.

(** X12. An update changes the collection and emits [ticketUpdated] only
    when it answers 200: after an answer 404 or 500 the tickets are the
    same and nothing was emitted. *)
Theorem updateTicket_failure_changes_nothing (req : UpdateRequest)
    (s s' : Server) (r : StoreResponse) :
  updateTicket req s = (Normal r, s') ->
  store_code r <> 200%nat ->
  tickets_coll s' = tickets_coll s /\
  emitted (trace s') = emitted (trace s).
Proof.
  intros Hrun Hcode.
  destruct (updateTicket_cases req s) as (r' & s'' & Hrun' & _ & Hcase).
  rewrite Hrun in Hrun'. inversion Hrun'; subst r' s''.
  destruct Hcase as [(_ & Ht & He)|(t0 & st & ms & now & _ & Hr & _)].
  - auto.
  - subst r. simpl in Hcode. congruence.
Qed.

Lemma updateTicket_failure_changes_nothing_witness :
  tickets_coll (snd (updateTicket (mkUpdateRequest "t0" (Some "completed")
                                                   (Some "On its way"))
                                  (set_db_faults sample_store [false; true])))
  = tickets_coll (set_db_faults sample_store [false; true]) /\
  emitted (trace (snd (updateTicket
                         (mkUpdateRequest "t0" (Some "completed")
                                          (Some "On its way"))
                         (set_db_faults sample_store [false; true]))))
  = emitted (trace (set_db_faults sample_store [false; true])).
Proof.
  apply (updateTicket_failure_changes_nothing
           (mkUpdateRequest "t0" (Some "completed") (Some "On its way"))
           (set_db_faults sample_store [false; true]) _
           (mkStoreResponse 500 (StoreFailure "Failed to update ticket"))).
  - vm_compute. reflexivity.
  - simpl. discriminate.
Defined.



(** ** updateTicket, then getTickets *)

(** X14. A ticket moved to a status is listed under that status: after an
    update answered 200 that asked for one of the three statuses, a
    listing filtered by the name of that status, whose read of the store
    succeeds, contains the ticket as the update returned it. *)
Theorem updated_ticket_is_listed (req : UpdateRequest) (s : Server)
    (t0 : Ticket) (v : string) (st : Status) :
  db_next_ok s = true ->
  db_next_ok (set_db_faults s (tl (db_faults s))) = true ->
  db_next_ok (set_db_faults s (tl (tl (db_faults s)))) = true ->
  find (fun t => String.eqb (_id t) (u_id req)) (tickets_coll s) = Some t0 ->
  u_status req = Some v ->
  Status_of_string v = Some st ->
  exists data s' l s'',
    updateTicket req s
    = (Normal (mkStoreResponse 200 (StoreTicket data)), s') /\
    status data = st /\
    getTickets (mkTicketQuery (Some v) None) s'
    = (Normal (mkResponse 200 (TicketsBody l)), s'') /\
    In data l.
Proof.
  intros Hdb1 Hdb2 Hdb3 Hfind Hv Hst.
  assert (Htruthy : Js.truthy v = true).
  { destruct v; [discriminate Hst | reflexivity]. }
  assert (Ha : assign_status (u_status req) = NewStatus st).
  { unfold assign_status. now rewrite Hv, Htruthy, Hst. }
  assert (Hok : forall x, assign_status (u_status req) <> BadStatus x)
    by (intros x; rewrite Ha; discriminate).
  pose proof (updateTicket_run req s t0 Hdb1 Hdb2 Hfind Hok) as Hrun.
  cbv zeta in Hrun. rewrite Ha in Hrun.
  set (ms := with_response (messages t0) (u_response req) (clock s)) in *.
  set (s' := if io s then _ else _) in Hrun.
  assert (Hdb' : db_next_ok s' = true) by (subst s'; now destruct (io s)).
  assert (Hr' : rooms_coll s' = rooms_coll s)
    by (subst s'; now destruct (io s)).
  assert (Ht' : tickets_coll s'
                = update_first (_id t0)
                    (fun stored => saved stored st ms (clock s))
                    (tickets_coll s))
    by (subst s'; now destruct (io s)).
  eexists. exists s'. eexists. eexists.
  split; [exact Hrun|]. split; [reflexivity|].
  split; [apply (getTickets_run _ s' Hdb')|].
  apply (Permutation_in _ (sort_desc_perm _)).
  rewrite Hr', <- populated_saved. apply in_map, filter_In. split.
  - rewrite Ht'.
    apply (update_first_In (_id t0)
             (fun stored => saved stored st ms (clock s))
             (tickets_coll s) t0).
    destruct (find_id _ _ _ Hfind) as [_ Hid]. now rewrite Hid.
  - unfold query_field. simpl. rewrite Htruthy. simpl.
    unfold matches_query. simpl. rewrite andb_true_r. apply String.eqb_eq.
    clear - Hst. unfold Status_of_string in Hst.
    destruct (String.eqb_spec v "raised") as [->|_];
      [inversion Hst; reflexivity|].
    destruct (String.eqb_spec v "in_progress") as [->|_];
      [inversion Hst; reflexivity|].
    destruct (String.eqb_spec v "completed") as [->|_];
      [inversion Hst; reflexivity|discriminate].
Qed.

Lemma updated_ticket_is_listed_witness :
  exists data s' l s'',
    updateTicket (mkUpdateRequest "t0" (Some "completed") None) sample_store
    = (Normal (mkStoreResponse 200 (StoreTicket data)), s') /\
    status data = completed /\
    getTickets (mkTicketQuery (Some "completed") None) s'
    = (Normal (mkResponse 200 (TicketsBody l)), s'') /\
    In data l.
Proof.
  apply (updated_ticket_is_listed
           (mkUpdateRequest "t0" (Some "completed") None) sample_store
           coffee_ticket "completed" completed);
    reflexivity.
Defined.

(** ** deleteTicket *)

Lemma Ticket_findByIdAndDelete_run (id : string) (s : Server) :
  Ticket_findByIdAndDelete id s
  = if db_next_ok s
    then (Normal tt,
          set_tickets_coll (set_db_faults s (tl (db_faults s)))
                           (remove_first id (tickets_coll s)))
    else (Throw (DbError OpFindOne), set_db_faults s (tl (db_faults s))).
Proof.
  unfold Ticket_findByIdAndDelete, bind, db_op, modify.
  now destruct (db_next_ok s).
Qed.

(** Every run of [deleteTicket]. *)
Lemma deleteTicket_cases (id : string) (s : Server) :
  exists r s',
    deleteTicket id s = (Normal r, s') /\
    rooms_coll s' = rooms_coll s /\
    emitted (trace s') = emitted (trace s) /\
    ((In (store_code r) [404; 500]%nat /\ tickets_coll s' = tickets_coll s)
     \/
     (r = mkStoreResponse 200 (StoreDone "Ticket deleted successfully") /\
      (exists t0, find (fun t => String.eqb (_id t) id) (tickets_coll s)
                  = Some t0) /\
      tickets_coll s' = remove_first id (tickets_coll s))).
Proof.
  unfold deleteTicket, try_catch. unfold bind at 1.
  rewrite Ticket_findById_run.
  destruct (db_next_ok s) eqn:Hdb1.
  2:{ unfold bind, effect, modify, ret. simpl.
      eexists. eexists. split; [reflexivity|]. simpl.
      rewrite emitted_app. simpl. rewrite app_nil_r. auto 10. }
  destruct (find _ (tickets_coll s)) as [t0|] eqn:Hfind.
  2:{ unfold ret. eexists. eexists. split; [reflexivity|]. simpl. auto 10. }
  unfold bind at 1. rewrite Ticket_findByIdAndDelete_run.
  destruct (db_next_ok (set_db_faults s (tl (db_faults s)))).
  - unfold ret. eexists. eexists. split; [reflexivity|]. simpl.
    split; [reflexivity|]. split; [reflexivity|]. right. eauto.
  - unfold bind, effect, modify, ret. simpl.
    eexists. eexists. split; [reflexivity|]. simpl.
    rewrite emitted_app. simpl. rewrite app_nil_r. auto 10.
Qed.

Lemma remove_first_filter (id : string) (l : list Ticket) :
  NoDup (map _id l) ->
  remove_first id l = filter (fun t => negb (String.eqb (_id t) id)) l.
Proof.
  induction l as [|t r IH]; simpl; intros Hnd; [reflexivity|].
  apply NoDup_cons_iff in Hnd. destruct Hnd as [Hnot Hrest].
  destruct (String.eqb (_id t) id) eqn:E; simpl.
  - apply String.eqb_eq in E. subst id.
    clear IH. induction r as [|x r IH]; simpl; [reflexivity|].
    simpl in Hnot. apply NoDup_cons_iff in Hrest.
    destruct (String.eqb (_id x) (_id t)) eqn:E'.
    + apply String.eqb_eq in E'. exfalso. apply Hnot. now left.
    + simpl. f_equal. apply IH; [tauto | tauto].
  - f_equal. now apply IH.
Qed.

(** X15. A delete of an id that is not in the collection, when the
    look-up itself succeeds, is answered 404 "Ticket not found" and
    removes nothing. *)
Theorem deleteTicket_unknown_id (id : string) (s : Server) :
  db_next_ok s = true ->
  find (fun t => String.eqb (_id t) id) (tickets_coll s) = None ->
  deleteTicket id s
  = (Normal (mkStoreResponse 404 (StoreFailure "Ticket not found")),
     set_db_faults s (tl (db_faults s))).
Proof.
  intros Hdb Hfind. unfold deleteTicket, try_catch. unfold bind at 1.
  now rewrite Ticket_findById_run, Hdb, Hfind.
Qed.

Lemma deleteTicket_unknown_id_witness :
  deleteTicket "t9" sample_store
  = (Normal (mkStoreResponse 404 (StoreFailure "Ticket not found")),
     set_db_faults sample_store (tl (db_faults sample_store))).
Proof.
  apply (deleteTicket_unknown_id "t9" sample_store); reflexivity.
Defined.

(** X16. A delete removes a ticket only when it answers 200, and it
    never emits an event: after an answer 404 or 500 (the look-up or the
    removal threw) the collection is the same; whatever the answer, the
    rooms are the same and the managers are told nothing. *)
Theorem deleteTicket_failure_changes_nothing (id : string) (s : Server) :
  rooms_coll (snd (deleteTicket id s)) = rooms_coll s /\
  emitted (trace (snd (deleteTicket id s))) = emitted (trace s) /\
  (forall r, fst (deleteTicket id s) = Normal r -> store_code r <> 200%nat ->
             tickets_coll (snd (deleteTicket id s)) = tickets_coll s).
Proof.
  destruct (deleteTicket_cases id s)
    as (r & s' & Hrun & Hrooms & Hem & Hcase).
  rewrite Hrun. simpl. split; [exact Hrooms|]. split; [exact Hem|].
  intros r' Hr Hcode. inversion Hr; subst r'.
  destruct Hcase as [(_ & Ht)|(-> & _)]; [exact Ht|].
  simpl in Hcode. congruence.
Qed.

Lemma deleteTicket_failure_changes_nothing_witness :
  tickets_coll (snd (deleteTicket "t9" sample_store))
  = tickets_coll sample_store.
Proof.
  apply (proj2 (proj2 (deleteTicket_failure_changes_nothing "t9" sample_store))
           (mkStoreResponse 404 (StoreFailure "Ticket not found"))).
  - vm_compute. reflexivity.
  - simpl. discriminate.
Defined.

(** X17. A delete of a ticket of a collection with distinct ids, whose
    two round trips succeed, is answered 200; the collection is then the
    old one without that ticket, the others in their order; and the same
    delete again, when its look-up succeeds, is answered 404. *)
Theorem deleteTicket_removes (id : string) (s : Server) (t0 : Ticket) :
  NoDup (map _id (tickets_coll s)) ->
  db_next_ok s = true ->
  db_next_ok (set_db_faults s (tl (db_faults s))) = true ->
  find (fun t => String.eqb (_id t) id) (tickets_coll s) = Some t0 ->
  exists s',
    deleteTicket id s
    = (Normal (mkStoreResponse 200 (StoreDone "Ticket deleted successfully")),
       s') /\
    tickets_coll s'
    = filter (fun t => negb (String.eqb (_id t) id)) (tickets_coll s) /\
    (forall t, In t (tickets_coll s') <->
               In t (tickets_coll s) /\ _id t <> id) /\
    S (List.length (tickets_coll s')) = List.length (tickets_coll s) /\
    (db_next_ok s' = true ->
     fst (deleteTicket id s')
     = Normal (mkStoreResponse 404 (StoreFailure "Ticket not found"))).
Proof.
  intros Hnd Hdb1 Hdb2 Hfind.
  assert (Hrun : deleteTicket id s
                 = (Normal (mkStoreResponse 200
                              (StoreDone "Ticket deleted successfully")),
                    set_tickets_coll
                      (set_db_faults s (tl (tl (db_faults s))))
                      (remove_first id (tickets_coll s)))).
  { unfold deleteTicket, try_catch. unfold bind at 1.
    rewrite Ticket_findById_run, Hdb1, Hfind.
    unfold bind at 1. rewrite Ticket_findByIdAndDelete_run, Hdb2.
    reflexivity. }
  eexists. split; [exact Hrun|]. simpl.
  rewrite (remove_first_filter id _ Hnd).
  assert (Hin : forall t,
             In t (filter (fun t => negb (String.eqb (_id t) id))
                          (tickets_coll s))
             <-> In t (tickets_coll s) /\ _id t <> id).
  { intros t. rewrite filter_In, negb_true_iff, String.eqb_neq. tauto. }
  split; [reflexivity|]. split; [exact Hin|]. split.
  - clear Hin Hrun. revert Hnd Hfind.
    induction (tickets_coll s) as [|t r IH]; simpl; [discriminate|].
    intros Hnd Hfind. apply NoDup_cons_iff in Hnd.
    destruct Hnd as [Hnot Hrest].
    destruct (String.eqb (_id t) id) eqn:E; simpl.
    + f_equal. apply String.eqb_eq in E.
      assert (Hall : filter (fun t => negb (String.eqb (_id t) id)) r = r).
      { apply forallb_filter_id, forallb_forall. intros x Hx.
        apply negb_true_iff, String.eqb_neq. intros Heq.
        apply Hnot. rewrite E, <- Heq. now apply in_map. }
      now rewrite Hall.
    + f_equal. now apply IH.
  - intros Hdb'.
    match goal with
    | |- fst (deleteTicket id ?st) = _ =>
        rewrite (deleteTicket_unknown_id id st Hdb'); [reflexivity|]
    end.
    simpl.
    match goal with
    | |- find ?p ?l = None => destruct (find p l) as [x|] eqn:Hx
    end; [|reflexivity].
    apply find_some in Hx. destruct Hx as [Hx1 Hx2].
    apply Hin in Hx1. apply String.eqb_eq in Hx2. tauto.
Qed.

Lemma deleteTicket_removes_witness :
  exists s',
    deleteTicket "t1" sample_store
    = (Normal (mkStoreResponse 200 (StoreDone "Ticket deleted successfully")),
       s') /\
    tickets_coll s'
    = filter (fun t => negb (String.eqb (_id t) "t1"))
             (tickets_coll sample_store) /\
    (forall t, In t (tickets_coll s') <->
               In t (tickets_coll sample_store) /\ _id t <> "t1") /\
    S (List.length (tickets_coll s'))
    = List.length (tickets_coll sample_store) /\
    (db_next_ok s' = true ->
     fst (deleteTicket "t1" s')
     = Normal (mkStoreResponse 404 (StoreFailure "Ticket not found"))).
Proof.
  apply (deleteTicket_removes "t1" sample_store towels_ticket);
    try reflexivity.
  repeat constructor; simpl; intuition discriminate.
Defined.

(** * More of the dashboard page *)

(** ** The category tabs and getFilteredTickets *)

Lemma filter_filter_and {A} (p q : A -> bool) (l : list A) :
  filter p (filter q l) = filter (fun x => q x && p x) l.
Proof.
  induction l as [|x r IH]; simpl; [reflexivity|].
  destruct (q x); simpl; [|exact IH].
  destruct (p x); now rewrite IH.
Qed.

Lemma known_category_In (c : string) :
  known_category c = true <-> In c allCategories.
Proof.
  unfold known_category. rewrite existsb_exists. split.
  - intros (x & Hx & Heq). apply String.eqb_eq in Heq. now subst.
  - intros H. exists c. split; [exact H | apply String.eqb_refl].
Qed.

(** X18. A category tab shows, in each column, exactly the tickets of
    the "All" view that have the category of the tab, in the same order;
    a ticket without category counts as "reception". *)
Theorem category_tab_filters (d : Dashboard) (s : Status) (cat : string) :
  In cat allCategories ->
  getFilteredTickets (handleSelectCategory d (OneTab cat)) s
  = filter (fun t => String.eqb (getTicketCategory t) cat)
           (getFilteredTickets (handleSelectCategory d AllTab) s).
Proof.
  intros Hcat. unfold getFilteredTickets.
  cbn [handleSelectCategory set_selectedCategories tickets searchQuery
       filterRoom selectedCategories].
  set (base := match filterRoom d with
               | Some r => _
               | None => _
               end).
  rewrite filter_filter_and. apply filter_ext. intros t.
  fold (known_category (getTicketCategory t)).
  cbn [existsb]. rewrite orb_false_r.
  destruct (String.eqb_spec (getTicketCategory t) cat) as [->|Hne].
  - rewrite andb_true_r. symmetry. now apply known_category_In.
  - now rewrite andb_false_r.
Qed.

Lemma category_tab_filters_witness :
  getFilteredTickets (handleSelectCategory board_with_greeting
                                           (OneTab "service_fb")) raised
  = filter (fun t => String.eqb (getTicketCategory t) "service_fb")
           (getFilteredTickets
              (handleSelectCategory board_with_greeting AllTab) raised).
Proof.
  apply (category_tab_filters board_with_greeting raised "service_fb").
  simpl. tauto.
Defined.

(** X19. The "All" view is not all tickets: a ticket whose category is a
    text other than the six categories is in no column of it, whatever
    the other filters are, although it is in its bucket. *)
Theorem unknown_category_never_rendered (d : Dashboard) (s : Status)
    (t : Ticket) (c : string) :
  category t = Some c ->
  Js.truthy c = true ->
  known_category c = false ->
  ~ In t (getFilteredTickets (handleSelectCategory d AllTab) s).
Proof.
  intros Hc Ht Hk Hin. apply getFilteredTickets_In in Hin.
  destruct Hin as (_ & _ & _ & _ & Hsel). simpl in Hsel.
  unfold getTicketCategory in Hsel. rewrite Hc in Hsel. simpl in Hsel.
  rewrite Ht in Hsel.
  change (known_category c = true) in Hsel. congruence.
Qed.

Lemma unknown_category_never_rendered_witness :
  In (sample_ticket "t5" raised "laundry" 1704067440000 "wash my shirts")
     (bucket (tickets
                (mkDashboard
                   (mkBuckets
                      [sample_ticket "t5" raised "laundry" 1704067440000
                                     "wash my shirts"] [] [])
                   [room101] (mkStats 1 1 0 0) false "" None allCategories))
             raised) /\
  ~ In (sample_ticket "t5" raised "laundry" 1704067440000 "wash my shirts")
       (getFilteredTickets
          (handleSelectCategory
             (mkDashboard
                (mkBuckets
                   [sample_ticket "t5" raised "laundry" 1704067440000
                                  "wash my shirts"] [] [])
                [room101] (mkStats 1 1 0 0) false "" None allCategories)
             AllTab)
          raised).
Proof.
  split; [left; reflexivity|].
  apply (unknown_category_never_rendered _ raised _ "laundry");
    reflexivity.
Defined.

(** The "All" tab is never the underlined one: its test asks for an
    empty selection, and neither the first state nor any choice of a tab
    leaves the selection empty; the tab of a category is underlined
    right after it was chosen. *)
Theorem all_tab_never_active (d : Dashboard) (tab : CategoryTab)
    (c : string) :
  all_tab_active initial_dashboard = false /\
  all_tab_active (handleSelectCategory d tab) = false /\
  tab_active (handleSelectCategory d (OneTab c)) c = true.
Proof.
  split; [reflexivity|]. split.
  - now destruct tab.
  - simpl. apply String.eqb_refl.
Qed.

Lemma Subseq_filter {A} (p : A -> bool) (l : list A) :
  Subseq (filter p l) l.
Proof.
  induction l as [|x r IH]; simpl; [constructor|].
  destruct (p x); now constructor.
Qed.

Lemma Subseq_trans {A} (a b c : list A) :
  Subseq a b -> Subseq b c -> Subseq a c.
Proof.
  intros Hab Hbc. revert a Hab.
  induction Hbc as [|x l1 l2 H IH|x l1 l2 H IH]; intros a Hab.
  - exact Hab.
  - constructor. now apply IH.
  - inversion Hab; subst.
    + apply Subseq_skip. now apply IH.
    + apply Subseq_take. now apply IH.
Qed.

(** X20. Whatever the filters are, a column shows tickets of its bucket
    only, each at most as often as the bucket holds it and in the order
    of the bucket: the filtered list is the bucket with tickets left
    out. *)
Theorem getFilteredTickets_subsequence (d : Dashboard) (s : Status) :
  Subseq (getFilteredTickets d s) (bucket (tickets d) s).
Proof.
  unfold getFilteredTickets.
  eapply Subseq_trans; [apply Subseq_filter|].
  assert (Hroom : forall l : list Ticket,
             Subseq (match filterRoom d with
                     | Some r =>
                         if Js.truthy r
                         then filter (fun t => String.eqb (roomNumber t) r) l
                         else l
                     | None => l
                     end) l).
  { intros l. destruct (filterRoom d) as [r|]; [|apply Subseq_refl].
    destruct (Js.truthy r); [apply Subseq_filter | apply Subseq_refl]. }
  eapply Subseq_trans; [apply Hroom|].
  assert (Hsearch : forall l : list Ticket,
             Subseq (if Js.truthy (searchQuery d)
                     then filter (matches_search (searchQuery d)) l
                     else l) l).
  { intros l. destruct (Js.truthy (searchQuery d));
      [apply Subseq_filter | apply Subseq_refl]. }
  eapply Subseq_trans; [apply Hsearch|]. apply Subseq_filter.
Qed.

(** ** The chart *)

(** X21. After a refresh that fetched a ticket list, the three counts of
    the chart are the lengths of the three buckets and their total is the
    number of tickets fetched. *)
Theorem chart_counts_fetched (d : Dashboard) (ticketsData : list Ticket)
    (rooms_ok : bool) (rooms_data : option (list Room)) :
  let d' := fst (fetchData d (Replied true (Some ticketsData))
                             (Replied rooms_ok rooms_data)) in
  map chart_count (getChartData (stats d'))
  = [List.length (bucket (tickets d') raised);
     List.length (bucket (tickets d') in_progress);
     List.length (bucket (tickets d') completed)] /\
  totalTickets (stats d') = List.length ticketsData.
Proof.
  intros d'.
  destruct (fetchData_tickets d ticketsData rooms_ok rooms_data) as [Ht Hs].
  fold d' in Ht, Hs. rewrite Ht, Hs. split; [reflexivity|].
  unfold totalTickets. simpl.
  rewrite <- (Permutation_length (groupedTickets_flat ticketsData)).
  unfold allTicketsFlat. rewrite !length_app. lia.
Qed.

(** ** fetchData when the fetch fails *)

(** X22. A refresh whose requests fail changes nothing on the board: when
    one of the two requests is rejected the tickets, rooms, stats and
    filters stay and one error toast is shown; when the ticket response
    says [success = false] or its data is no array, the buckets and the
    stats stay and no toast is shown. In both cases only the loading flag
    is cleared. *)
Theorem fetchData_failure_keeps_board (d : Dashboard)
    (ticketsResponse : ApiResponse Ticket) (roomsResponse : ApiResponse Room) :
  (ticketsResponse = Rejected \/ roomsResponse = Rejected ->
   fetchData d ticketsResponse roomsResponse
   = (set_loading d false, [ErrorToast "Failed to load dashboard data"])) /\
  (forall ok data rooms_ok rooms_data,
     ticketsResponse = Replied ok data ->
     roomsResponse = Replied rooms_ok rooms_data ->
     ok = false \/ data = None ->
     tickets (fst (fetchData d ticketsResponse roomsResponse)) = tickets d /\
     stats (fst (fetchData d ticketsResponse roomsResponse)) = stats d /\
     snd (fetchData d ticketsResponse roomsResponse) = []).
Proof.
  split.
  - intros [->| ->]; [reflexivity|]. now destruct ticketsResponse.
  - intros ok data rooms_ok rooms_data -> -> H.
    destruct H as [-> | ->].
    + simpl. destruct data, rooms_ok, rooms_data; auto.
    + simpl. destruct ok, rooms_ok, rooms_data; auto.
Qed.

Lemma fetchData_failure_keeps_board_witness :
  fetchData board_with_coffee Rejected (Replied true (Some [room101]))
  = (set_loading board_with_coffee false,
     [ErrorToast "Failed to load dashboard data"]).
Proof.
  apply (proj1 (fetchData_failure_keeps_board board_with_coffee Rejected
                  (Replied true (Some [room101])))).
  left. reflexivity.
Defined.

(** ** The ticket dialog *)

Lemma replace_by_id_ids (id : string) (u : Ticket) (l : list Ticket) :
  _id u = id -> map _id (replace_by_id id u l) = map _id l.
Proof.
  intros Hu. unfold replace_by_id. rewrite map_map. apply map_ext.
  intros t. destruct (String.eqb_spec (_id t) id) as [->|_];
    [exact Hu | reflexivity].
Qed.

Lemma replace_by_id_In (id : string) (u : Ticket) (l : list Ticket)
    (t : Ticket) :
  In t (replace_by_id id u l) ->
  (t = u /\ exists x, In x l /\ _id x = id) \/ (In t l /\ _id t <> id).
Proof.
  unfold replace_by_id. rewrite in_map_iff. intros (x & Hx & Hin).
  destruct (String.eqb_spec (_id x) id) as [Heq|Hne].
  - left. split; [now symmetry|]. exists x. auto.
  - right. subst t. auto.
Qed.

(** X23. A message that was sent from the ticket dialog, once the server
    confirms it: each bucket keeps its ids in their order, so no ticket
    moves, appears or disappears; the tickets of other ids are the ones
    that were there; every ticket of the id of the selected ticket is
    replaced by the selected ticket with the new message at the end of
    its messages, which is also what the dialog then shows; the message
    box and the suggestion are cleared. *)
Theorem handleSendMessage_confirmed (d : Dashboard) (dlg : Dialog)
    (selected : Ticket) (data : Message) :
  selectedTicket dlg = Some selected ->
  Js.truthy (Js.trim (newMessage dlg)) = true ->
  let out := handleSendMessage d dlg (MessageReplied true data) in
  let updatedTicket := set_messages selected (messages selected ++ [data]) in
  so_posted out = Some (_id selected, newMessage dlg) /\
  so_dialog out = mkDialog (Some updatedTicket) "" "" /\
  so_notices out = [SuccessNotice "Message sent successfully"] /\
  (forall s, map _id (bucket (tickets (so_dashboard out)) s)
             = map _id (bucket (tickets d) s)) /\
  (forall s t, In t (bucket (tickets (so_dashboard out)) s) ->
               (_id t = _id selected -> t = updatedTicket) /\
               (_id t <> _id selected -> In t (bucket (tickets d) s))).
Proof.
  intros Hsel Hmsg out updatedTicket.
  unfold out, handleSendMessage. rewrite Hsel, Hmsg. cbn [negb]. simpl.
  fold updatedTicket.
  split; [reflexivity|]. split; [reflexivity|]. split; [reflexivity|].
  split.
  - intros s. destruct s; simpl; now apply replace_by_id_ids.
  - intros s t Hin.
    assert (H : In t (replace_by_id (_id selected) updatedTicket
                                    (bucket (tickets d) s)))
      by (destruct s; exact Hin).
    apply replace_by_id_In in H.
    destruct H as [(-> & _)|(H1 & H2)]; split; auto; try contradiction.
Qed.

Lemma handleSendMessage_confirmed_witness :
  let out := handleSendMessage board_with_coffee
               (mkDialog (Some coffee_ticket) "On its way" "")
               (MessageReplied true
                  (mkMessage "On its way" manager_sender "Hotel Staff"
                             1704067500000)) in
  let updatedTicket :=
    set_messages coffee_ticket
      (messages coffee_ticket
         ++ [mkMessage "On its way" manager_sender "Hotel Staff"
                       1704067500000]) in
  so_posted out = Some (_id coffee_ticket, "On its way") /\
  so_dialog out = mkDialog (Some updatedTicket) "" "" /\
  so_notices out = [SuccessNotice "Message sent successfully"] /\
  (forall s, map _id (bucket (tickets (so_dashboard out)) s)
             = map _id (bucket (tickets board_with_coffee) s)) /\
  (forall s t, In t (bucket (tickets (so_dashboard out)) s) ->
               (_id t = _id coffee_ticket -> t = updatedTicket) /\
               (_id t <> _id coffee_ticket ->
                In t (bucket (tickets board_with_coffee) s))).
Proof.
  apply (handleSendMessage_confirmed board_with_coffee
           (mkDialog (Some coffee_ticket) "On its way" "") coffee_ticket
           (mkMessage "On its way" manager_sender "Hotel Staff"
                      1704067500000));
    reflexivity.
Defined.

(** X24. Nothing is sent from the ticket dialog without a ticket or with
    a message of white space only, and a message the server does not
    confirm changes no ticket: in these cases the buckets and the dialog
    are the same, and only a rejected request shows a notice, the
    error. *)
Theorem handleSendMessage_unconfirmed (d : Dashboard) (dlg : Dialog)
    (reply : MessageReply) :
  (selectedTicket dlg = None \/ Js.trim (newMessage dlg) = "" ->
   handleSendMessage d dlg reply = mkSendOutcome d dlg None []) /\
  ((reply = MessageRejected \/ exists data, reply = MessageReplied false data)
   ->
   tickets (so_dashboard (handleSendMessage d dlg reply)) = tickets d /\
   so_dialog (handleSendMessage d dlg reply) = dlg /\
   (forall n, In n (so_notices (handleSendMessage d dlg reply)) ->
              reply = MessageRejected /\
              n = ErrorNotice "Failed to send message")).
Proof.
  unfold handleSendMessage. split.
  - intros [H|H].
    + now rewrite H.
    + destruct (selectedTicket dlg); [|reflexivity]. now rewrite H.
  - intros H.
    destruct (selectedTicket dlg) as [sel|];
      [|simpl; repeat split; contradiction].
    destruct (negb (Js.truthy (Js.trim (newMessage dlg))));
      [simpl; repeat split; contradiction|].
    destruct H as [->|[data ->]]; simpl.
    + repeat split; destruct H as [<-|[]]; reflexivity.
    + repeat split; contradiction.
Qed.

Lemma handleSendMessage_unconfirmed_witness :
  handleSendMessage board_with_coffee
    (mkDialog (Some coffee_ticket) "   " "") MessageRejected
  = mkSendOutcome board_with_coffee
      (mkDialog (Some coffee_ticket) "   " "") None [].
Proof.
  apply (proj1 (handleSendMessage_unconfirmed board_with_coffee
                  (mkDialog (Some coffee_ticket) "   " "")
                  MessageRejected)).
  right. reflexivity.
Defined.

(** ** Drag and drop *)

(** A drop asks the server for a status change exactly when there is
    a drop target, the dragged card is a ticket of the board and the id
    of the target is not the name of the status of that ticket; the
    request then carries the id of the target as the new status, whether
    or not it names a status. A card dropped on its own column, or
    outside every target, asks for nothing. *)
Theorem handleDragEnd_request (b : Buckets) (active_id : string)
    (over : option string) (id newStatus : string) :
  handleDragEnd b active_id over = Some (id, newStatus) <->
  over = Some newStatus /\ id = active_id /\
  exists ticket,
    find_on_board b active_id = Some ticket /\
    Status_to_string (status ticket) <> newStatus.
Proof.
  unfold handleDragEnd.
  destruct over as [o|].
  2:{ split; [discriminate | intros ([=] & _)]. }
  destruct (find_on_board b active_id) as [ticket|].
  2:{ split; [discriminate | intros (_ & _ & t & [=] & _)]. }
  destruct (String.eqb_spec (Status_to_string (status ticket)) o)
    as [Heq|Hne].
  - split; [discriminate|].
    intros (Ho & _ & t & Ht & Hs). inversion Ho; inversion Ht; subst.
    contradiction.
  - split.
    + intros H. inversion H; subst. repeat split. exists ticket. auto.
    + intros (Ho & -> & _). inversion Ho; subst. reflexivity.
Qed.

(** A card of the board dropped on another card: the target is that
    card, and its id is sent as the new status. *)
Example drop_on_a_card :
  handleDragEnd (mkBuckets [coffee_ticket; towels_ticket] [] []) "t0"
                (Some "t1")
  = Some ("t0", "t1").
Proof. vm_compute. reflexivity. Qed.

(** ** The related tickets of the dialog *)

(** X25. Being related is symmetric: the dialog of a ticket lists another
    ticket exactly when the dialog of that one would list the first. *)
Theorem isRelated_sym (a b : Ticket) : isRelated a b = isRelated b a.
Proof.
  unfold isRelated.
  rewrite (String.eqb_sym (_id b) (_id a)).
  destruct (String.eqb (_id a) (_id b)); [reflexivity|].
  rewrite (String.eqb_sym (name (guestInfo b)) (name (guestInfo a))).
  destruct (String.eqb (name (guestInfo a)) (name (guestInfo b)));
    [|reflexivity].
  rewrite (String.eqb_sym (roomNumber b) (roomNumber a)).
  destruct (String.eqb (roomNumber a) (roomNumber b)); [|reflexivity].
  simpl. f_equal.
  replace (createdAt b - createdAt a) with (- (createdAt a - createdAt b))
    by lia.
  apply Z.abs_opp.
Qed.

(** * The guest chat page against the server *)

Lemma truthy_of_trim (m : string) :
  Js.truthy (Js.trim m) = true -> Js.truthy m = true.
Proof. now destruct m. Qed.

Lemma slice_last_snoc {A} (l : list A) (x : A) : slice_last (l ++ [x]) = l.
Proof. apply removelast_last. Qed.

(** The page up to the answer of the assistant. *)
Lemma guest_chat_answered (rn : string) (ticket_reachable : bool) (now : Z)
    (g : GuestChat) (s s1 : Server) (c : Classification) :
  Js.truthy (Js.trim (message_box g)) = true ->
  isSubmitting g = false ->
  classifyWithExternalAPI (message_box g) (Some rn) s = (Normal c, s1) ->
  guest_handleSendMessage rn true ticket_reachable now g s
  = (let answered :=
       (chat_messages g
          ++ [mkChatMessage user_role (message_box g) now;
              mkChatMessage assistant_role (aiResponse c) now])%list in
     if wants_ticket (should_create_ticket c) (categories c)
     then
       if negb ticket_reachable
       then ret (mkGuestChat answered "" false,
                 [ErrorNotice "Failed to send request to staff"])
       else
         r <- createGuestTicket
                (mkGuestTicketBody (Some rn)
                   (Some (mkReqGuestInfo ("Guest-" ++ rn)
                            (Some ("guest." ++ rn ++ "@hotel.com"))
                            (Some "Not provided")))
                   (Some (message_box g))) ;;
         ret (mkGuestChat answered "" false, ticket_notices r)
     else ret (mkGuestChat answered "" false, [])) s1.
Proof.
  intros Hmsg Hsub Hcl. unfold guest_handleSendMessage.
  rewrite Hmsg, Hsub. cbn [negb orb].
  assert (Hrun := chatWithAI_run
            (mkChatRequest (Some (message_box g))
               (Some (mkChatGuestInfo (Some ("Guest-" ++ rn)) (Some rn))))
            s s1 (message_box g)
            (mkChatGuestInfo (Some ("Guest-" ++ rn)) (Some rn)) c
            eq_refl (truthy_of_trim _ Hmsg) eq_refl Hcl).
  rewrite (bind_normal _ _ _ _ _ Hrun).
  cbn [chat_code chat_body axios_resolves Nat.leb Nat.ltb negb andb].
  cbv zeta. rewrite <- !app_assoc. reflexivity.
Qed.

(** X26. The guest page sends nothing while the message box holds white
    space only or while a message is being sent: the page and the server
    are as they were and no toast is shown. *)
Theorem guest_blank_or_busy (rn : string)
    (ai_reachable ticket_reachable : bool) (now : Z) (g : GuestChat)
    (s : Server) :
  Js.trim (message_box g) = "" \/ isSubmitting g = true ->
  guest_handleSendMessage rn ai_reachable ticket_reachable now g s
  = (Normal (g, []), s).
Proof.
  intros H. unfold guest_handleSendMessage.
  destruct H as [H|H]; rewrite H; [reflexivity|].
  now rewrite orb_true_r.
Qed.

Lemma guest_blank_or_busy_witness :
  guest_handleSendMessage "101" true true 1704067440000
    (mkGuestChat [] "   " false) (sample_server (Normal coffee_and_towels) [])
  = (Normal (mkGuestChat [] "   " false, []),
     sample_server (Normal coffee_and_towels) []).
Proof.
  apply (guest_blank_or_busy "101" true true 1704067440000
           (mkGuestChat [] "   " false)
           (sample_server (Normal coffee_and_towels) [])).
  left. reflexivity.
Defined.

(** X27. When the assistant cannot be reached, the conversation is put
    back as it was before the message, the error toast is shown and the
    server is untouched; the text the guest typed is not put back in the
    message box. *)
Theorem guest_assistant_unreachable (rn : string) (ticket_reachable : bool)
    (now : Z) (g : GuestChat) (s : Server) :
  Js.truthy (Js.trim (message_box g)) = true ->
  isSubmitting g = false ->
  guest_handleSendMessage rn false ticket_reachable now g s
  = (Normal (mkGuestChat (chat_messages g) "" false,
             [ErrorNotice "Failed to send message. Please try again."]), s).
Proof.
  intros Hmsg Hsub. unfold guest_handleSendMessage.
  rewrite Hmsg, Hsub. cbn [negb orb]. now rewrite slice_last_snoc.
Qed.

Lemma guest_assistant_unreachable_witness :
  guest_handleSendMessage "101" false true 1704067440000
    (mkGuestChat [] "I need coffee" false)
    (sample_server (Normal coffee_and_towels) [])
  = (Normal (mkGuestChat [] "" false,
             [ErrorNotice "Failed to send message. Please try again."]),
     sample_server (Normal coffee_and_towels) []).
Proof.
  apply (guest_assistant_unreachable "101" true 1704067440000
           (mkGuestChat [] "I need coffee" false)
           (sample_server (Normal coffee_and_towels) []));
    reflexivity.
Defined.



(** X29. A message the classification wants tickets for, from a room
    that exists. The guest reads "I'll handle your ... request
    immediately!"; the server attempts one ticket per classified
    category, and [created], the tickets that reached the answer, are as
    many as the categories less the logged failures. When at least one
    ticket was created the page shows exactly one toast, with that count
    and the names of all classified categories, also of those whose
    ticket was not created; when none was created it shows no toast at
    all, not even an error. *)
Theorem guest_message_creates_tickets (rn : string) (now : Z)
    (g : GuestChat) (s : Server) (c : Classification)
    (cs : list CategoryInfo) (room_ : Room) :
  Js.truthy (Js.trim (message_box g)) = true ->
  isSubmitting g = false ->
  Js.truthy rn = true ->
  classifier s (message_box g) rn = Normal c ->
  should_create_ticket c = true ->
  categories c = Some cs ->
  cs <> [] ->
  db_next_ok s = true ->
  find (fun r => String.eqb (number r) rn) (rooms_coll s) = Some room_ ->
  exists created new l s',
    guest_handleSendMessage rn true true now g s
    = (Normal
         (mkGuestChat
            (chat_messages g
               ++ [mkChatMessage user_role (message_box g) now;
                   mkChatMessage assistant_role (aiResponse c) now])
            "" false,
          if Nat.ltb 0 (List.length created)
          then [created_notice (List.length created) (map ci_category cs)]
          else []),
       s') /\
    tickets_coll s' = (tickets_coll s ++ new)%list /\
    trace s' = (trace s ++ l)%list /\
    create_attempts l = map ci_category cs /\
    (List.length (logged_errors l) + List.length created)%nat
      = List.length cs /\
    List.length new = (List.length created + populate_failures l)%nat /\
    Subseq created (map (populated (rooms_coll s)) new).
Proof.
  intros Hmsg Hsub Hrn Hcl Hyes Hcs Hne Hdb Hroom.
  pose proof (classify_run_normal (message_box g) rn s c Hcl) as Hrun.
  remember [ConsoleLog; AxiosPost (message_box g) rn; ConsoleLog] as l0
    eqn:El0.
  set (s1 := set_trace s (trace s ++ l0)) in Hrun.
  assert (Hreq : required_fields
                   (mkGuestTicketBody (Some rn)
                      (Some (mkReqGuestInfo ("Guest-" ++ rn)
                               (Some ("guest." ++ rn ++ "@hotel.com"))
                               (Some "Not provided")))
                      (Some (message_box g)))
                 = Some (rn,
                         mkReqGuestInfo ("Guest-" ++ rn)
                           (Some ("guest." ++ rn ++ "@hotel.com"))
                           (Some "Not provided"),
                         message_box g)).
  { unfold required_fields. simpl.
    now rewrite Hrn, (truthy_of_trim _ Hmsg). }
  destruct (createGuestTicket_created _ s1 rn (message_box g) _ c cs room_
              Hreq Hcl Hyes Hcs Hdb Hroom)
    as (created & s' & Hticket & Hout).
  destruct Hout as (new & l & Ht & Htr & _ & _ & Ha & _ & Hn & He & _ & Hs & _).
  exists created, new,
    (l0 ++ [ConsoleLog; AxiosPost (message_box g) rn; ConsoleLog;
            RoomFindOne rn] ++ l)%list, s'.
  split.
  - rewrite (guest_chat_answered rn true now g s s1 c Hmsg Hsub Hrun).
    cbv zeta. unfold wants_ticket. rewrite Hyes, Hcs.
    destruct cs as [|ci cs']; [contradiction|]. cbn [andb negb].
    rewrite (bind_normal _ _ _ _ _ Hticket). reflexivity.
  - split; [exact Ht|]. split.
    { rewrite Htr. simpl. rewrite <- !app_assoc. reflexivity. }
    rewrite !create_attempts_app, !logged_errors_app, !populate_failures_app.
    rewrite El0. simpl.
    repeat split; assumption.
Qed.

Lemma guest_message_creates_tickets_witness :
  exists created new l s',
    guest_handleSendMessage "101" true true 1704067440000
      (mkGuestChat [] "I need coffee and clean towels" false)
      first_create_fails
    = (Normal
         (mkGuestChat
            ([] ++ [mkChatMessage user_role "I need coffee and clean towels"
                                  1704067440000;
                    mkChatMessage assistant_role
                      (aiResponse coffee_and_towels) 1704067440000])
            "" false,
          if Nat.ltb 0 (List.length created)
          then [created_notice (List.length created)
                  (map ci_category
                     [mkCategoryInfo "service_fb" "coffee" (Some "high");
                      mkCategoryInfo "housekeeping" "clean towels" None])]
          else []),
       s') /\
    tickets_coll s' = (tickets_coll first_create_fails ++ new)%list /\
    trace s' = (trace first_create_fails ++ l)%list /\
    create_attempts l
    = map ci_category
        [mkCategoryInfo "service_fb" "coffee" (Some "high");
         mkCategoryInfo "housekeeping" "clean towels" None] /\
    (List.length (logged_errors l) + List.length created)%nat
      = List.length [mkCategoryInfo "service_fb" "coffee" (Some "high");
                     mkCategoryInfo "housekeeping" "clean towels" None] /\
    List.length new = (List.length created + populate_failures l)%nat /\
    Subseq created (map (populated (rooms_coll first_create_fails)) new).
Proof.
  apply (guest_message_creates_tickets "101" 1704067440000
           (mkGuestChat [] "I need coffee and clean towels" false)
           first_create_fails coffee_and_towels
           [mkCategoryInfo "service_fb" "coffee" (Some "high");
            mkCategoryInfo "housekeeping" "clean towels" None]
           room101);
    try reflexivity.
  discriminate.
Defined.

(** Both tickets were created: the toast counts two. *)
Example toast_after_a_full_creation :
  option_map snd
    (match fst (guest_handleSendMessage "101" true true 1704067440000
                  (mkGuestChat [] "I need coffee and clean towels" false)
                  (sample_server (Normal coffee_and_towels) [])) with
     | Normal x => Some x
     | Throw _ => None
     end)
  = Some [SuccessNotice
            "2 service requests created for: service_fb, housekeeping"].
Proof. vm_compute. reflexivity. Qed.

(** One ticket of two was created: the toast names both categories. *)
Example toast_after_a_partial_creation :
  option_map snd
    (match fst (guest_handleSendMessage "101" true true 1704067440000
                  (mkGuestChat [] "I need coffee and clean towels" false)
                  first_create_fails) with
     | Normal x => Some x
     | Throw _ => None
     end)
  = Some [SuccessNotice
            "Service request created for service_fb, housekeeping"].
Proof. vm_compute. reflexivity. Qed.

(** X30. A message the classification wants tickets for, from a room
    that is not in the collection: the guest reads "I'll handle your ...
    request immediately!" and then the toast "Failed to send request to
    staff"; no ticket is stored. *)
Theorem guest_message_unknown_room (rn : string) (now : Z)
    (g : GuestChat) (s : Server) (c : Classification)
    (cs : list CategoryInfo) :
  Js.truthy (Js.trim (message_box g)) = true ->
  isSubmitting g = false ->
  Js.truthy rn = true ->
  classifier s (message_box g) rn = Normal c ->
  should_create_ticket c = true ->
  categories c = Some cs ->
  cs <> [] ->
  db_next_ok s = true ->
  find (fun r => String.eqb (number r) rn) (rooms_coll s) = None ->
  exists s',
    guest_handleSendMessage rn true true now g s
    = (Normal
         (mkGuestChat
            (chat_messages g
               ++ [mkChatMessage user_role (message_box g) now;
                   mkChatMessage assistant_role (aiResponse c) now])
            "" false,
          [ErrorNotice "Failed to send request to staff"]), s') /\
    tickets_coll s' = tickets_coll s.
Proof.
  intros Hmsg Hsub Hrn Hcl Hyes Hcs Hne Hdb Hroom.
  pose proof (classify_run_normal (message_box g) rn s c Hcl) as Hrun.
  set (s1 := set_trace s _) in Hrun.
  assert (Hrun1 : classifyWithExternalAPI (message_box g) (Some rn) s1
                  = (Normal c,
                     set_trace s1 (trace s1 ++ [ConsoleLog;
                                                AxiosPost (message_box g) rn;
                                                ConsoleLog])))
    by (apply classify_run_normal; exact Hcl).
  set (s2 := set_trace s1 _) in Hrun1.
  pose proof (Room_findOne_run rn s2) as Hfind. simpl in Hfind.
  change (db_next_ok s2) with (db_next_ok s) in Hfind.
  rewrite Hdb, Hroom in Hfind.
  eexists. split.
  - rewrite (guest_chat_answered rn true now g s s1 c Hmsg Hsub Hrun).
    cbv zeta. unfold wants_ticket. rewrite Hyes, Hcs.
    destruct cs as [|ci cs']; [contradiction|]. cbn [andb negb].
    unfold bind at 1. unfold createGuestTicket, required_fields. simpl.
    rewrite Hrn, (truthy_of_trim _ Hmsg). cbn [negb orb].
    unfold try_catch.
    rewrite (bind_normal _ _ _ _ _ Hrun1), Hyes. cbn [negb].
    rewrite (bind_normal _ _ _ _ _ Hfind). unfold ret. reflexivity.
  - reflexivity.
Qed.

Lemma guest_message_unknown_room_witness :
  exists s',
    guest_handleSendMessage "999" true true 1704067440000
      (mkGuestChat [] "I need coffee" false)
      (sample_server (Normal coffee_and_towels) [])
    = (Normal
         (mkGuestChat
            ([] ++ [mkChatMessage user_role "I need coffee" 1704067440000;
                    mkChatMessage assistant_role
                      (aiResponse coffee_and_towels) 1704067440000])
            "" false,
          [ErrorNotice "Failed to send request to staff"]), s') /\
    tickets_coll s'
    = tickets_coll (sample_server (Normal coffee_and_towels) []).
Proof.
  apply (guest_message_unknown_room "999" 1704067440000
           (mkGuestChat [] "I need coffee" false)
           (sample_server (Normal coffee_and_towels) []) coffee_and_towels
           [mkCategoryInfo "service_fb" "coffee" (Some "high");
            mkCategoryInfo "housekeeping" "clean towels" None]);
    try reflexivity.
  discriminate.
Defined.
